(** * IC'ALPS CRM migration pipeline: stage mapping, site aggregation,
      association resolution and computed columns

    A shallow embedding of the decision logic of the pipeline
    (src/business_logic and src/processors of icalps_pipeline) and the
    properties its specification states about it.

    Conventions of the embedding.
    - A Python [str] is a [string]; characters outside ASCII are carried as
      their UTF-8 bytes, so that comparing two strings byte by byte orders
      them as Python does, by code point.  Every key the code matches
      against is ASCII, and an ASCII byte never occurs inside a multi-byte
      UTF-8 sequence, so substring tests against those keys are the ones
      Python performs.  [str.lower], [str.strip] and [str.split] are
      modelled on the ASCII range: letters outside it are left as they are,
      and white space outside it (U+00A0 and the like) is not stripped.
    - A Python [float] is a binary64 [float] (the kernel's primitive floats).
    - A pandas cell that may be missing is an inductive type with a case
      for NaN / None.
    - A [dict] is a [gmap]; a data frame is the list of its rows, in row
      order.
    - Code that may raise returns a [result].
    - A company id is an integer; the dtype of the id column ([int64], or
      [float64] once an id of the extract was missing) is an input of the
      site aggregation, and [int64] arithmetic wraps around. *)

From Stdlib Require Import ZArith List String Ascii Bool Lia Floats.
From Stdlib Require Import Sorted OrderedTypeEx.
From stdpp Require Import gmap strings list.

#[local] Set Warnings "-inexact-float".

Local Open Scope string_scope.
Local Open Scope Z_scope.

(** ** Python values and exceptions *)

Inductive exn : Type :=
| KeyError
| ValueError
| TypeError.

Inductive result (A : Type) : Type :=
| Ok (a : A)
| Raise (e : exn).
Arguments Ok {A} a.
Arguments Raise {A} e.

(** [d[k]]: raises [KeyError] on a missing key. *)
Definition dict_getitem `{Countable K} {V : Type} (d : gmap K V) (k : K) : result V :=
  match d !! k with
  | Some v => Ok v
  | None => Raise KeyError
  end.

(** [k in d]. *)
Definition dict_contains `{Countable K} {V : Type} (d : gmap K V) (k : K) : bool :=
  match d !! k with
  | Some _ => true
  | None => false
  end.

(** [d.get(k, default)]. *)
Definition dict_get `{Countable K} {V : Type} (d : gmap K V) (k : K) (default : V) : V :=
  match d !! k with
  | Some v => v
  | None => default
  end.

(** ** The [str] methods the pipeline uses *)

Module PyStr.

(** [c.isspace()] on the ASCII range: TAB..CR, FS..US and the space. *)
Definition is_space (c : ascii) : bool :=
  let n := nat_of_ascii c in
  ((9 <=? n)%nat && (n <=? 13)%nat) || ((28 <=? n)%nat && (n <=? 32)%nat).

Fixpoint lstrip (s : string) : string :=
  match s with
  | EmptyString => EmptyString
  | String c s' => if is_space c then lstrip s' else s
  end.

Fixpoint rstrip (s : string) : string :=
  match s with
  | EmptyString => EmptyString
  | String c s' =>
      match rstrip s' with
      | EmptyString => if is_space c then EmptyString else String c EmptyString
      | r => String c r
      end
  end.

(** [s.strip()]. *)
Definition strip (s : string) : string := rstrip (lstrip s).

Definition lower_char (c : ascii) : ascii :=
  let n := nat_of_ascii c in
  if ((65 <=? n)%nat && (n <=? 90)%nat)%bool then ascii_of_nat (n + 32) else c.

(** [s.lower()]. *)
Fixpoint lower (s : string) : string :=
  match s with
  | EmptyString => EmptyString
  | String c s' => String (lower_char c) (lower s')
  end.

(** [needle in hay]. *)
Fixpoint contains (needle hay : string) : bool :=
  String.prefix needle hay
  || match hay with
     | EmptyString => false
     | String _ hay' => contains needle hay'
     end.

(** Truth value of a [str]: the empty string is false. *)
Definition truthy (s : string) : bool := negb (s =? "")%string.

(** [x in [a, b, ...]] for a list of strings. *)
Definition in_list (x : string) (l : list string) : bool :=
  existsb (String.eqb x) l.

(** [s.split()]: the maximal runs of non-space characters.  [cur] is the
    word being read, reversed. *)
Fixpoint split_ws_aux (s : string) (cur : list ascii) : list string :=
  let flush (rest : list string) :=
    match cur with
    | [] => rest
    | _ => string_of_list_ascii (rev cur) :: rest
    end in
  match s with
  | EmptyString => flush []
  | String c s' =>
      if is_space c then flush (split_ws_aux s' [])
      else split_ws_aux s' (c :: cur)
  end.

Definition split_ws (s : string) : list string := split_ws_aux s [].

(** [sep.join(l)]. *)
Fixpoint join (sep : string) (l : list string) : string :=
  match l with
  | [] => ""
  | [x] => x
  | x :: l' => x ++ sep ++ join sep l'
  end.

(** [s.split(c)[0]]: the text before the first occurrence of [c]. *)
Fixpoint before_char (c : ascii) (s : string) : string :=
  match s with
  | EmptyString => EmptyString
  | String d s' => if Ascii.eqb c d then EmptyString else String d (before_char c s')
  end.

(** Removal of a literal prefix, when present. *)
Definition drop_prefix (p s : string) : string :=
  if String.prefix p s
  then String.substring (String.length p) (String.length s - String.length p) s
  else s.

End PyStr.

(** ** Python floats *)

Module PyFloat.

Local Open Scope float_scope.

(** [min(a, b)]: the first argument unless the second is smaller. *)
Definition py_min (a b : float) : float := if b <? a then b else a.

(** [max(a, b)]: the first argument unless the second is larger. *)
Definition py_max (a b : float) : float := if a <? b then b else a.

(** [pd.notna] on a float. *)
Definition notna (f : float) : bool := negb (PrimFloat.is_nan f).

(** [.fillna(0)] on a float cell. *)
Definition fillna0 (f : float) : float := if PrimFloat.is_nan f then 0 else f.

End PyFloat.

(** ** Cells of the opportunity extract *)

(** A text cell as pandas holds it: a [str], NaN (an empty CSV field) or
    [None]. *)
Inductive text_cell : Type :=
| Text (s : string)
| NaN
| PyNone.

(** [str(x)] on a text cell. *)
Definition py_str (c : text_cell) : string :=
  match c with
  | Text s => s
  | NaN => "nan"
  | PyNone => "None"
  end.

(** A numeric cell: a number (a numeric text is held as the number it
    denotes), a missing value, or a value no number can be read from. *)
Inductive num_cell : Type :=
| Num (f : float)
| NumMissing
| NotNumeric.

(** An opportunity row; [None] is a column the row does not have. *)
Record opportunity : Type := {
  Oppo_Status : option text_cell;
  Oppo_Stage : option text_cell;
  Oppo_Type : option text_cell;
  Oppo_Certainty : option num_cell
}.

(** [str(row.get(col, '')).strip()]. *)
Definition get_str_stripped (c : option text_cell) : string :=
  PyStr.strip (match c with Some x => py_str x | None => "" end).

(** ** business_logic/pipeline_mapper.py *)

Module PipelineMapper.

Inductive PipelineType : Type :=
| STUDIES
| SALES.

Definition PipelineType_value (p : PipelineType) : string :=
  match p with
  | STUDIES => "Studies Pipeline"
  | SALES => "Sales Pipeline"
  end.

Definition PipelineType_eqb (p q : PipelineType) : bool :=
  match p, q with
  | STUDIES, STUDIES | SALES, SALES => true
  | _, _ => false
  end.

Inductive DealStage : Type :=
| STUDIES_IDENTIFICATION
| STUDIES_QUALIFIED
| STUDIES_EVALUATION
| STUDIES_PROPOSITIONS
| STUDIES_NEGOTIATION
| SALES_IDENTIFIED
| SALES_QUALIFIED
| SALES_DESIGN_IN
| SALES_NEGOTIATE
| SALES_DESIGN_WIN
| CLOSED_WON
| CLOSED_LOST.

Definition DealStage_value (s : DealStage) : string :=
  match s with
  | STUDIES_IDENTIFICATION => "01-Identification"
  | STUDIES_QUALIFIED => "02-Qualifiée"
  | STUDIES_EVALUATION => "03-Evaluation technique"
  | STUDIES_PROPOSITIONS => "04-Construction propositions"
  | STUDIES_NEGOTIATION => "05-Négociation"
  | SALES_IDENTIFIED => "Identified"
  | SALES_QUALIFIED => "Qualified"
  | SALES_DESIGN_IN => "Design in"
  | SALES_NEGOTIATE => "Negotiate"
  | SALES_DESIGN_WIN => "Design Win"
  | CLOSED_WON => "closedwon"
  | CLOSED_LOST => "closedlost"
  end.

(** The arguments are Python values that are a [str] or [None]; [None]
    is itself a key of [pipeline_rules]. *)
Definition pyval : Type := option string.

Definition pipeline_rules : gmap pyval PipelineType :=
  list_to_map
    [ (Some "Preetude", STUDIES);
      (Some "FTK", SALES);
      (None, SALES);
      (Some "", SALES);
      (Some "NULL", SALES) ].

Definition final_stage_mapping : gmap pyval (option DealStage) :=
  list_to_map
    [ (Some "Won", Some CLOSED_WON);
      (Some "Lost", Some CLOSED_LOST);
      (Some "NoGo", Some CLOSED_LOST);
      (Some "Abandonne", Some CLOSED_LOST);
      (Some "Sleap", None) ].

Definition studies_stage_mapping : gmap pyval DealStage :=
  list_to_map
    [ (Some "Identification", STUDIES_IDENTIFICATION);
      (Some "Qualified", STUDIES_QUALIFIED);
      (Some "Qualifiée", STUDIES_QUALIFIED);
      (Some "Evaluation technique", STUDIES_EVALUATION);
      (Some "Construction propositions", STUDIES_PROPOSITIONS);
      (Some "Negotiating", STUDIES_NEGOTIATION);
      (Some "Négociation", STUDIES_NEGOTIATION) ].

Definition sales_stage_mapping : gmap pyval DealStage :=
  list_to_map
    [ (Some "Identification", SALES_IDENTIFIED);
      (Some "Qualified", SALES_QUALIFIED);
      (Some "Qualifiée", SALES_QUALIFIED);
      (Some "Evaluation technique", SALES_DESIGN_IN);
      (Some "Construction propositions", SALES_NEGOTIATE);
      (Some "Negotiating", SALES_DESIGN_WIN);
      (Some "Négociation", SALES_DESIGN_WIN) ].

Definition determine_pipeline (oppo_type : pyval) : PipelineType :=
  dict_get pipeline_rules oppo_type SALES.

(** The active-stage part of [map_deal_stage]: the stage table of the
    pipeline, then the default. *)
Definition map_active (pipeline : PipelineType) (oppo_stage : pyval)
  : result (string * string) :=
  let stage_mapping :=
    if PipelineType_eqb pipeline STUDIES then studies_stage_mapping
    else sales_stage_mapping in
  match stage_mapping !! oppo_stage with
  | Some mapped_stage => Ok (PipelineType_value pipeline, DealStage_value mapped_stage)
  | None =>
      let default_stage :=
        if PipelineType_eqb pipeline STUDIES then STUDIES_IDENTIFICATION
        else SALES_IDENTIFIED in
      Ok (PipelineType_value pipeline, DealStage_value default_stage)
  end.

Definition map_deal_stage (oppo_status oppo_stage oppo_type : pyval)
  : result (string * string) :=
  let pipeline := determine_pipeline oppo_type in
  if dict_contains final_stage_mapping oppo_status then
    match dict_getitem final_stage_mapping oppo_status with
    | Raise e => Raise e
    | Ok (Some final_stage) =>
        Ok (PipelineType_value pipeline, DealStage_value final_stage)
    | Ok None => map_active pipeline oppo_stage
    end
  else map_active pipeline oppo_stage.

(** [not x or x == ''] for a value that is a [str] or [None]. *)
Definition missing (x : pyval) : bool :=
  match x with
  | None => true
  | Some s => negb (PyStr.truthy s) || (s =? "")%string
  end.

(** [status in ['Won', 'Lost']]. *)
Definition clear_final (status : pyval) : bool :=
  match status with
  | None => false
  | Some s => PyStr.in_list s ["Won"; "Lost"]
  end.

Local Open Scope float_scope.

Definition _calculate_mapping_confidence (status stage oppo_type : pyval) : float :=
  let confidence := 1.0 in
  let confidence := if missing status then confidence - 0.2 else confidence in
  let confidence := if missing stage then confidence - 0.2 else confidence in
  let confidence := if missing oppo_type then confidence - 0.1 else confidence in
  let confidence :=
    if clear_final status then PyFloat.py_min 1.0 (confidence + 0.2)
    else confidence in
  PyFloat.py_max 0.1 confidence.

(** The collapse of ['nan'], ['None'] and ['NULL'] in
    [apply_pipeline_mapping]. *)
Definition collapse_null (s : string) : string :=
  if PyStr.in_list s ["nan"; "None"; "NULL"] then "" else s.

(** One iteration of the loop of [apply_pipeline_mapping]: the pipeline,
    the stage and the confidence written to the row. *)
Definition apply_pipeline_mapping_row (row : opportunity)
  : result (string * string * float) :=
  let oppo_status := collapse_null (get_str_stripped (Oppo_Status row)) in
  let oppo_stage := collapse_null (get_str_stripped (Oppo_Stage row)) in
  let oppo_type := collapse_null (get_str_stripped (Oppo_Type row)) in
  match map_deal_stage (Some oppo_status) (Some oppo_stage) (Some oppo_type) with
  | Raise e => Raise e
  | Ok (pipeline, stage) =>
      Ok (pipeline, stage,
          _calculate_mapping_confidence (Some oppo_status) (Some oppo_stage) (Some oppo_type))
  end.

(** The confidence score as the specification words it: start at 1.0,
    subtract 0.2 for a missing status, 0.2 for a missing stage, 0.1 for a
    missing type, add 0.2 capped at 1.0 for status Won or Lost, floor at
    0.1. *)
Definition confidence_spec (status stage oppo_type : pyval) : float :=
  let is_missing (x : pyval) :=
    match x with None => true | Some s => (s =? "")%string end in
  let c := 1.0 in
  let c := if is_missing status then c - 0.2 else c in
  let c := if is_missing stage then c - 0.2 else c in
  let c := if is_missing oppo_type then c - 0.1 else c in
  let won_or_lost :=
    match status with
    | Some s => (s =? "Won")%string || (s =? "Lost")%string
    | None => false
    end in
  let c := if won_or_lost then (if 1.0 <? c + 0.2 then 1.0 else c + 0.2) else c in
  if c <? 0.1 then 0.1 else c.

(** *** Vocabulary of the properties *)

(** The score depends on its arguments through four tests only. *)
Definition confidence_of_tests (no_status no_stage no_type final : bool) : float :=
  let c := 1.0 in
  let c := if no_status then c - 0.2 else c in
  let c := if no_stage then c - 0.2 else c in
  let c := if no_type then c - 0.1 else c in
  let c := if final then PyFloat.py_min 1.0 (c + 0.2) else c in
  PyFloat.py_max 0.1 c.

(** The pipeline a stage belongs to, as the enumeration groups its members:
    Studies stages, Sales stages, and the final stages of both. *)
Definition DealStage_pipeline (s : DealStage) : option PipelineType :=
  match s with
  | STUDIES_IDENTIFICATION | STUDIES_QUALIFIED | STUDIES_EVALUATION
  | STUDIES_PROPOSITIONS | STUDIES_NEGOTIATION => Some STUDIES
  | SALES_IDENTIFIED | SALES_QUALIFIED | SALES_DESIGN_IN
  | SALES_NEGOTIATE | SALES_DESIGN_WIN => Some SALES
  | CLOSED_WON | CLOSED_LOST => None
  end.

(** [get_pipeline_statistics]: the mask [df['mapping_confidence'] < 0.8]
    and the count of the rows it selects. *)
Definition low_confidence (mapping_confidence : float) : bool :=
  mapping_confidence <? 0.8.

Definition low_confidence_count (mapping_confidence : list float) : nat :=
  length (List.filter low_confidence mapping_confidence).

End PipelineMapper.

(** ** processors/business_transformation_processor.py: deal stages *)

Module BusinessTransformation.

Local Open Scope float_scope.

(** [_determine_pipeline], applied to the raw cell of [Oppo_Type]. *)
Definition _determine_pipeline (oppo_type : text_cell) : string :=
  match oppo_type with
  | NaN | PyNone => "Sales Pipeline"
  | Text s =>
      if (s =? "")%string then "Sales Pipeline"
      else if (PyStr.strip s =? "Preetude")%string then "Studies Pipeline"
      else "Sales Pipeline"
  end.

(** The certainty read from the row: [float(x) if pd.notna(x) else 0],
    and 0 when [float] raises or the column is absent. *)
Definition certainty_of (c : option num_cell) : float :=
  match c with
  | None => 0
  | Some (Num f) => if PyFloat.notna f then f else 0
  | Some NumMissing => 0
  | Some NotNumeric => 0
  end.

(** The stage tables of [_map_active_stage], in the order the [dict]
    literals list (and so iterate) their keys. *)
Definition studies_active_mapping : list (string * (string * string * string)) :=
  [ ("identification", ("01-Identification", "In Progress", "Mapped to Studies Pipeline"));
    ("qualified", ("02-Qualifiée", "In Progress", "Mapped to Studies Pipeline"));
    ("evaluation technique", ("03-Evaluation technique", "In Progress", "Mapped to Studies Pipeline"));
    ("construction propositions", ("04-Construction propositions", "In Progress", "Mapped to Studies Pipeline"));
    ("construction offre", ("04-Construction propositions", "In Progress", "Mapped to Studies Pipeline"));
    ("negotiating", ("05-Négociation", "In Progress", "Mapped to Studies Pipeline"));
    ("negociation", ("05-Négociation", "In Progress", "Mapped to Studies Pipeline")) ].

Definition sales_active_mapping : list (string * (string * string * string)) :=
  [ ("identification", ("Identified", "In Progress", "Mapped to Sales Pipeline"));
    ("qualified", ("Qualified", "In Progress", "Mapped to Sales Pipeline"));
    ("evaluation technique", ("Design In", "In Progress", "Mapped to Sales Pipeline"));
    ("construction propositions", ("Negotiate", "In Progress", "Mapped to Sales Pipeline"));
    ("construction offre", ("Negotiate", "In Progress", "Mapped to Sales Pipeline"));
    ("negotiating", ("Design Win", "In Progress", "Mapped to Sales Pipeline"));
    ("negociation", ("Design Win", "In Progress", "Mapped to Sales Pipeline")) ].

(** The loop [for key, (stage, status, note) in stage_mapping.items()]:
    the first key that occurs in the stage text. *)
Fixpoint first_match (stage_mapping : list (string * (string * string * string)))
  (stage_clean : string) : option (string * string * string) :=
  match stage_mapping with
  | [] => None
  | (key, v) :: rest =>
      if PyStr.contains key stage_clean then Some v
      else first_match rest stage_clean
  end.

Definition _map_active_stage (oppo_stage oppo_type : string)
  : string * string * string :=
  let stage_clean := PyStr.strip (PyStr.lower oppo_stage) in
  let stage_mapping :=
    if (oppo_type =? "Preetude")%string then studies_active_mapping
    else sales_active_mapping in
  match first_match stage_mapping stage_clean with
  | Some r => r
  | None =>
      if (oppo_type =? "Preetude")%string
      then ("01-Identification", "In Progress", "Default Studies Pipeline stage")
      else ("Identified", "In Progress", "Default Sales Pipeline stage")
  end.

(** [_transform_deal_stage]: (hubspot_stage, deal_status,
    transformation_notes). *)
Definition _transform_deal_stage (row : opportunity) : string * string * string :=
  let oppo_status := get_str_stripped (Oppo_Status row) in
  let oppo_stage := get_str_stripped (Oppo_Stage row) in
  let certainty := certainty_of (Oppo_Certainty row) in
  let oppo_type := get_str_stripped (Oppo_Type row) in
  if PyStr.in_list oppo_status ["Abandonne"; "Abandonnee"] && (certainty <=? 10)
  then ("Closed Dead", "Lost", "Moved to Closed Dead (abandoned + low certainty)")
  else if (oppo_status =? "Won")%string
  then ("Closed Won", "Won", "Deal successfully closed")
  else if PyStr.in_list oppo_status ["Lost"; "NoGo"]
  then ("Closed Lost", "Lost", "Deal closed as lost")
  else if (oppo_status =? "Sleap")%string
  then
    if (oppo_type =? "Preetude")%string
    then ("05-Négociation", "In Progress", "Deal on hold (Sleap)")
    else ("Design Win", "In Progress", "Deal on hold (Sleap)")
  else if (oppo_status =? "In Progress")%string || (oppo_status =? "")%string
  then _map_active_stage oppo_stage oppo_type
  else ("Identified", "In Progress", "Default mapping applied").

(** The three columns [transform_deals_to_hubspot_format] reads off the
    tuple: [deal_stage] is [x[0]], [deal_status] is [x[1]] and
    [transformation_notes] is [x[2]]. *)
Definition deal_stage_of (row : opportunity) : string := (_transform_deal_stage row).1.1.
Definition deal_status_of (row : opportunity) : string := (_transform_deal_stage row).1.2.
Definition transformation_notes_of (row : opportunity) : string := (_transform_deal_stage row).2.

(** The stage labels the processor can emit, by kind. *)
Definition closed_stages : list string :=
  ["Closed Won"; "Closed Lost"; "Closed Dead"].

Definition studies_active_stages : list string :=
  ["01-Identification"; "02-Qualifiée"; "03-Evaluation technique";
   "04-Construction propositions"; "05-Négociation"].

Definition sales_active_stages : list string :=
  ["Identified"; "Qualified"; "Design In"; "Negotiate"; "Design Win"].

(** A row the specification calls active: its status is not terminal
    (Won, Lost, NoGo, or abandoned with certainty at most 10) and not
    Sleap. *)
Definition is_active_row (row : opportunity) : bool :=
  let oppo_status := get_str_stripped (Oppo_Status row) in
  let certainty := certainty_of (Oppo_Certainty row) in
  negb (PyStr.in_list oppo_status ["Won"; "Lost"; "NoGo"; "Sleap"])
  && negb (PyStr.in_list oppo_status ["Abandonne"; "Abandonnee"] && (certainty <=? 10)).

(** *** Vocabulary of the properties and example rows *)

(** The stripped status, type and stage text of a row, as
    [_transform_deal_stage] reads them. *)
Definition status_of (row : opportunity) : string := get_str_stripped (Oppo_Status row).

Definition type_of (row : opportunity) : string := get_str_stripped (Oppo_Type row).

Definition stage_text_of (row : opportunity) : string := get_str_stripped (Oppo_Stage row).

Definition certainty (row : opportunity) : float := certainty_of (Oppo_Certainty row).

Definition row_of (status stage type : string) (c : float) : opportunity :=
  {| Oppo_Status := Some (Text status);
     Oppo_Stage := Some (Text stage);
     Oppo_Type := Some (Text type);
     Oppo_Certainty := Some (Num c) |}.

(** The stage table [_map_active_stage] selects for a deal type. *)
Definition active_table (oppo_type : string) : list (string * (string * string * string)) :=
  if (oppo_type =? "Preetude")%string then studies_active_mapping
  else sales_active_mapping.

(** The stage text as matched: lower-cased, then stripped. *)
Definition stage_clean_of (row : opportunity) : string :=
  PyStr.strip (PyStr.lower (stage_text_of row)).

(** A Studies deal that is abandoned with certainty 50: by C1 it is not
    terminal, and it is not Sleap. *)
Definition abandoned_studies_row : opportunity :=
  row_of "Abandonne" "Prospect" "Preetude" 50.

(** *** Categories and the transformation report *)

(** The [deal_category] column of [transform_deals_to_hubspot_format]:
    [lambda x: 'Study' if x == 'Preetude' else 'Opportunity'] on the raw
    cell of [Oppo_Type]. *)
Definition deal_category_of (oppo_type : text_cell) : string :=
  match oppo_type with
  | Text s => if (s =? "Preetude")%string then "Study" else "Opportunity"
  | NaN | PyNone => "Opportunity"
  end.

(** The two columns [transform_deals_to_hubspot_format] derives from the
    column [Oppo_Type]. *)
Definition pipeline_column (Oppo_Type : list text_cell) : list string :=
  map _determine_pipeline Oppo_Type.

Definition deal_category_column (Oppo_Type : list text_cell) : list string :=
  map deal_category_of Oppo_Type.

(** [len(df[df[col] == value])], which is also the count
    [df[col].value_counts()] gives [value] (no entry when it is 0). *)
Definition value_count (value : string) (col : list string) : nat :=
  length (List.filter (fun x => (x =? value)%string) col).

(** [studies_count] and [opportunities_count] of
    [generate_transformation_report]. *)
Definition studies_count (deal_category : list string) : nat :=
  value_count "Study" deal_category.

Definition opportunity_count (deal_category : list string) : nat :=
  value_count "Opportunity" deal_category.

(** A type cell that reads Preetude only once stripped. *)
Definition padded_preetude (oppo_type : text_cell) : bool :=
  match oppo_type with
  | Text s => (PyStr.strip s =? "Preetude")%string && negb (s =? "Preetude")%string
  | NaN | PyNone => false
  end.

End BusinessTransformation.

(** ** Entity tables *)

Record company : Type := {
  Comp_CompanyId : Z;
  Comp_Name : text_cell;
  Comp_Website : text_cell
}.

(** [contact_Comp_CompanyId] is the contact's [Comp_CompanyId] column; it
    may be missing. *)
Record contact : Type := {
  Pers_PersonId : Z;
  Pers_FirstName : text_cell;
  Pers_LastName : text_cell;
  Pers_EmailAddress : text_cell;
  contact_Comp_CompanyId : option Z
}.

(** A communication row: its own id and the three legacy references, each
    of which may be missing (NaN). *)
Record communication : Type := {
  Comm_CommunicationId : Z;
  comm_Oppo_OpportunityId : option Z;
  comm_Pers_PersonId : option Z;
  comm_Comp_CompanyId : option Z
}.

(** The columns of a transformed deal that the association step reads. *)
Record transformed_deal : Type := {
  record_id : Z;
  deal_name : string;
  pipeline : string;
  deal_stage : string
}.

(** A social-network row; [Related_TableID] is 5 for a company and 13 for
    a person. *)
Record social_link : Type := {
  sone_networklink : text_cell;
  network_type : text_cell;
  Related_TableID : option Z;
  Related_RecordID : option Z;
  bord_caption : text_cell
}.

(** ** Vocabulary of the properties and example tables *)

(** An id cell resolves when it is not missing and names a row of the
    table with ids [ids]. *)
Definition resolves (ids : list Z) (x : option Z) : Prop :=
  exists id, x = Some id /\ In id ids.

(** One company, one contact, and a communication that names the company
    and a person id no contact has. *)
Definition acme : company :=
  {| Comp_CompanyId := 10; Comp_Name := Text "Acme"; Comp_Website := NaN |}.

Definition alice : contact :=
  {| Pers_PersonId := 7; Pers_FirstName := Text "Alice"; Pers_LastName := Text "Martin";
     Pers_EmailAddress := NaN; contact_Comp_CompanyId := Some 10 |}.

Definition mail_known_company_unknown_contact : communication :=
  {| Comm_CommunicationId := 1; comm_Oppo_OpportunityId := None;
     comm_Pers_PersonId := Some 99; comm_Comp_CompanyId := Some 10 |}.

(** Two links: a placeholder attached to the company, and a real link
    attached to the contact. *)
Definition auto_link : social_link :=
  {| sone_networklink := Text "#AUTO#"; network_type := Text "LinkedIn";
     Related_TableID := Some 5; Related_RecordID := Some 10;
     bord_caption := Text "Company" |}.

Definition alice_link : social_link :=
  {| sone_networklink := Text "linkedin.com/in/alice"; network_type := Text "LinkedIn";
     Related_TableID := Some 13; Related_RecordID := Some 7;
     bord_caption := Text "Person" |}.

(** The three companies of the specification's example and a fourth
    one, with three contacts at the two Acme sites. *)
Definition example_companies : list company :=
  [ {| Comp_CompanyId := 10; Comp_Name := Text "Acme Grenoble";
       Comp_Website := Text "a.com/fr" |};
    {| Comp_CompanyId := 11; Comp_Name := Text "Acme Paris";
       Comp_Website := Text "https://www.a.com/en" |};
    {| Comp_CompanyId := 12; Comp_Name := Text "Beta Corp";
       Comp_Website := Text "beta.io" |};
    {| Comp_CompanyId := 7; Comp_Name := Text "Solo"; Comp_Website := NaN |} ].

Definition contact_at (id company : Z) : contact :=
  {| Pers_PersonId := id; Pers_FirstName := Text "A"; Pers_LastName := Text "B";
     Pers_EmailAddress := NaN; contact_Comp_CompanyId := Some company |}.

Definition example_contacts : list contact :=
  [contact_at 1 10; contact_at 2 11; contact_at 3 11].

(** ** processors/associations_processor.py and the association step of
       business_transformation_processor.py *)

Module Associations.

(** [df.set_index(key)[col].to_dict()]: a later row overwrites an earlier
    one with the same key. *)
Definition series_to_dict {V : Type} (rows : list (Z * V)) : gmap Z V :=
  fold_left (fun m kv => <[kv.1 := kv.2]> m) rows ∅.

(** [df.set_index(key)[cols].to_dict('index')]: pandas raises
    [ValueError] when the index is not unique. *)
Definition frame_to_dict_index {V : Type} (rows : list (Z * V)) : result (gmap Z V) :=
  if bool_decide (NoDup (rows.*1)) then Ok (series_to_dict rows)
  else Raise ValueError.

Definition company_lookup_of (companies : list company) : gmap Z text_cell :=
  series_to_dict (map (fun c => (Comp_CompanyId c, Comp_Name c)) companies).

Definition contact_lookup_of (contacts : list contact) : result (gmap Z contact) :=
  frame_to_dict_index (map (fun p => (Pers_PersonId p, p)) contacts).

Definition deal_lookup_of (deals : list transformed_deal) : result (gmap Z transformed_deal) :=
  frame_to_dict_index (map (fun d => (record_id d, d)) deals).

(** [lambda x: 'SUCCESS' if pd.notna(x) and x in lookup else miss]. *)
Definition association_status {V : Type} (lookup : gmap Z V) (miss : string)
  (x : option Z) : string :=
  match x with
  | Some id => if dict_contains lookup id then "SUCCESS" else miss
  | None => miss
  end.

(** [col.map(company_lookup).fillna('Unknown Company')]. *)
Definition resolve_company_name (company_lookup : gmap Z text_cell)
  (x : option Z) : string :=
  match x with
  | Some id =>
      match company_lookup !! id with
      | Some (Text s) => s
      | _ => "Unknown Company"
      end
  | None => "Unknown Company"
  end.

(** [lookup.get(x, {}).get(field, '') if pd.notna(x) else '']. *)
Definition resolve_field {V : Type} (lookup : gmap Z V) (field : V -> text_cell)
  (x : option Z) : text_cell :=
  match x with
  | Some id =>
      match lookup !! id with
      | Some v => field v
      | None => Text ""
      end
  | None => Text ""
  end.

(** The resolution columns of one output row of
    [process_communications_with_associations]. *)
Record comm_association : Type := {
  communication_id : Z;
  legacy_person_id : option Z;
  legacy_company_id : option Z;
  company_name : string;
  contact_first_name : text_cell;
  contact_last_name : text_cell;
  contact_email : text_cell;
  company_association_status : string;
  contact_association_status : string
}.

(** An exception inside the method is logged and an empty frame is
    returned. *)
Definition process_communications_with_associations
  (communications_df : list communication) (companies_df : list company)
  (contacts_df : list contact) : list comm_association :=
  let company_lookup := company_lookup_of companies_df in
  match contact_lookup_of contacts_df with
  | Raise _ => []
  | Ok contact_lookup =>
      map (fun r =>
             {| communication_id := Comm_CommunicationId r;
                legacy_person_id := comm_Pers_PersonId r;
                legacy_company_id := comm_Comp_CompanyId r;
                company_name := resolve_company_name company_lookup (comm_Comp_CompanyId r);
                contact_first_name := resolve_field contact_lookup Pers_FirstName (comm_Pers_PersonId r);
                contact_last_name := resolve_field contact_lookup Pers_LastName (comm_Pers_PersonId r);
                contact_email := resolve_field contact_lookup Pers_EmailAddress (comm_Pers_PersonId r);
                company_association_status :=
                  association_status company_lookup "NO_COMPANY_FOUND" (comm_Comp_CompanyId r);
                contact_association_status :=
                  association_status contact_lookup "NO_CONTACT_FOUND" (comm_Pers_PersonId r) |})
          communications_df
  end.

(** The resolution columns of one output row of
    [create_communication_associations], which also resolves the deal. *)
Record deal_comm_association : Type := {
  dc_communication_id : Z;
  transformed_deal_name : string;
  transformed_deal_pipeline : string;
  transformed_deal_stage : string;
  dc_company_name : string;
  deal_association_status : string;
  dc_company_association_status : string;
  dc_contact_association_status : string
}.

(** [deal_lookup.get(x, {}).get(field, '') if pd.notna(x) else '']. *)
Definition resolve_deal_field (deal_lookup : gmap Z transformed_deal)
  (field : transformed_deal -> string) (x : option Z) : string :=
  match x with
  | Some id =>
      match deal_lookup !! id with
      | Some d => field d
      | None => ""
      end
  | None => ""
  end.

Definition create_communication_associations
  (communications_df : list communication) (transformed_deals_df : list transformed_deal)
  (companies_df : list company) (contacts_df : list contact)
  : list deal_comm_association :=
  match deal_lookup_of transformed_deals_df with
  | Raise _ => []
  | Ok deal_lookup =>
      let company_lookup := company_lookup_of companies_df in
      match contact_lookup_of contacts_df with
      | Raise _ => []
      | Ok contact_lookup =>
          map (fun r =>
                 {| dc_communication_id := Comm_CommunicationId r;
                    transformed_deal_name := resolve_deal_field deal_lookup deal_name (comm_Oppo_OpportunityId r);
                    transformed_deal_pipeline := resolve_deal_field deal_lookup pipeline (comm_Oppo_OpportunityId r);
                    transformed_deal_stage := resolve_deal_field deal_lookup deal_stage (comm_Oppo_OpportunityId r);
                    dc_company_name := resolve_company_name company_lookup (comm_Comp_CompanyId r);
                    deal_association_status :=
                      association_status deal_lookup "NO_DEAL_FOUND" (comm_Oppo_OpportunityId r);
                    dc_company_association_status :=
                      association_status company_lookup "NO_COMPANY_FOUND" (comm_Comp_CompanyId r);
                    dc_contact_association_status :=
                      association_status contact_lookup "NO_CONTACT_FOUND" (comm_Pers_PersonId r) |})
              communications_df
      end
  end.

(** *** Social networks *)

(** [sn_df['sone_networklink'] != '#AUTO#'], row by row: a missing link
    differs from the placeholder. *)
Definition not_auto (r : social_link) : bool :=
  match sone_networklink r with
  | Text s => negb (s =? "#AUTO#")%string
  | NaN | PyNone => true
  end.

(** [x == n] for a cell that may be NaN. *)
Definition cell_is (x : option Z) (n : Z) : bool :=
  match x with
  | Some v => (v =? n)%Z
  | None => false
  end.

(** [x in lookup] for a cell that may be NaN. *)
Definition cell_in {V : Type} (lookup : gmap Z V) (x : option Z) : bool :=
  match x with
  | Some id => dict_contains lookup id
  | None => false
  end.

Definition _check_association_status (row : social_link)
  (company_lookup : gmap Z text_cell) (contact_lookup : gmap Z contact) : string :=
  if cell_is (Related_TableID row) 5 then
    if cell_in company_lookup (Related_RecordID row) then "SUCCESS" else "NO_COMPANY_FOUND"
  else if cell_is (Related_TableID row) 13 then
    if cell_in contact_lookup (Related_RecordID row) then "SUCCESS" else "NO_CONTACT_FOUND"
  else "UNKNOWN_ENTITY_TYPE".

(** [col.map({5: 'Company', 13: 'Person'}).fillna('Unknown')]. *)
Definition entity_type_of (x : option Z) : string :=
  if cell_is x 5 then "Company"
  else if cell_is x 13 then "Person"
  else "Unknown".

(** The link, reference and resolution columns of one output row of
    [process_social_networks_with_associations]. *)
Record social_association : Type := {
  network_link : text_cell;
  sa_network_type : text_cell;
  related_table_id : option Z;
  related_record_id : option Z;
  entity_caption : text_cell;
  entity_type : string;
  association_status_col : string
}.

Definition process_social_networks_with_associations
  (social_df : list social_link) (companies_df : list company)
  (contacts_df : list contact) : list social_association :=
  let sn_df := List.filter not_auto social_df in
  let company_lookup := company_lookup_of companies_df in
  match contact_lookup_of contacts_df with
  | Raise _ => []
  | Ok contact_lookup =>
      map (fun row =>
             {| network_link := sone_networklink row;
                sa_network_type := network_type row;
                related_table_id := Related_TableID row;
                related_record_id := Related_RecordID row;
                entity_caption := bord_caption row;
                entity_type := entity_type_of (Related_TableID row);
                association_status_col :=
                  _check_association_status row company_lookup contact_lookup |})
          sn_df
  end.

(** [_determine_hubspot_property].  The result is [None] where the Python
    function ends without a [return]: a LinkedIn link on a row whose table
    id is neither 13 nor 5. *)
Definition _determine_hubspot_property (row : social_link) : option string :=
  let link := PyStr.lower (py_str (sone_networklink row)) in
  let table_id := Related_TableID row in
  if PyStr.contains "in/" link || PyStr.contains "linkedin.com" link then
    if cell_is table_id 13 then Some "linkedin_bio"
    else if cell_is table_id 5 then Some "linkedin_company_page"
    else None
  else if PyStr.contains "company/" link
          || existsb (fun domain => PyStr.contains domain link)
               [".com"; ".org"; ".net"; ".fr"] then
    Some "website"
  else if PyStr.contains "twitter.com" link || PyStr.contains "x.com" link then
    if cell_is table_id 13 then Some "twitterhandle" else Some "twitterhandle"
  else if PyStr.contains "facebook.com" link then
    if cell_is table_id 5 then Some "facebook_company_page" else Some "hs_facebookid"
  else Some "website".

(** The column [hubspot_property_target] of
    [process_social_networks_with_associations]. *)
Definition hubspot_property_target (social_df : list social_link)
  : list (option string) :=
  map _determine_hubspot_property (List.filter not_auto social_df).

End Associations.

(** ** business_logic/computed_columns.py: margin and ROI *)

Module ComputedColumns.

Local Open Scope float_scope.

(** A numeric data frame: its columns by name, each the list of its
    values in row order; a missing value is NaN. *)
Abbreviation frame := (gmap string (list float)).

(** [pd.to_numeric(col, errors='coerce').fillna(0)] on a numeric
    column. *)
Definition to_numeric_fillna (col : list float) : list float :=
  map PyFloat.fillna0 col.

(** [df.loc[mask, col]]: the values of the rows the mask selects. *)
Fixpoint loc_select (mask : list bool) (col : list float) : list float :=
  match mask, col with
  | m :: mask', x :: col' =>
      if m then x :: loc_select mask' col' else loc_select mask' col'
  | _, _ => []
  end.

(** [df.loc[mask, col] = vals]: the selected rows take the values of
    [vals], in order; the other rows keep theirs. *)
Fixpoint loc_assign (mask : list bool) (col vals : list float) : list float :=
  match mask, col with
  | m :: mask', x :: col' =>
      if m then
        match vals with
        | v :: vals' => v :: loc_assign mask' col' vals'
        | [] => x :: loc_assign mask' col' []
        end
      else x :: loc_assign mask' col' vals
  | _, _ => col
  end.

(** [calculate_net_amount]: a missing column raises [KeyError] inside the
    [try], and the frame as modified so far is returned. *)
Definition calculate_net_amount (df : frame) : frame :=
  match df !! "Oppo_Forecast" with
  | None => df
  | Some forecast =>
      let df := <["Oppo_Forecast" := to_numeric_fillna forecast]> df in
      match df !! "oppo_cout" with
      | None => df
      | Some cout =>
          let df := <["oppo_cout" := to_numeric_fillna cout]> df in
          <["net_amount" :=
              zip_with PrimFloat.sub (to_numeric_fillna forecast) (to_numeric_fillna cout)]> df
      end
  end.

(** [(net / base) * 100] over the selected rows. *)
Definition ratio_percent (mask : list bool) (net base : list float) : list float :=
  zip_with (fun n b => n / b * 100) (loc_select mask net) (loc_select mask base).

Definition calculate_roi_metrics (df : frame) : frame :=
  let df :=
    match df !! "net_amount" with
    | None => calculate_net_amount df
    | Some _ => df
    end in
  match df !! "Oppo_Forecast" with
  | None => df
  | Some forecast =>
      let forecast := to_numeric_fillna forecast in
      let df := <["Oppo_Forecast" := forecast]> df in
      match df !! "oppo_cout" with
      | None => df
      | Some cout =>
          let cout := to_numeric_fillna cout in
          let df := <["oppo_cout" := cout]> df in
          let mask := map (fun f => 0 <? f) forecast in
          let zeros := map (fun _ => 0) forecast in
          let df := <["margin_percentage" := zeros]> df in
          match df !! "net_amount" with
          | None => df
          | Some net =>
              let df :=
                <["margin_percentage" :=
                    loc_assign mask zeros (ratio_percent mask net forecast)]> df in
              let mask := map (fun c => 0 <? c) cout in
              let df := <["roi_percentage" := zeros]> df in
              <["roi_percentage" :=
                  loc_assign mask zeros (ratio_percent mask net cout)]> df
          end
      end
  end.

(** *** An example frame *)

(** A frame of three opportunities: forecasts 1000, 0 and missing, costs
    200, 50 and 0. *)
Definition three_deals : frame :=
  <["Oppo_Forecast" := [1000; 0; nan]]> (<["oppo_cout" := [200; 50; 0]]> ∅).

(** *** Weighted amounts and risk *)

(** [calculate_net_weighted_amount]: the net amount is computed only when
    the frame has none. *)
Definition calculate_net_weighted_amount (df : frame) : frame :=
  let df :=
    match df !! "net_amount" with
    | None => calculate_net_amount df
    | Some _ => df
    end in
  match df !! "Oppo_Certainty" with
  | None => df
  | Some certainty =>
      let certainty := to_numeric_fillna certainty in
      let df := <["Oppo_Certainty" := certainty]> df in
      match df !! "net_amount" with
      | None => df
      | Some net =>
          <["net_weighted_amount" := zip_with (fun n c => n * (c / 100)) net certainty]> df
      end
  end.

(** [get_risk_level], with the thresholds of [risk_thresholds]. *)
Definition get_risk_level (certainty : float) : string :=
  if certainty <? 30 then "High Risk"
  else if certainty <=? 70 then "Medium Risk"
  else "Low Risk".

(** [assess_risk_level]: the frame with the certainty filled, and the
    text column [risk_assessment], absent when the frame has no
    certainty. *)
Definition assess_risk_level (df : frame) : frame * option (list string) :=
  match df !! "Oppo_Certainty" with
  | None => (df, None)
  | Some certainty =>
      let certainty := to_numeric_fillna certainty in
      (<["Oppo_Certainty" := certainty]> df, Some (map get_risk_level certainty))
  end.

(** [validate_computations]: [df['risk_assessment'].isin(valid_risks).all()]. *)
Definition risk_assessment_valid (risk_assessment : list string) : bool :=
  forallb (fun r => PyStr.in_list r ["High Risk"; "Medium Risk"; "Low Risk"])
    risk_assessment.

(** The example frame with certainties 50, missing and 100. *)
Definition three_deals_with_certainty : frame :=
  <["Oppo_Certainty" := [50; nan; 100]]> three_deals.

End ComputedColumns.

(** ** processors/site_aggregation_processor.py *)

Module SiteAggregation.

(** *** Name and domain analysis *)

Definition base_name_indicators : list string :=
  ["grenoble"; "paris"; "lyon"; "toulouse"; "hq"; "headquarters";
   "usa"; "france"; "germany"; "uk"; "switzerland"; "italy";
   "north"; "south"; "east"; "west"; "corp"; "inc"; "ltd"; "sa"].

Definition location_indicators : list string :=
  ["grenoble"; "paris"; "lyon"; "toulouse"; "hq"; "headquarters";
   "usa"; "france"; "germany"; "uk"; "switzerland"; "italy"].

(** [any(indicator in word for indicator in indicators)]. *)
Definition any_indicator_in (indicators : list string) (word : string) : bool :=
  existsb (fun indicator => PyStr.contains indicator word) indicators.

Definition _extract_base_company_name (company_name : text_cell) : string :=
  match company_name with
  | NaN | PyNone => ""
  | Text s =>
      if negb (PyStr.truthy s) then ""
      else
        let name := PyStr.strip s in
        let words := PyStr.split_ws name in
        if (1 <? length words)%nat then
          let last_word := PyStr.lower (List.last words "") in
          if any_indicator_in base_name_indicators last_word
          then PyStr.join " " (removelast words)
          else name
        else name
  end.

Definition _extract_location (company_name : text_cell) : string :=
  match company_name with
  | NaN | PyNone => "HQ"
  | Text s =>
      if negb (PyStr.truthy s) then "HQ"
      else
        let name := PyStr.strip s in
        let words := PyStr.split_ws name in
        if (1 <? length words)%nat then
          let last_word := List.last words "" in
          if any_indicator_in location_indicators (PyStr.lower last_word)
          then last_word
          else "HQ"
        else "HQ"
  end.

Definition _clean_domain (website : text_cell) : string :=
  match website with
  | NaN | PyNone => "no-domain"
  | Text s =>
      if negb (PyStr.truthy s) || PyStr.in_list s [""; "NULL"; "NaN"] then "no-domain"
      else
        let domain := PyStr.lower (PyStr.strip s) in
        (* re.sub(r'^https?://', '', domain) *)
        let domain :=
          if String.prefix "http://" domain then PyStr.drop_prefix "http://" domain
          else PyStr.drop_prefix "https://" domain in
        (* re.sub(r'^www\.', '', domain) *)
        let domain := PyStr.drop_prefix "www." domain in
        let domain := PyStr.before_char "/" domain in
        let domain := PyStr.before_char ":" domain in
        if PyStr.truthy domain then domain else "no-domain"
  end.

(** A row of [companies_analysis]: the company and its three derived
    columns. *)
Record analysis : Type := {
  an_company : company;
  an_base_company_name : string;
  an_location_extracted : string;
  an_domain_clean : string
}.

Definition _analyze_companies (companies_df : list company) : list analysis :=
  map (fun c =>
         {| an_company := c;
            an_base_company_name := _extract_base_company_name (Comp_Name c);
            an_location_extracted := _extract_location (Comp_Name c);
            an_domain_clean := _clean_domain (Comp_Website c) |})
      companies_df.

(** *** Grouping *)

(** The clustering key (base_company_name, domain_clean). *)
Abbreviation key := (string * string)%type.

Definition key_of (a : analysis) : key :=
  (an_base_company_name a, an_domain_clean a).

(** The order pandas sorts group keys in: by the first column, then by
    the second, strings compared character by character. *)
Definition key_compare (k1 k2 : key) : comparison :=
  match String.compare k1.1 k2.1 with
  | Eq => String.compare k1.2 k2.2
  | c => c
  end.

Definition key_eqb (k1 k2 : key) : bool :=
  (k1.1 =? k2.1)%string && (k1.2 =? k2.2)%string.

(** [df.groupby(keys)] (sort=True): the groups in key order, each with
    its rows in row order. *)
Fixpoint group_insert {R : Type} (k : key) (row : R) (groups : list (key * list R))
  : list (key * list R) :=
  match groups with
  | [] => [(k, [row])]
  | (k', rows) :: groups' =>
      match key_compare k k' with
      | Lt => (k, [row]) :: groups
      | Eq => (k', (rows ++ [row])%list) :: groups'
      | Gt => (k', rows) :: group_insert k row groups'
      end
  end.

Definition groupby {R : Type} (key_of : R -> key) (rows : list R)
  : list (key * list R) :=
  fold_left (fun groups row => group_insert (key_of row) row groups) rows [].

(** [groupby(keys).cumcount()]: for each row, the number of earlier rows
    with its key.  [seen] holds the keys of the rows already passed. *)
Fixpoint cumcount_from (seen : list key) (keys : list key) : list Z :=
  match keys with
  | [] => []
  | k :: keys' =>
      Z.of_nat (length (List.filter (key_eqb k) seen)) :: cumcount_from (k :: seen) keys'
  end.

Definition cumcount (keys : list key) : list Z := cumcount_from [] keys.

(** The ['first'] aggregation: the first value of the group that is not
    null. *)
Definition first_valid (cells : list text_cell) : text_cell :=
  match List.find (fun c => match c with Text _ => true | _ => false end) cells with
  | Some c => c
  | None => NaN
  end.

(** A row of [multi_site_groups]; [has_multiple_sites] is True on every
    row and [parent_website] is [g_Comp_Website]. *)
Record domain_group : Type := {
  g_base_company_name : string;
  g_domain_clean : string;
  site_count : Z;
  g_Comp_Website : text_cell;
  g_Comp_Name : text_cell;
  new_parent_id : Z
}.

(** The dtype of the column [Comp_CompanyId]: [int64], or [float64] when
    an id of the extract was missing or unreadable ([pd.to_numeric] with
    [errors='coerce'] turns it into NaN, and dropping the row afterwards
    leaves the dtype).  The ids of a [float64] column are integral and are
    given by their value. *)
Inductive id_dtype : Type :=
| int64
| float64.

(** Addition of numpy [int64] scalars: the result wraps around (numpy
    warns and goes on). *)
Definition int64_wrap (z : Z) : Z := (z + 2 ^ 63) mod 2 ^ 64 - 2 ^ 63.

(** A numpy scalar: an [int64], a [float64] with an integral value, or
    NaN. *)
Inductive np_scalar : Type :=
| np_int64 (value : Z)
| np_float64 (value : Z)
| np_nan.

(** [Series.max()] of the id column: a scalar of the dtype of the column,
    NaN when the column is empty. *)
Definition series_max (dtype : id_dtype) (ids : list Z) : np_scalar :=
  match ids with
  | [] => np_nan
  | x :: xs =>
      match dtype with
      | int64 => np_int64 (fold_left Z.max xs x)
      | float64 => np_float64 (fold_left Z.max xs x)
      end
  end.

(** [range(max_company_id + 1, max_company_id + 1 + n)], assigned to a
    column of [n] rows; the result is the first id of the range.  [range]
    raises [TypeError] on a float; the two [int64] additions wrap around;
    and a range whose length is not [n] cannot be assigned to the column
    ([ValueError]). *)
Definition parent_id_range (max_company_id : np_scalar) (n : nat) : result Z :=
  match max_company_id with
  | np_int64 m =>
      let start := int64_wrap (m + 1) in
      let stop := int64_wrap (start + Z.of_nat n) in
      if (Z.max 0 (stop - start) =? Z.of_nat n)%Z then Ok start
      else Raise ValueError
  | np_float64 _ | np_nan => Raise TypeError
  end.

(** The aggregated groups before ids are assigned; [new_parent_id] is
    filled by [assign_parent_ids]. *)
Definition aggregate_group (g : key * list analysis) (id : Z) : domain_group :=
  {| g_base_company_name := g.1.1;
     g_domain_clean := g.1.2;
     site_count := Z.of_nat (length g.2);
     g_Comp_Website := first_valid (map (fun a => Comp_Website (an_company a)) g.2);
     g_Comp_Name := first_valid (map (fun a => Comp_Name (an_company a)) g.2);
     new_parent_id := id |}.

(** [range(first, first + len(groups))] zipped onto the groups. *)
Fixpoint assign_parent_ids (first : Z) (groups : list (key * list analysis))
  : list domain_group :=
  match groups with
  | [] => []
  | g :: groups' => aggregate_group g first :: assign_parent_ids (first + 1) groups'
  end.

Definition _identify_domain_groups (dtype : id_dtype)
  (companies_analysis : list analysis) : result (list domain_group) :=
  let groups := groupby key_of companies_analysis in
  let multi_site_groups :=
    List.filter (fun g => (1 <? Z.of_nat (length g.2))%Z) groups in
  match multi_site_groups with
  | [] => Ok []
  | _ =>
      let max_company_id :=
        series_max dtype
          (map (fun a => Comp_CompanyId (an_company a)) companies_analysis) in
      match parent_id_range max_company_id (length multi_site_groups) with
      | Raise e => Raise e
      | Ok first => Ok (assign_parent_ids first multi_site_groups)
      end
  end.

(** *** Aggregation *)

(** [contacts_df.groupby('Comp_CompanyId')] counting [Pers_PersonId]:
    contacts without a company are left out by the grouping. *)
Definition contact_count_lookup (contacts_df : list contact) : gmap Z Z :=
  fold_left
    (fun m p =>
       match contact_Comp_CompanyId p with
       | Some id => <[id := dict_get m id 0 + 1]> m
       | None => m
       end)
    contacts_df ∅.

(** A row of [companies_with_contacts]: the analysis row, the columns the
    left merge with the groups brings (missing when no group matches) and
    the contact count, 0 when the company has no contact. *)
Record company_with_contacts : Type := {
  cw_analysis : analysis;
  cw_new_parent_id : option Z;
  cw_has_multiple_sites : option bool;
  cw_contact_count : Z
}.

Definition find_group (domain_groups : list domain_group) (a : analysis)
  : option domain_group :=
  List.find (fun g => key_eqb (g_base_company_name g, g_domain_clean g) (key_of a))
    domain_groups.

Definition merge_company (domain_groups : list domain_group)
  (contact_lookup : gmap Z Z) (a : analysis) : company_with_contacts :=
  let g := find_group domain_groups a in
  {| cw_analysis := a;
     cw_new_parent_id := option_map new_parent_id g;
     cw_has_multiple_sites :=
       match domain_groups with
       | [] => Some false
       | _ => option_map (fun _ => true) g
       end;
     cw_contact_count := dict_get contact_lookup (Comp_CompanyId (an_company a)) 0 |}.

(** A row of the result: a site (or standalone company) or a parent
    aggregator.  [company_name] is the name cell of a site and the base
    name of a parent. *)
Record aggregation_record : Type := {
  company_id : Z;
  parent_company_id : option Z;
  company_name : text_cell;
  base_company_name : string;
  location_extracted : string;
  domain_clean : string;
  company_website : text_cell;
  record_type : string;
  has_multiple_sites : bool;
  site_order : Z;
  contact_count : Z;
  source_type : string;
  processed_date : string
}.

Definition site_record (now : string) (cw : company_with_contacts) (rank : Z)
  : aggregation_record :=
  let a := cw_analysis cw in
  let c := an_company a in
  {| company_id := Comp_CompanyId c;
     parent_company_id :=
       Some (match cw_new_parent_id cw with
             | Some p => p
             | None => Comp_CompanyId c
             end);
     company_name := Comp_Name c;
     base_company_name := an_base_company_name a;
     location_extracted := an_location_extracted a;
     domain_clean := an_domain_clean a;
     company_website := Comp_Website c;
     record_type :=
       match cw_new_parent_id cw with
       | Some _ => "Site"
       | None => "Standalone"
       end;
     has_multiple_sites :=
       match cw_has_multiple_sites cw with
       | Some b => b
       | None => false
       end;
     site_order := rank + 1;
     contact_count := cw_contact_count cw;
     source_type := "Original";
     processed_date := now |}.

Definition _create_site_records (now : string)
  (companies_with_contacts : list company_with_contacts) : list aggregation_record :=
  zip_with (site_record now) companies_with_contacts
    (cumcount (map (fun cw => key_of (cw_analysis cw)) companies_with_contacts)).

Definition sum_Z (l : list Z) : Z := fold_left Z.add l 0.

Definition parent_record (now : string)
  (companies_with_contacts : list company_with_contacts) (group : domain_group)
  : aggregation_record :=
  let child_companies :=
    List.filter
      (fun cw =>
         (an_base_company_name (cw_analysis cw) =? g_base_company_name group)%string
         && (an_domain_clean (cw_analysis cw) =? g_domain_clean group)%string)
      companies_with_contacts in
  {| company_id := new_parent_id group;
     parent_company_id := None;
     company_name := Text (g_base_company_name group);
     base_company_name := g_base_company_name group;
     location_extracted := "HQ";
     domain_clean := g_domain_clean group;
     company_website := g_Comp_Website group;
     record_type := "Parent_Aggregator";
     has_multiple_sites := true;
     site_order := 0;
     contact_count := sum_Z (map cw_contact_count child_companies);
     source_type := "Generated";
     processed_date := now |}.

Definition _create_parent_records (now : string) (domain_groups : list domain_group)
  (companies_with_contacts : list company_with_contacts) : list aggregation_record :=
  map (parent_record now companies_with_contacts) domain_groups.

Definition _create_company_aggregation (now : string)
  (companies_analysis : list analysis) (domain_groups : list domain_group)
  (contacts_df : list contact) : list aggregation_record :=
  let contact_lookup := contact_count_lookup contacts_df in
  let companies_with_contacts :=
    map (merge_company domain_groups contact_lookup) companies_analysis in
  (_create_site_records now companies_with_contacts
   ++ _create_parent_records now domain_groups companies_with_contacts)%list.

(** [now] is the formatted reading of the clock, [pd.Timestamp.now()],
    the only input of a run besides the two frames; [dtype] is the dtype
    of the id column of the companies frame.  An exception is logged and
    an empty frame returned. *)
Definition process_site_aggregation (now : string) (dtype : id_dtype)
  (companies_df : list company) (contacts_df : list contact)
  : list aggregation_record :=
  let companies_analysis := _analyze_companies companies_df in
  match _identify_domain_groups dtype companies_analysis with
  | Raise _ => []
  | Ok domain_groups =>
      _create_company_aggregation now companies_analysis domain_groups contacts_df
  end.

(** *** Vocabulary of the properties *)

Definition key_lt (a b : key) : Prop := key_compare a b = Lt.

(** The rows with key [k], in row order. *)
Definition rows_with {R : Type} (kf : R -> key) (k : key) (rows : list R) : list R :=
  List.filter (fun r => key_eqb k (kf r)) rows.

(** The rows of the group with key [k], none when there is no such
    group. *)
Definition group_rows {R : Type} (k : key) (groups : list (key * list R)) : list R :=
  match List.find (fun g => key_eqb k g.1) groups with
  | Some g => g.2
  | None => []
  end.

(** What [groupby] maintains while it reads the rows. *)
Definition groups_of {R : Type} (kf : R -> key) (rows : list R)
  (groups : list (key * list R)) : Prop :=
  StronglySorted key_lt (map fst groups)
  /\ (forall k, group_rows k groups = rows_with kf k rows)
  /\ Forall (fun g => g.2 <> []) groups.

(** The clustering key of a company, of a group and of an output
    record. *)
Definition company_key (c : company) : key :=
  (_extract_base_company_name (Comp_Name c), _clean_domain (Comp_Website c)).

Definition group_key (g : domain_group) : key :=
  (g_base_company_name g, g_domain_clean g).

Definition record_key (r : aggregation_record) : key :=
  (base_company_name r, domain_clean r).

(** The number of companies with clustering key [k]. *)
Definition member_count (k : key) (companies_df : list company) : nat :=
  length (List.filter (fun c => key_eqb k (company_key c)) companies_df).

(** [m] is the largest of [ids]. *)
Definition is_max (m : Z) (ids : list Z) : Prop :=
  In m ids /\ forall x, In x ids -> x <= m.

(** The new parent ids can be allocated: no clustering key is shared, or
    the id column is [int64] and its largest id, plus 1, plus the number
    of companies stays in the range of [int64]. *)
Definition parent_ids_allocatable (dtype : id_dtype) (companies_df : list company)
  : Prop :=
  (forall k, (member_count k companies_df < 2)%nat)
  \/ (dtype = int64
      /\ exists m, is_max m (map Comp_CompanyId companies_df)
                   /\ - 2 ^ 63 <= m
                   /\ m + 1 + Z.of_nat (length companies_df) < 2 ^ 63).


(** The groups [_identify_domain_groups] keeps. *)
Definition multi_site (companies_analysis : list analysis) : list (key * list analysis) :=
  List.filter (fun g => (1 <? Z.of_nat (length g.2))%Z) (groupby key_of companies_analysis).

(** The frames a run builds, for the first parent id [first]. *)
Definition run_groups (first : Z) (companies_df : list company) : list domain_group :=
  assign_parent_ids first (multi_site (_analyze_companies companies_df)).

Definition run_companies_with_contacts (first : Z) (companies_df : list company)
  (contacts_df : list contact) : list company_with_contacts :=
  map (merge_company (run_groups first companies_df) (contact_count_lookup contacts_df))
    (_analyze_companies companies_df).

(** A record is a Site whose parent is [p]. *)
Definition is_site_of (p r : aggregation_record) : bool :=
  (record_type r =? "Site")%string
  && match parent_company_id r with
     | Some id => (id =? company_id p)%Z
     | None => false
     end.

(** The parent record of the example, Acme with id 13. *)
Definition example_parent : aggregation_record :=
  {| company_id := 13; parent_company_id := None; company_name := Text "Acme";
     base_company_name := "Acme"; location_extracted := "HQ"; domain_clean := "a.com";
     company_website := Text "a.com/fr"; record_type := "Parent_Aggregator";
     has_multiple_sites := true; site_order := 0; contact_count := 3;
     source_type := "Generated"; processed_date := "01/01/2025 00:00" |}.

(** A record with its [processed_date] replaced. *)
Definition with_processed_date (d : string) (r : aggregation_record)
  : aggregation_record :=
  {| company_id := company_id r;
     parent_company_id := parent_company_id r;
     company_name := company_name r;
     base_company_name := base_company_name r;
     location_extracted := location_extracted r;
     domain_clean := domain_clean r;
     company_website := company_website r;
     record_type := record_type r;
     has_multiple_sites := has_multiple_sites r;
     site_order := site_order r;
     contact_count := contact_count r;
     source_type := source_type r;
     processed_date := d |}.

(** The contacts of the company with id [id], and the contacts of some
    company of [ids]. *)
Definition contact_of (id : Z) (p : contact) : bool :=
  match contact_Comp_CompanyId p with
  | Some c => (c =? id)%Z
  | None => false
  end.

Definition contact_of_some (ids : list Z) (p : contact) : bool :=
  existsb (fun id => contact_of id p) ids.

(** *** The report *)

(** The counts of [create_site_aggregation_report]: the summary, the
    number of rows flagged [has_multiple_sites], and the contact
    distribution.  ([top_multi_site_companies], a listing of five rows,
    is left out.) *)
Record aggregation_report : Type := {
  total_records : nat;
  site_records : nat;
  standalone_records : nat;
  parent_aggregator_records : nat;
  total_contacts : Z;
  companies_with_contacts : nat;
  total_multi_site_groups : nat;
  companies_with_no_contacts : nat;
  companies_with_1_contact : nat;
  companies_with_multiple_contacts : nat;
  max_contacts_per_company : Z
}.

(** [len(df[test])]. *)
Definition count_rows (test : aggregation_record -> bool)
  (aggregation_df : list aggregation_record) : nat :=
  length (List.filter test aggregation_df).

(** [None] is the [{"error": ...}] the function returns for an empty
    frame. *)
Definition create_site_aggregation_report (aggregation_df : list aggregation_record)
  : option aggregation_report :=
  match aggregation_df with
  | [] => None
  | r :: rest =>
      Some
        {| total_records := length aggregation_df;
           site_records :=
             count_rows (fun r => (record_type r =? "Site")%string) aggregation_df;
           standalone_records :=
             count_rows (fun r => (record_type r =? "Standalone")%string) aggregation_df;
           parent_aggregator_records :=
             count_rows (fun r => (record_type r =? "Parent_Aggregator")%string)
               aggregation_df;
           total_contacts := sum_Z (map contact_count aggregation_df);
           companies_with_contacts :=
             count_rows (fun r => (0 <? contact_count r)%Z) aggregation_df;
           total_multi_site_groups := count_rows has_multiple_sites aggregation_df;
           companies_with_no_contacts :=
             count_rows (fun r => (contact_count r =? 0)%Z) aggregation_df;
           companies_with_1_contact :=
             count_rows (fun r => (contact_count r =? 1)%Z) aggregation_df;
           companies_with_multiple_contacts :=
             count_rows (fun r => (1 <? contact_count r)%Z) aggregation_df;
           max_contacts_per_company :=
             fold_left Z.max (map contact_count rest) (contact_count r) |}
  end.

End SiteAggregation.

(** ** processors/hubspot_transformation_processor.py: pipeline and
       stage ids *)

Module HubSpotTransformation.

(** [_get_hubspot_pipeline_id]. *)
Definition pipeline_mapping : gmap string string :=
  list_to_map
    [ ("Studies Pipeline", "Icalps_service");
      ("Sales Pipeline", "Icalps_hardware") ].

Definition _get_hubspot_pipeline_id (pipeline_name : string) : string :=
  dict_get pipeline_mapping pipeline_name "Icalps_hardware".

(** The three stage tables of [_get_hubspot_stage_id]. *)
Definition studies_stage_ids : gmap string string :=
  list_to_map
    [ ("01-Identification", "1116269224");
      ("02-Qualifiée", "1162868542");
      ("03-Evaluation technique", "1116419646");
      ("04-Construction propositions", "1116704051");
      ("05-Négociation", "1116704051");
      ("Closed Won", "1116704052");
      ("Closed Lost", "1116704053");
      ("Closed Dead", "1116269223") ].

Definition sales_stage_ids : gmap string string :=
  list_to_map
    [ ("Identified", "1116419644");
      ("Qualified", "1116419645");
      ("Design In", "1116419646");
      ("Negotiate", "1116419646");
      ("Design Win", "1116419647");
      ("Closed Won", "1116419649");
      ("Closed Lost", "12096415");
      ("Closed Dead", "1116419650") ].

Definition other_stage_ids : gmap string string :=
  list_to_map
    [ ("Identified", "1116419644");
      ("Qualified", "1116419645");
      ("Design In", "1116419646");
      ("Design Win", "1116419647");
      ("Closed Won", "1116419649");
      ("Closed Lost", "12096415");
      ("Closed Dead", "1116419650") ].

(** The table the [if] / [elif] / [else] on the pipeline name selects. *)
Definition stage_mapping_of (pipeline_name : string) : gmap string string :=
  if (pipeline_name =? "Studies Pipeline")%string then studies_stage_ids
  else if (pipeline_name =? "Sales Pipeline")%string then sales_stage_ids
  else other_stage_ids.

Definition _get_hubspot_stage_id (pipeline_name stage_name : string) : string :=
  dict_get (stage_mapping_of pipeline_name) stage_name "1116419644".

(** [_map_engagement_type]. *)
Definition engagement_mapping : gmap string string :=
  list_to_map
    [ ("NOTE", "NOTE"); ("CALL", "CALL"); ("EMAIL", "EMAIL");
      ("MEETING", "MEETING"); ("UNKNOWN", "NOTE") ].

Definition _map_engagement_type (comm_type : string) : string :=
  dict_get engagement_mapping comm_type "NOTE".

End HubSpotTransformation.

(** ** business_logic/business_rules.py: the stage tables *)

Module BusinessRules.

Local Open Scope float_scope.

(** [_apply_forecast_adjustment_rules]:
    [df['hubspot_stage'].map(stage_multipliers).fillna(0.5)], then
    [df['Oppo_Forecast'] * df['stage_multiplier']]. *)
Definition stage_multipliers : gmap string float :=
  list_to_map
    [ ("01-Identification"%string, 0.1);
      ("Identified"%string, 0.1);
      ("02-Qualifiée"%string, 0.25);
      ("Qualified"%string, 0.25);
      ("03-Evaluation technique"%string, 0.5);
      ("Design in"%string, 0.5);
      ("04-Construction propositions"%string, 0.75);
      ("Negotiate"%string, 0.75);
      ("05-Négociation"%string, 0.9);
      ("Design Win"%string, 0.9);
      ("closedwon"%string, 1.0);
      ("closedlost"%string, 0.0) ].

Definition stage_multiplier (hubspot_stage : string) : float :=
  dict_get stage_multipliers hubspot_stage 0.5.

Definition adjusted_forecast (Oppo_Forecast : float) (hubspot_stage : string) : float :=
  Oppo_Forecast * stage_multiplier hubspot_stage.

(** [_apply_stage_progression_rules]:
    [df['hubspot_stage'].map(stage_duration_limits).fillna(60)], then
    [df['stage_duration_days'] > df['stage_duration_limit']]. *)
Definition stage_duration_limits : gmap string float :=
  list_to_map
    [ ("01-Identification"%string, 30);
      ("Identified"%string, 30);
      ("02-Qualifiée"%string, 45);
      ("Qualified"%string, 45);
      ("03-Evaluation technique"%string, 60);
      ("Design in"%string, 60);
      ("04-Construction propositions"%string, 45);
      ("Negotiate"%string, 45);
      ("05-Négociation"%string, 30);
      ("Design Win"%string, 30) ].

Definition stage_duration_limit (hubspot_stage : string) : float :=
  dict_get stage_duration_limits hubspot_stage 60.

Definition stage_overdue (stage_duration_days : float) (hubspot_stage : string) : bool :=
  stage_duration_limit hubspot_stage <? stage_duration_days.

End BusinessRules.

(** * Properties *)

(** ** Facts about binary64 comparison *)

Section FloatFacts.

Local Open Scope float_scope.

(** Swapping the arguments of a comparison reverses its outcome. *)
Lemma SFcompare_swap (x y : spec_float) :
  SFcompare y x = option_map CompOpp (SFcompare x y).
Proof.
  destruct x as [sx|sx| |sx mx ex], y as [sy|sy| |sy my ey];
    try reflexivity; try (destruct sx; reflexivity);
    try (destruct sy; reflexivity); try (destruct sx, sy; reflexivity).
  simpl. destruct sx, sy; try reflexivity.
  - rewrite (Z.compare_antisym ex ey).
    destruct (ex ?= ey)%Z eqn:E; simpl; try reflexivity.
    rewrite (Pos.compare_cont_antisym mx my Eq). simpl. reflexivity.
  - rewrite (Z.compare_antisym ex ey).
    destruct (ex ?= ey)%Z eqn:E; simpl; try reflexivity.
    rewrite (Pos.compare_cont_antisym mx my Eq). simpl.
    destruct (Pos.compare_cont Eq mx my); reflexivity.
Qed.

(** [a < b] excludes [b <= a]. *)
Lemma ltb_true_leb_false (a b : float) :
  (a <? b) = true -> (b <=? a) = false.
Proof.
  rewrite ltb_spec, leb_spec. unfold SFltb, SFleb.
  rewrite (SFcompare_swap (Prim2SF a) (Prim2SF b)).
  destruct (SFcompare (Prim2SF a) (Prim2SF b)) as [[]|]; simpl; congruence.
Qed.

(** [b <= a] excludes [a < b]. *)
Lemma leb_true_ltb_false (a b : float) :
  (b <=? a) = true -> (a <? b) = false.
Proof.
  intros H. destruct (a <? b) eqn:E; [|reflexivity].
  apply ltb_true_leb_false in E. congruence.
Qed.

(** A value that is not NaN is either above [b] or at most [b], when
    [b] is not NaN either. *)
Lemma ltb_false_leb_true (a b : float) :
  PrimFloat.is_nan a = false -> PrimFloat.is_nan b = false ->
  (a <? b) = false -> (b <=? a) = true.
Proof.
  unfold PrimFloat.is_nan.
  rewrite !FloatAxioms.eqb_spec, ltb_spec, leb_spec. unfold SFeqb, SFltb, SFleb.
  rewrite (SFcompare_swap (Prim2SF a) (Prim2SF b)).
  destruct (Prim2SF a) as [sx|sx| |sx mx ex], (Prim2SF b) as [sy|sy| |sy my ey];
    try (simpl; congruence);
    try (destruct sx; simpl; congruence);
    try (destruct sy; simpl; congruence);
    try (destruct sx, sy; simpl; congruence).
  intros _ _. simpl.
  destruct sx, sy; simpl; try congruence;
    destruct (ex ?= ey)%Z; simpl; try congruence;
    destruct (Pos.compare_cont Eq mx my); simpl; congruence.
Qed.

Lemma fillna0_not_nan (f : float) : PrimFloat.is_nan (PyFloat.fillna0 f) = false.
Proof.
  unfold PyFloat.fillna0. destruct (PrimFloat.is_nan f) eqn:E; [reflexivity | exact E].
Qed.

End FloatFacts.

(** ** Facts about the string tests *)

Lemma in_list_true_iff (x : string) (l : list string) :
  PyStr.in_list x l = true <-> In x l.
Proof.
  unfold PyStr.in_list. rewrite existsb_exists. split.
  - intros (y & Hy & E). apply String.eqb_eq in E. subst. exact Hy.
  - intros H. exists x. split; [exact H | apply String.eqb_refl].
Qed.

Lemma in_list_false_iff (x : string) (l : list string) :
  PyStr.in_list x l = false <-> ~ In x l.
Proof.
  rewrite <- in_list_true_iff. destruct (PyStr.in_list x l); split; congruence.
Qed.

(** ** The legacy mapper: [map_deal_stage] and its confidence score *)

Section MapperFacts.

Import PipelineMapper.
Local Open Scope float_scope.

Lemma missing_is_empty (x : pyval) :
  missing x = match x with None => true | Some s => (s =? "")%string end.
Proof.
  destruct x as [s|]; [|reflexivity].
  unfold missing, PyStr.truthy. destruct (s =? "")%string; reflexivity.
Qed.

Lemma clear_final_won_lost (x : pyval) :
  clear_final x = match x with
                  | Some s => (s =? "Won")%string || (s =? "Lost")%string
                  | None => false
                  end.
Proof.
  destruct x as [s|]; [|reflexivity].
  unfold clear_final, PyStr.in_list. simpl. rewrite orb_false_r. reflexivity.
Qed.

(** The active-stage lookup always produces a pair. *)
Lemma map_active_returns (p : PipelineType) (stage : pyval) :
  exists pipeline_name stage_name, map_active p stage = Ok (pipeline_name, stage_name).
Proof.
  unfold map_active.
  destruct ((if PipelineType_eqb p STUDIES then studies_stage_mapping
             else sales_stage_mapping) !! stage); eauto.
Qed.

(** The indexing [final_stage_mapping[oppo_status]] is guarded by the
    membership test, so no [KeyError] escapes. *)
Lemma map_deal_stage_returns (status stage oppo_type : pyval) :
  exists pipeline_name stage_name,
    map_deal_stage status stage oppo_type = Ok (pipeline_name, stage_name).
Proof.
  unfold map_deal_stage, dict_contains, dict_getitem.
  destruct (final_stage_mapping !! status) as [[fs|]|];
    eauto using map_active_returns.
Qed.

Lemma confidence_by_tests (status stage oppo_type : pyval) :
  _calculate_mapping_confidence status stage oppo_type
  = confidence_of_tests (missing status) (missing stage) (missing oppo_type)
      (clear_final status).
Proof. reflexivity. Qed.

Lemma confidence_of_tests_bounds (a b c d : bool) :
  (0.1 <=? confidence_of_tests a b c d) = true
  /\ (confidence_of_tests a b c d <=? 1.0) = true.
Proof. destruct a, b, c, d; split; vm_compute; reflexivity. Qed.

(** C3: for every status, stage and type (each a string or None),
    [map_deal_stage] returns a (pipeline, stage) pair and raises nothing,
    and the confidence score lies in [0.1, 1.0] and is the value the
    specification describes: 1.0, minus 0.2 for a missing status, minus 0.2
    for a missing stage, minus 0.1 for a missing type, plus 0.2 capped at 1.0
    when the status is Won or Lost, floored at 0.1. *)
Theorem C3_mapping_total_confidence_in_range :
  forall status stage oppo_type : pyval,
    (exists pipeline_name stage_name,
        map_deal_stage status stage oppo_type = Ok (pipeline_name, stage_name))
    /\ (0.1 <=? _calculate_mapping_confidence status stage oppo_type) = true
    /\ (_calculate_mapping_confidence status stage oppo_type <=? 1.0) = true
    /\ _calculate_mapping_confidence status stage oppo_type
       = confidence_spec status stage oppo_type.
Proof.
  intros status stage oppo_type.
  split; [apply map_deal_stage_returns|].
  rewrite confidence_by_tests.
  split; [apply confidence_of_tests_bounds|].
  split; [apply confidence_of_tests_bounds|].
  unfold confidence_spec.
  rewrite !missing_is_empty, clear_final_won_lost.
  destruct status as [s|], stage as [g|], oppo_type as [t|]; cbv beta iota zeta.
  all: try destruct (s =? "")%string; try destruct (s =? "Won")%string;
    try destruct (s =? "Lost")%string.
  all: try destruct (g =? "")%string; try destruct (t =? "")%string.
  all: vm_compute; reflexivity.
Qed.

(** Scores as Python computes them: the subtractions are not exact. *)
Example confidence_values :
  _calculate_mapping_confidence (Some "In Progress"%string) (Some "Qualified"%string)
    (Some "FTK"%string) = 1.0
  /\ _calculate_mapping_confidence (Some ""%string) (Some ""%string) (Some ""%string)
     = 0.50000000000000011
  /\ _calculate_mapping_confidence (Some "Won"%string) (Some ""%string) (Some ""%string)
     = 0.90000000000000013.
Proof. repeat split. Qed.

(** The score reads the stage text only to see whether it is empty. *)
Lemma confidence_ignores_stage_text (status oppo_type : pyval) (stage1 stage2 : string) :
  stage1 <> ""%string -> stage2 <> ""%string ->
  _calculate_mapping_confidence status (Some stage1) oppo_type
  = _calculate_mapping_confidence status (Some stage2) oppo_type.
Proof.
  intros H1 H2. rewrite !confidence_by_tests, !missing_is_empty.
  apply String.eqb_neq in H1, H2. rewrite H1, H2. reflexivity.
Qed.

(** The loop body of [apply_pipeline_mapping] raises nothing either, on
    any row. *)
Lemma apply_pipeline_mapping_row_returns (row : opportunity) :
  exists pipeline_name stage_name confidence,
    apply_pipeline_mapping_row row = Ok (pipeline_name, stage_name, confidence)
    /\ (0.1 <=? confidence) = true /\ (confidence <=? 1.0) = true.
Proof.
  unfold apply_pipeline_mapping_row.
  destruct (map_deal_stage_returns
              (Some (collapse_null (get_str_stripped (Oppo_Status row))))
              (Some (collapse_null (get_str_stripped (Oppo_Stage row))))
              (Some (collapse_null (get_str_stripped (Oppo_Type row)))))
    as (p & s & ->).
  do 3 eexists. split; [reflexivity|].
  rewrite confidence_by_tests. apply confidence_of_tests_bounds.
Qed.

(** The legacy mapper has its own terminal table: it knows no certainty
    and no Closed Dead, closes every Abandonne deal as lost, and keeps a
    Sleap deal on the stage its stage text names. *)
Lemma legacy_mapper_terminal_table (stage oppo_type : pyval) :
  map_deal_stage (Some "Won"%string) stage oppo_type
  = Ok (PipelineType_value (determine_pipeline oppo_type), "closedwon"%string)
  /\ map_deal_stage (Some "Abandonne"%string) stage oppo_type
     = Ok (PipelineType_value (determine_pipeline oppo_type), "closedlost"%string)
  /\ map_deal_stage (Some "Sleap"%string) stage oppo_type
     = map_active (determine_pipeline oppo_type) stage.
Proof. repeat split. Qed.

End MapperFacts.

(** ** The deal-stage state machine: [_transform_deal_stage] *)

Section DealStageFacts.

Import BusinessTransformation.
Local Open Scope float_scope.

(** [_determine_pipeline] selects the Studies pipeline exactly for the
    rows whose stripped type is Preetude. *)
Lemma determine_pipeline_studies_iff (row : opportunity) (cell : text_cell) :
  Oppo_Type row = Some cell ->
  (_determine_pipeline cell = "Studies Pipeline" <-> type_of row = "Preetude").
Proof.
  intros H. unfold type_of, get_str_stripped. rewrite H.
  destruct cell as [s| |]; simpl.
  - destruct (s =? "")%string eqn:E.
    + apply String.eqb_eq in E. subst s. simpl. split; discriminate.
    + destruct (PyStr.strip s =? "Preetude")%string eqn:E2.
      * apply String.eqb_eq in E2. split; auto.
      * apply String.eqb_neq in E2. split; [discriminate | contradiction].
  - split; discriminate.
  - split; discriminate.
Qed.

(** C1: the terminal statuses win over the stage text and the deal type:
    Won gives Closed Won; Lost and NoGo give Closed Lost; Abandonne and
    Abandonnee give Closed Dead when the certainty is at most 10, and an
    active stage (Identified, In Progress: not a closed one) when it is
    above 10. *)
Theorem C1_terminal_status_table :
  forall row : opportunity,
    (status_of row = "Won" -> deal_stage_of row = "Closed Won")
    /\ (status_of row = "Lost" \/ status_of row = "NoGo" ->
        deal_stage_of row = "Closed Lost")
    /\ (status_of row = "Abandonne" \/ status_of row = "Abandonnee" ->
        (certainty row <=? 10) = true ->
        deal_stage_of row = "Closed Dead")
    /\ (status_of row = "Abandonne" \/ status_of row = "Abandonnee" ->
        (10 <? certainty row) = true ->
        deal_stage_of row = "Identified"
        /\ deal_status_of row = "In Progress"
        /\ In (deal_stage_of row) sales_active_stages
        /\ ~ In (deal_stage_of row) closed_stages).
Proof.
  intros row.
  unfold deal_stage_of, deal_status_of, _transform_deal_stage.
  fold (status_of row) (type_of row) (stage_text_of row) (certainty row).
  split; [|split; [|split]].
  - intros ->. reflexivity.
  - intros [-> | ->]; reflexivity.
  - intros [-> | ->] ->; reflexivity.
  - intros Hs Hc. apply ltb_true_leb_false in Hc.
    destruct Hs as [-> | ->]; rewrite Hc; simpl.
    all: split; [reflexivity|]; split; [reflexivity|]; split; [auto|].
    all: intros [E | [E | [E | []]]]; discriminate E.
Qed.

(** The four cases of C1 at concrete rows: a won deal, a NoGo deal, and
    abandoned deals with certainty 5 and 50. *)
Lemma C1_terminal_status_table_witness :
  deal_stage_of (row_of "Won" "Qualified" "FTK" 80) = "Closed Won"
  /\ deal_stage_of (row_of "NoGo" "Qualified" "Preetude" 80) = "Closed Lost"
  /\ deal_stage_of (row_of " Abandonne " "Qualified" "FTK" 5) = "Closed Dead"
  /\ deal_stage_of (row_of "Abandonnee" "Qualified" "Preetude" 50) = "Identified".
Proof.
  split; [|split; [|split]].
  - apply (C1_terminal_status_table (row_of "Won" "Qualified" "FTK" 80)). reflexivity.
  - apply (C1_terminal_status_table (row_of "NoGo" "Qualified" "Preetude" 80)).
    right. reflexivity.
  - apply (C1_terminal_status_table (row_of " Abandonne " "Qualified" "FTK" 5)).
    + left. reflexivity.
    + reflexivity.
  - apply (C1_terminal_status_table (row_of "Abandonnee" "Qualified" "Preetude" 50)).
    + right. reflexivity.
    + reflexivity.
Defined.

(** C2: a row with status Sleap goes to the hold stage of its pipeline,
    05-Négociation for deal type Preetude and Design Win otherwise, with deal
    status In Progress; the stage is not a closed one, and neither the stage
    text nor the certainty of the row has any influence. *)
Theorem C2_sleap_hold_stage :
  forall row : opportunity,
    status_of row = "Sleap" ->
    (type_of row = "Preetude" -> deal_stage_of row = "05-Négociation")
    /\ (type_of row <> "Preetude" -> deal_stage_of row = "Design Win")
    /\ deal_status_of row = "In Progress"
    /\ ~ In (deal_stage_of row) closed_stages
    /\ (forall row' : opportunity,
          status_of row' = "Sleap" -> type_of row' = type_of row ->
          _transform_deal_stage row' = _transform_deal_stage row).
Proof.
  intros row Hs.
  assert (Hrow : forall r, status_of r = "Sleap" ->
            _transform_deal_stage r
            = if (type_of r =? "Preetude")%string
              then ("05-Négociation", "In Progress", "Deal on hold (Sleap)")
              else ("Design Win", "In Progress", "Deal on hold (Sleap)")).
  { intros r Hr. unfold _transform_deal_stage.
    fold (status_of r) (type_of r) (stage_text_of r). rewrite Hr. reflexivity. }
  unfold deal_stage_of, deal_status_of. rewrite (Hrow row Hs).
  repeat split.
  - intros ->. reflexivity.
  - intros Hne. apply String.eqb_neq in Hne. rewrite Hne. reflexivity.
  - destruct (type_of row =? "Preetude")%string; reflexivity.
  - destruct (type_of row =? "Preetude")%string; simpl;
      intros [E | [E | [E | []]]]; discriminate E.
  - intros row' Hs' Ht. rewrite (Hrow row' Hs'), Ht. reflexivity.
Qed.

(** C2 at a Studies row and at a Sales row, both with a stage text that
    names another stage. *)
Lemma C2_sleap_hold_stage_witness :
  deal_stage_of (row_of "Sleap" "Qualified" "Preetude" 5) = "05-Négociation"
  /\ deal_stage_of (row_of "Sleap" "Identification" "FTK" 90) = "Design Win".
Proof.
  split.
  - apply (C2_sleap_hold_stage (row_of "Sleap" "Qualified" "Preetude" 5));
      reflexivity.
  - apply (C2_sleap_hold_stage (row_of "Sleap" "Identification" "FTK" 90));
      [reflexivity | discriminate].
Defined.

(** *** Active-stage lookup *)

Lemma first_match_none_iff (table : list (string * (string * string * string)))
  (text : string) :
  first_match table text = None
  <-> forall key, In key (map fst table) -> PyStr.contains key text = false.
Proof.
  induction table as [|[key v] table IH]; simpl.
  - split; [intros _ key [] | reflexivity].
  - destruct (PyStr.contains key text) eqn:E.
    + split; [discriminate|]. intros H. rewrite (H key) in E by (left; reflexivity).
      discriminate.
    + rewrite IH. split.
      * intros H k [<- | Hk]; [exact E | exact (H k Hk)].
      * intros H k Hk. apply H. right. exact Hk.
Qed.

Lemma first_match_some_in (table : list (string * (string * string * string)))
  (text : string) (r : string * string * string) :
  first_match table text = Some r -> In r (map snd table).
Proof.
  induction table as [|[key v] table IH]; simpl; [discriminate|].
  destruct (PyStr.contains key text).
  - intros [= <-]. left. reflexivity.
  - intros H. right. exact (IH H).
Qed.

(** The first key that occurs in the text decides. *)
Lemma first_match_at (table : list (string * (string * string * string)))
  (text : string) (i : nat) (key : string) (entry : string * string * string) :
  table !! i = Some (key, entry) ->
  PyStr.contains key text = true ->
  (forall (j : nat) (key' : string) (entry' : string * string * string),
      (j < i)%nat -> table !! j = Some (key', entry') ->
      PyStr.contains key' text = false) ->
  first_match table text = Some entry.
Proof.
  revert i. induction table as [|[k v] table IH]; intros [|i] Hi Hk Hbefore;
    try discriminate Hi; cbn [first_match].
  - injection Hi as -> ->. rewrite Hk. reflexivity.
  - rewrite (Hbefore 0%nat k v) by (reflexivity || lia).
    apply (IH i Hi Hk). intros j key' entry' Hj Hjl.
    apply (Hbefore (S j) key' entry'); [lia | exact Hjl].
Qed.

(** Every entry of a stage table names a stage of its pipeline, In
    Progress. *)
Lemma studies_table_in_progression (r : string * string * string) :
  In r (map snd studies_active_mapping) ->
  In r.1.1 studies_active_stages /\ r.1.2 = "In Progress".
Proof.
  simpl. intros H.
  repeat (destruct H as [<- | H]; [simpl; auto 10|]). destruct H.
Qed.

Lemma sales_table_in_progression (r : string * string * string) :
  In r (map snd sales_active_mapping) ->
  In r.1.1 sales_active_stages /\ r.1.2 = "In Progress".
Proof.
  simpl. intros H.
  repeat (destruct H as [<- | H]; [simpl; auto 10|]). destruct H.
Qed.

(** C7, as the code has it: for a row whose status is In Progress or
    empty, the lower-cased stage text is searched for the stage keys of the
    pipeline the deal type selects, in the order of the table, and the
    first key the text contains decides: the row gets the stage, status and
    note of that key.  The keys and their stages are the seven listed, for
    Studies and for Sales.  The result is always one of the five stages of
    the pipeline with deal status In Progress; it depends on the stage text
    only up to letter case; and a text that contains no key maps to level 1
    (01-Identification for Preetude, Identified otherwise) with the default
    note.  No score is attached to the row; the confidence score of the
    legacy mapper is the same for any two stage texts that are not empty,
    matched or not. *)
Theorem C7_active_stage_lookup :
  forall row : opportunity,
    status_of row = "In Progress" \/ status_of row = "" ->
    (In (deal_stage_of row)
        (if (type_of row =? "Preetude")%string then studies_active_stages
         else sales_active_stages)
     /\ deal_status_of row = "In Progress")
    /\ (forall row' : opportunity,
          status_of row' = "In Progress" \/ status_of row' = "" ->
          type_of row' = type_of row ->
          PyStr.lower (stage_text_of row') = PyStr.lower (stage_text_of row) ->
          _transform_deal_stage row' = _transform_deal_stage row)
    /\ (forall (i : nat) (key : string) (entry : string * string * string),
          active_table (type_of row) !! i = Some (key, entry) ->
          PyStr.contains key (stage_clean_of row) = true ->
          (forall (j : nat) (key' : string) (entry' : string * string * string),
              (j < i)%nat -> active_table (type_of row) !! j = Some (key', entry') ->
              PyStr.contains key' (stage_clean_of row) = false) ->
          _transform_deal_stage row = entry)
    /\ active_table (type_of row)
       = (if (type_of row =? "Preetude")%string
          then
            map (fun e => (e.1, (e.2, "In Progress", "Mapped to Studies Pipeline")))
              [ ("identification", "01-Identification");
                ("qualified", "02-Qualifiée");
                ("evaluation technique", "03-Evaluation technique");
                ("construction propositions", "04-Construction propositions");
                ("construction offre", "04-Construction propositions");
                ("negotiating", "05-Négociation");
                ("negociation", "05-Négociation") ]
          else
            map (fun e => (e.1, (e.2, "In Progress", "Mapped to Sales Pipeline")))
              [ ("identification", "Identified");
                ("qualified", "Qualified");
                ("evaluation technique", "Design In");
                ("construction propositions", "Negotiate");
                ("construction offre", "Negotiate");
                ("negotiating", "Design Win");
                ("negociation", "Design Win") ])
    /\ ((forall key, In key (map fst (active_table (type_of row))) ->
            PyStr.contains key (stage_clean_of row) = false) ->
        _transform_deal_stage row
        = if (type_of row =? "Preetude")%string
          then ("01-Identification", "In Progress", "Default Studies Pipeline stage")
          else ("Identified", "In Progress", "Default Sales Pipeline stage"))
    /\ (forall (status oppo_type : PipelineMapper.pyval) (stage_text : string),
          stage_text_of row <> "" -> stage_text <> "" ->
          PipelineMapper._calculate_mapping_confidence status
            (Some (stage_text_of row)) oppo_type
          = PipelineMapper._calculate_mapping_confidence status
              (Some stage_text) oppo_type).
Proof.
  assert (Hrow : forall r, status_of r = "In Progress" \/ status_of r = "" ->
            _transform_deal_stage r = _map_active_stage (stage_text_of r) (type_of r)).
  { intros r Hr. unfold _transform_deal_stage.
    fold (status_of r) (type_of r) (stage_text_of r).
    destruct Hr as [-> | ->]; reflexivity. }
  intros row Hs. unfold deal_stage_of, deal_status_of. rewrite (Hrow row Hs).
  split; [|split; [|split; [|split; [|split]]]].
  6:{ intros status oppo_type stage_text H1 H2.
      apply confidence_ignores_stage_text; assumption. }
  3:{ intros i key entry Hi Hk Hbefore. unfold _map_active_stage.
      fold (active_table (type_of row)).
      change (PyStr.strip (PyStr.lower (stage_text_of row))) with (stage_clean_of row).
      rewrite (first_match_at _ _ i key entry Hi Hk Hbefore). reflexivity. }
  3:{ unfold active_table. destruct (type_of row =? "Preetude")%string; reflexivity. }
  - unfold _map_active_stage.
    destruct (type_of row =? "Preetude")%string.
    + destruct (first_match studies_active_mapping _) as [r|] eqn:E.
      * apply first_match_some_in in E. apply studies_table_in_progression. exact E.
      * simpl. auto.
    + destruct (first_match sales_active_mapping _) as [r|] eqn:E.
      * apply first_match_some_in in E. apply sales_table_in_progression. exact E.
      * simpl. auto.
  - intros row' Hs' Ht Hl. rewrite (Hrow row' Hs').
    unfold _map_active_stage. rewrite Ht, Hl. reflexivity.
  - intros Hnone. unfold _map_active_stage. fold (active_table (type_of row)).
    change (PyStr.strip (PyStr.lower (stage_text_of row))) with (stage_clean_of row).
    apply first_match_none_iff in Hnone. rewrite Hnone. reflexivity.
Qed.

(** C7 at three rows in progress: a Sales row whose stage text names no
    stage; a Studies row whose text holds the key negotiating, in capitals;
    and a Sales row whose text holds two keys, where identification, the
    earlier one in the table, decides. *)
Lemma C7_active_stage_lookup_witness :
  _transform_deal_stage (row_of "In Progress" "Prospect" "FTK" 40)
  = ("Identified", "In Progress", "Default Sales Pipeline stage")
  /\ _transform_deal_stage (row_of "In Progress" " NEGOTIATING terms " "Preetude" 40)
     = ("05-Négociation", "In Progress", "Mapped to Studies Pipeline")
  /\ _transform_deal_stage
       (row_of "" "Qualified, identification pending" "FTK" 40)
     = ("Identified", "In Progress", "Mapped to Sales Pipeline").
Proof.
  split; [|split].
  - apply (C7_active_stage_lookup (row_of "In Progress" "Prospect" "FTK" 40)).
    + left. reflexivity.
    + intros key Hk. simpl in Hk.
      repeat (destruct Hk as [<- | Hk]; [reflexivity|]). destruct Hk.
  - destruct (C7_active_stage_lookup
                (row_of "In Progress" " NEGOTIATING terms " "Preetude" 40))
      as (_ & _ & H & _); [left; reflexivity|].
    apply (H 5%nat "negotiating"); [reflexivity | reflexivity|].
    intros j key' entry' Hj Hl.
    do 5 (destruct j as [|j]; [injection Hl as <- _; reflexivity|]). lia.
  - destruct (C7_active_stage_lookup
                (row_of "" "Qualified, identification pending" "FTK" 40))
      as (_ & _ & H & _); [right; reflexivity|].
    apply (H 0%nat "identification"); [reflexivity | reflexivity|].
    intros j key' entry' Hj. lia.
Defined.

(** The rows the stage lookup is not reached for: an active row whose
    status is neither In Progress nor empty gets the fixed default, whatever
    its deal type and stage text. *)
Lemma other_status_default (row : opportunity) :
  is_active_row row = true ->
  status_of row <> "In Progress" -> status_of row <> "" ->
  _transform_deal_stage row = ("Identified", "In Progress", "Default mapping applied").
Proof.
  unfold is_active_row, _transform_deal_stage.
  fold (status_of row) (type_of row) (stage_text_of row) (certainty row).
  intros H Hp He.
  apply andb_true_iff in H. destruct H as [H1 H2].
  apply negb_true_iff in H1, H2. rewrite H2.
  apply in_list_false_iff in H1.
  assert (Hw : (status_of row =? "Won")%string = false).
  { apply String.eqb_neq. intros E. apply H1. rewrite E. simpl. auto. }
  assert (Hl : PyStr.in_list (status_of row) ["Lost"; "NoGo"] = false).
  { apply in_list_false_iff. intros [E | [E | []]]; apply H1; rewrite <- E; simpl; auto. }
  assert (Hs : (status_of row =? "Sleap")%string = false).
  { apply String.eqb_neq. intros E. apply H1. rewrite E. simpl. auto 6. }
  rewrite Hw, Hl, Hs.
  apply String.eqb_neq in Hp, He. rewrite Hp, He. reflexivity.
Qed.

(** That default at a row with a status the tables do not know. *)
Lemma other_status_default_witness :
  _transform_deal_stage (row_of "Pending" "Qualified" "Preetude" 60)
  = ("Identified", "In Progress", "Default mapping applied").
Proof.
  apply (other_status_default (row_of "Pending" "Qualified" "Preetude" 60)).
  - reflexivity.
  - discriminate.
  - discriminate.
Defined.

(** C7 fails as stated.  The row [abandoned_studies_row] is active, its
    pipeline is Studies and its stage text contains no stage key, yet its
    stage is Identified, a Sales label, and not 01-Identification: only the
    statuses In Progress and empty reach the stage lookup.  And in the
    legacy mapper an unmatched stage text lowers no confidence: the score of
    the unmatched text is the 1.0 of a matched one. *)
Lemma C7_counterexample :
  is_active_row abandoned_studies_row = true
  /\ _determine_pipeline (Text "Preetude") = "Studies Pipeline"
  /\ first_match studies_active_mapping (stage_clean_of abandoned_studies_row) = None
  /\ deal_stage_of abandoned_studies_row = "Identified"
  /\ deal_stage_of abandoned_studies_row <> "01-Identification"
  /\ PipelineMapper.map_deal_stage (Some "In Progress") (Some "Prospect") (Some "FTK")
     = Ok ("Sales Pipeline", "Identified")
  /\ PipelineMapper._calculate_mapping_confidence
       (Some "In Progress") (Some "Prospect") (Some "FTK")
     = PipelineMapper._calculate_mapping_confidence
         (Some "In Progress") (Some "Qualified") (Some "FTK").
Proof.
  repeat split; try reflexivity; try (vm_compute; reflexivity).
  vm_compute. discriminate.
Qed.

End DealStageFacts.

(** ** Association resolution *)

Section AssociationFacts.

Import Associations.

Lemma fold_insert_is_Some {V : Type} (rows : list (Z * V)) (m : gmap Z V) (k : Z) :
  is_Some (fold_left (fun m kv => <[kv.1 := kv.2]> m) rows m !! k)
  <-> is_Some (m !! k) \/ In k (map fst rows).
Proof.
  revert m. induction rows as [|[k' v] rows IH]; intros m; simpl.
  - tauto.
  - rewrite IH. destruct (decide (k' = k)) as [->|Hne].
    + rewrite lookup_insert_eq. split; [intros _; right; left; reflexivity|].
      intros _. left. eauto.
    + rewrite lookup_insert_ne by exact Hne. tauto.
Qed.

(** [x in lookup] holds exactly for the ids of the rows the lookup was
    built from. *)
Lemma dict_contains_series_to_dict {V : Type} (rows : list (Z * V)) (k : Z) :
  dict_contains (series_to_dict rows) k = true <-> In k (map fst rows).
Proof.
  unfold dict_contains, series_to_dict.
  pose proof (fold_insert_is_Some rows ∅ k) as H.
  rewrite lookup_empty in H.
  destruct (fold_left _ rows ∅ !! k) as [v|].
  - split; [intros _|reflexivity].
    destruct (proj1 H (mk_is_Some _ _ eq_refl)) as [[x Hx]|Hin];
      [discriminate Hx | exact Hin].
  - split; [discriminate|]. intros Hin.
    assert (Hs : @is_Some V None) by (apply H; right; exact Hin).
    destruct Hs as [x Hx]. discriminate Hx.
Qed.

Lemma map_fst_pair {A B : Type} (f : A -> Z) (g : A -> B) (l : list A) :
  map fst (map (fun x => (f x, g x)) l) = map f l.
Proof. induction l as [|x l IH]; simpl; [reflexivity | rewrite IH; reflexivity]. Qed.

Lemma association_status_success {V : Type} (rows : list (Z * V)) (miss : string)
  (x : option Z) :
  miss <> "SUCCESS" ->
  (association_status (series_to_dict rows) miss x = "SUCCESS"
   <-> resolves (map fst rows) x)
  /\ (association_status (series_to_dict rows) miss x = "SUCCESS"
      \/ association_status (series_to_dict rows) miss x = miss).
Proof.
  intros Hmiss. unfold association_status, resolves.
  destruct x as [id|].
  - destruct (dict_contains (series_to_dict rows) id) eqn:E.
    + apply dict_contains_series_to_dict in E. split; [|left; reflexivity].
      split; [intros _; eauto | reflexivity].
    + split; [|right; reflexivity]. split; [intros H; contradiction|].
      intros (id' & [= <-] & Hin). apply dict_contains_series_to_dict in Hin.
      congruence.
  - split; [|right; reflexivity]. split; [intros H; contradiction|].
    intros (id' & [=] & _).
Qed.

Lemma Forall2_map_right {A B : Type} (P : A -> B -> Prop) (f : A -> B) (l : list A) :
  (forall x, P x (f x)) -> Forall2 P l (map f l).
Proof. intros H. induction l; simpl; constructor; auto. Qed.

Lemma contact_lookup_unique (contacts_df : list contact) :
  NoDup (map Pers_PersonId contacts_df) ->
  contact_lookup_of contacts_df
  = Ok (series_to_dict (map (fun p => (Pers_PersonId p, p)) contacts_df)).
Proof.
  intros H. unfold contact_lookup_of, frame_to_dict_index.
  rewrite bool_decide_eq_true_2; [reflexivity|].
  change (NoDup (map fst (map (fun p => (Pers_PersonId p, p)) contacts_df))).
  rewrite map_fst_pair. exact H.
Qed.

Lemma deal_lookup_unique (deals : list transformed_deal) :
  NoDup (map record_id deals) ->
  deal_lookup_of deals = Ok (series_to_dict (map (fun d => (record_id d, d)) deals)).
Proof.
  intros H. unfold deal_lookup_of, frame_to_dict_index.
  rewrite bool_decide_eq_true_2; [reflexivity|].
  change (NoDup (map fst (map (fun d => (record_id d, d)) deals))).
  rewrite map_fst_pair. exact H.
Qed.

(** C8, as the code has it: with unique contact ids (and unique deal
    ids for the variant that also resolves deals), every communication row
    yields one output row, in order, and each target is resolved on its own:
    the company status is SUCCESS exactly when the row's company id is
    present and is the id of a company, and NO_COMPANY_FOUND otherwise; the
    contact status is SUCCESS exactly when the person id is present and is
    the id of a contact, and NO_CONTACT_FOUND otherwise; the deal status is
    SUCCESS or NO_DEAL_FOUND in the same way.  A miss raises nothing. *)
Theorem C8_targets_resolved_independently :
  forall (communications_df : list communication)
         (transformed_deals_df : list transformed_deal)
         (companies_df : list company) (contacts_df : list contact),
    NoDup (map Pers_PersonId contacts_df) ->
    Forall2
      (fun r a =>
         communication_id a = Comm_CommunicationId r
         /\ (company_association_status a = "SUCCESS"
             <-> resolves (map Comp_CompanyId companies_df) (comm_Comp_CompanyId r))
         /\ (company_association_status a = "SUCCESS"
             \/ company_association_status a = "NO_COMPANY_FOUND")
         /\ (contact_association_status a = "SUCCESS"
             <-> resolves (map Pers_PersonId contacts_df) (comm_Pers_PersonId r))
         /\ (contact_association_status a = "SUCCESS"
             \/ contact_association_status a = "NO_CONTACT_FOUND"))
      communications_df
      (process_communications_with_associations communications_df companies_df contacts_df)
    /\ (NoDup (map record_id transformed_deals_df) ->
        Forall2
          (fun r a =>
             dc_communication_id a = Comm_CommunicationId r
             /\ (deal_association_status a = "SUCCESS"
                 <-> resolves (map record_id transformed_deals_df) (comm_Oppo_OpportunityId r))
             /\ (deal_association_status a = "SUCCESS"
                 \/ deal_association_status a = "NO_DEAL_FOUND")
             /\ (dc_company_association_status a = "SUCCESS"
                 <-> resolves (map Comp_CompanyId companies_df) (comm_Comp_CompanyId r))
             /\ (dc_company_association_status a = "SUCCESS"
                 \/ dc_company_association_status a = "NO_COMPANY_FOUND")
             /\ (dc_contact_association_status a = "SUCCESS"
                 <-> resolves (map Pers_PersonId contacts_df) (comm_Pers_PersonId r))
             /\ (dc_contact_association_status a = "SUCCESS"
                 \/ dc_contact_association_status a = "NO_CONTACT_FOUND"))
          communications_df
          (create_communication_associations communications_df transformed_deals_df
             companies_df contacts_df)).
Proof.
  intros comms deals companies contacts Hcontacts.
  assert (Hco : forall x,
    (association_status (company_lookup_of companies) "NO_COMPANY_FOUND" x = "SUCCESS"
     <-> resolves (map Comp_CompanyId companies) x)
    /\ (association_status (company_lookup_of companies) "NO_COMPANY_FOUND" x = "SUCCESS"
        \/ association_status (company_lookup_of companies) "NO_COMPANY_FOUND" x
           = "NO_COMPANY_FOUND")).
  { intros x. unfold company_lookup_of.
    rewrite <- (map_fst_pair Comp_CompanyId Comp_Name companies).
    apply association_status_success. discriminate. }
  assert (Hpe : forall x,
    let lookup := series_to_dict (map (fun p => (Pers_PersonId p, p)) contacts) in
    (association_status lookup "NO_CONTACT_FOUND" x = "SUCCESS"
     <-> resolves (map Pers_PersonId contacts) x)
    /\ (association_status lookup "NO_CONTACT_FOUND" x = "SUCCESS"
        \/ association_status lookup "NO_CONTACT_FOUND" x = "NO_CONTACT_FOUND")).
  { intros x lookup. subst lookup.
    rewrite <- (map_fst_pair Pers_PersonId (fun p => p) contacts).
    apply association_status_success. discriminate. }
  split.
  - unfold process_communications_with_associations.
    rewrite (contact_lookup_unique contacts Hcontacts).
    apply Forall2_map_right. intros r. simpl.
    split; [reflexivity|]. split; [apply Hco|]. split; [apply Hco|].
    split; apply Hpe.
  - intros Hdeals. unfold create_communication_associations.
    rewrite (deal_lookup_unique deals Hdeals), (contact_lookup_unique contacts Hcontacts).
    apply Forall2_map_right. intros r. simpl.
    assert (Hde := association_status_success
                     (map (fun d => (record_id d, d)) deals) "NO_DEAL_FOUND"
                     (comm_Oppo_OpportunityId r) ltac:(discriminate)).
    rewrite (map_fst_pair record_id (fun d => d) deals) in Hde.
    split; [reflexivity|]. split; [apply Hde|]. split; [apply Hde|].
    split; [apply Hco|]. split; [apply Hco|]. split; apply Hpe.
Qed.

(** C8 at that communication: the company resolves, on the same row as a
    contact that does not. *)
Lemma C8_targets_resolved_independently_witness :
  Forall2
    (fun r a =>
       communication_id a = Comm_CommunicationId r
       /\ (company_association_status a = "SUCCESS"
           <-> resolves [10] (comm_Comp_CompanyId r))
       /\ (company_association_status a = "SUCCESS"
           \/ company_association_status a = "NO_COMPANY_FOUND")
       /\ (contact_association_status a = "SUCCESS"
           <-> resolves [7] (comm_Pers_PersonId r))
       /\ (contact_association_status a = "SUCCESS"
           \/ contact_association_status a = "NO_CONTACT_FOUND"))
    [mail_known_company_unknown_contact]
    (process_communications_with_associations
       [mail_known_company_unknown_contact] [acme] [alice]).
Proof.
  apply (C8_targets_resolved_independently
           [mail_known_company_unknown_contact] [] [acme] [alice]).
  simpl. constructor; [intros H; inversion H | constructor].
Defined.

(** C8 fails as stated: the status recorded for the unknown contact is
    NO_CONTACT_FOUND, not NOT_FOUND (and the company, on the same row, is
    SUCCESS). *)
Lemma C8_counterexample :
  map (fun a => (company_association_status a, contact_association_status a))
      (process_communications_with_associations
         [mail_known_company_unknown_contact] [acme] [alice])
  = [("SUCCESS", "NO_CONTACT_FOUND")]
  /\ "NO_CONTACT_FOUND" <> "NOT_FOUND".
Proof. split; [vm_compute; reflexivity | discriminate]. Qed.

(** *** Social networks *)

Lemma not_auto_false_iff (r : social_link) :
  not_auto r = false <-> sone_networklink r = Text "#AUTO#".
Proof.
  unfold not_auto. destruct (sone_networklink r) as [s| |].
  - destruct (s =? "#AUTO#")%string eqn:E; simpl.
    + apply String.eqb_eq in E. subst s. tauto.
    + apply String.eqb_neq in E. split; [discriminate|]. intros [= H]. contradiction.
  - split; discriminate.
  - split; discriminate.
Qed.

Lemma filter_length_split {A : Type} (f : A -> bool) (l : list A) :
  (length (List.filter f l) + length (List.filter (fun x => negb (f x)) l)
   = length l)%nat.
Proof.
  induction l as [|x l IH]; simpl; [reflexivity|].
  destruct (f x); simpl; lia.
Qed.

(** C10: a social-network row whose link is the placeholder #AUTO# is
    dropped before any lookup: no output row carries that link; the output
    is never longer than the input; and when the contact ids are unique the
    output has exactly one row per remaining input row, in order, so it is
    strictly shorter than the input as soon as one input row is a
    placeholder. *)
Theorem C10_auto_placeholders_dropped :
  forall (social_df : list social_link) (companies_df : list company)
         (contacts_df : list contact),
    Forall (fun a => network_link a <> Text "#AUTO#")
      (process_social_networks_with_associations social_df companies_df contacts_df)
    /\ (length (process_social_networks_with_associations social_df companies_df contacts_df)
        <= length social_df)%nat
    /\ (NoDup (map Pers_PersonId contacts_df) ->
        map network_link
          (process_social_networks_with_associations social_df companies_df contacts_df)
        = map sone_networklink (List.filter not_auto social_df)
        /\ (length (process_social_networks_with_associations social_df companies_df contacts_df)
            + length (List.filter (fun r => negb (not_auto r)) social_df)
            = length social_df)%nat
        /\ ((exists r, In r social_df /\ sone_networklink r = Text "#AUTO#") ->
            (length (process_social_networks_with_associations social_df companies_df contacts_df)
             < length social_df)%nat)).
Proof.
  intros social companies contacts.
  unfold process_social_networks_with_associations.
  pose proof (filter_length_split not_auto social) as Hlen.
  split; [|split].
  - destruct (contact_lookup_of contacts) as [lookup|e]; [|constructor].
    apply List.Forall_forall. intros a Ha. apply in_map_iff in Ha.
    destruct Ha as (r & <- & Hr). simpl. apply filter_In in Hr.
    destruct Hr as [_ Hr]. intros E. apply not_auto_false_iff in E. congruence.
  - destruct (contact_lookup_of contacts) as [lookup|e]; simpl; [|lia].
    rewrite List.length_map. lia.
  - intros Hcontacts. rewrite (contact_lookup_unique contacts Hcontacts).
    split; [|split].
    + rewrite List.map_map. reflexivity.
    + rewrite List.length_map. exact Hlen.
    + intros (r & Hin & Hr). rewrite List.length_map.
      assert (In r (List.filter (fun r => negb (not_auto r)) social)) as Hdropped.
      { apply filter_In. split; [exact Hin|].
        apply not_auto_false_iff in Hr. rewrite Hr. reflexivity. }
      destruct (List.filter (fun r => negb (not_auto r)) social); [destruct Hdropped|].
      simpl in Hlen. lia.
Qed.

(** C10 at those two links: the only remaining row resolves, and the
    output has one row for two input rows. *)
Lemma C10_auto_placeholders_dropped_witness :
  map association_status_col
    (process_social_networks_with_associations [auto_link; alice_link] [acme] [alice])
  = ["SUCCESS"]
  /\ (length (process_social_networks_with_associations [auto_link; alice_link] [acme] [alice])
      < length [auto_link; alice_link])%nat.
Proof.
  split; [vm_compute; reflexivity|].
  apply (C10_auto_placeholders_dropped [auto_link; alice_link] [acme] [alice]).
  - simpl. constructor; [intros H; inversion H | constructor].
  - exists auto_link. split; [left; reflexivity | reflexivity].
Defined.

End AssociationFacts.

(** ** Margin and ROI *)

Section ComputedColumnFacts.

Import ComputedColumns.
Local Open Scope float_scope.

Lemma fillna0_idempotent (f : float) :
  PyFloat.fillna0 (PyFloat.fillna0 f) = PyFloat.fillna0 f.
Proof.
  unfold PyFloat.fillna0 at 1. rewrite fillna0_not_nan. reflexivity.
Qed.

Lemma to_numeric_fillna_idempotent (col : list float) :
  to_numeric_fillna (to_numeric_fillna col) = to_numeric_fillna col.
Proof.
  unfold to_numeric_fillna. rewrite List.map_map.
  apply List.map_ext. intros f. apply fillna0_idempotent.
Qed.

Lemma to_numeric_fillna_length (col : list float) :
  length (to_numeric_fillna col) = length col.
Proof. apply List.length_map. Qed.

(** Selecting the rows of a mask, dividing and assigning back is the
    row-wise guarded quotient. *)
Lemma loc_assign_ratio (p : float -> bool) (base net : list float) :
  length net = length base ->
  loc_assign (map p base) (map (fun _ => 0) base) (ratio_percent (map p base) net base)
  = zip_with (fun n b => if p b then n / b * 100 else 0) net base.
Proof.
  unfold ratio_percent. revert net.
  induction base as [|b base IH]; intros [|n net] Hlen; simpl in *; try discriminate;
    try reflexivity.
  injection Hlen as Hlen. destruct (p b); simpl; rewrite IH by exact Hlen; reflexivity.
Qed.

(** The frame after [calculate_roi_metrics], when it has the two input
    columns and a net amount. *)
Lemma roi_metrics_with_net (df : frame) (forecast cout net : list float) :
  df !! "Oppo_Forecast" = Some forecast ->
  df !! "oppo_cout" = Some cout ->
  df !! "net_amount" = Some net ->
  length net = length forecast ->
  length forecast = length cout ->
  let f := to_numeric_fillna forecast in
  let c := to_numeric_fillna cout in
  calculate_roi_metrics df !! "net_amount" = Some net
  /\ calculate_roi_metrics df !! "margin_percentage"
     = Some (zip_with (fun n b => if 0 <? b then n / b * 100 else 0) net f)
  /\ calculate_roi_metrics df !! "roi_percentage"
     = Some (zip_with (fun n b => if 0 <? b then n / b * 100 else 0) net c).
Proof.
  intros Hf Hc Hn Hlen Hlen' f c. unfold calculate_roi_metrics.
  rewrite Hn, Hf. rewrite lookup_insert_ne by discriminate. rewrite Hc.
  rewrite !lookup_insert_ne by discriminate. rewrite Hn.
  fold f c.
  assert (Hzeros : map (fun _ : float => 0) f = map (fun _ : float => 0) c).
  { subst f c. unfold to_numeric_fillna. rewrite !List.map_map.
    clear -Hlen'. revert cout Hlen'.
    induction forecast as [|x l IH]; intros [|y k] H; simpl in *; try discriminate;
      [reflexivity|]. f_equal. apply IH. congruence. }
  split; [|split].
  - rewrite !lookup_insert_ne by discriminate. exact Hn.
  - rewrite !lookup_insert_ne by discriminate. rewrite lookup_insert_eq.
    rewrite loc_assign_ratio; [reflexivity|].
    subst f. rewrite to_numeric_fillna_length. exact Hlen.
  - rewrite lookup_insert_eq. rewrite Hzeros.
    rewrite loc_assign_ratio; [reflexivity|].
    subst c. rewrite to_numeric_fillna_length. congruence.
Qed.

Lemma net_amount_computed (df : frame) (forecast cout : list float) :
  df !! "Oppo_Forecast" = Some forecast ->
  df !! "oppo_cout" = Some cout ->
  calculate_net_amount df !! "Oppo_Forecast" = Some (to_numeric_fillna forecast)
  /\ calculate_net_amount df !! "oppo_cout" = Some (to_numeric_fillna cout)
  /\ calculate_net_amount df !! "net_amount"
     = Some (zip_with PrimFloat.sub (to_numeric_fillna forecast) (to_numeric_fillna cout)).
Proof.
  intros Hf Hc. unfold calculate_net_amount.
  rewrite Hf. rewrite lookup_insert_ne by discriminate. rewrite Hc.
  split; [|split].
  - rewrite !lookup_insert_ne by discriminate. apply lookup_insert_eq.
  - rewrite lookup_insert_ne by discriminate. apply lookup_insert_eq.
  - apply lookup_insert_eq.
Qed.


Lemma lookup_in_range {A : Type} (l : list A) (i : nat) :
  (i < length l)%nat -> exists x, l !! i = Some x.
Proof. intros H. apply lookup_lt_is_Some_2 in H. destruct H as [x Hx]. eauto. Qed.

(** When the frame has no net amount, [calculate_roi_metrics] proceeds on
    the frame [calculate_net_amount] returns. *)
Lemma roi_metrics_computes_net (df : frame) (forecast cout : list float) :
  df !! "Oppo_Forecast" = Some forecast ->
  df !! "oppo_cout" = Some cout ->
  df !! "net_amount" = None ->
  calculate_roi_metrics df = calculate_roi_metrics (calculate_net_amount df).
Proof.
  intros Hf Hc Hn.
  destruct (net_amount_computed df forecast cout Hf Hc) as (_ & _ & Hnet).
  unfold calculate_roi_metrics at 1 2. rewrite Hn, Hnet. reflexivity.
Qed.

(** C9: on a frame with numeric forecast and cost columns (and, when it is
    already there, a net amount column), [calculate_roi_metrics] returns a
    frame with a margin and a ROI for every row and raises nothing; with f
    and c the forecast and the cost cells of a row of the input (a missing
    value read as 0) and
    n its net amount (f - c when the frame had none): the margin is
    n / f * 100 when f > 0 and exactly 0 when f <= 0, the ROI is n / c * 100
    when c > 0 and exactly 0 when c <= 0, and one of the two cases always
    applies. *)
Theorem C9_margin_roi_zero_fallback :
  forall (df : frame) (forecast cout : list float),
    df !! "Oppo_Forecast" = Some forecast ->
    df !! "oppo_cout" = Some cout ->
    length forecast = length cout ->
    (forall net0, df !! "net_amount" = Some net0 -> length net0 = length forecast) ->
    exists net margin roi : list float,
      calculate_roi_metrics df !! "net_amount" = Some net
      /\ calculate_roi_metrics df !! "margin_percentage" = Some margin
      /\ calculate_roi_metrics df !! "roi_percentage" = Some roi
      /\ forall (i : nat) (forecast_i cout_i : float),
           forecast !! i = Some forecast_i ->
           cout !! i = Some cout_i ->
           let f := if PrimFloat.is_nan forecast_i then 0 else forecast_i in
           let c := if PrimFloat.is_nan cout_i then 0 else cout_i in
           exists n m r : float,
             net !! i = Some n /\ margin !! i = Some m /\ roi !! i = Some r
             /\ (df !! "net_amount" = None -> n = f - c)
             /\ (forall net0, df !! "net_amount" = Some net0 -> net0 !! i = Some n)
             /\ ((0 <? f) = true -> m = n / f * 100)
             /\ ((f <=? 0) = true -> m = 0)
             /\ ((0 <? c) = true -> r = n / c * 100)
             /\ ((c <=? 0) = true -> r = 0)
             /\ ((0 <? f) = true \/ (f <=? 0) = true)
             /\ ((0 <? c) = true \/ (c <=? 0) = true).
Proof.
  intros df forecast cout Hf Hc Hlen Hnet0.
  assert (Hmain : exists net : list float,
    length net = length forecast
    /\ (df !! "net_amount" = None ->
        net = zip_with PrimFloat.sub (to_numeric_fillna forecast) (to_numeric_fillna cout))
    /\ (forall net0, df !! "net_amount" = Some net0 -> net0 = net)
    /\ calculate_roi_metrics df !! "net_amount" = Some net
    /\ calculate_roi_metrics df !! "margin_percentage"
       = Some (zip_with (fun n b => if 0 <? b then n / b * 100 else 0) net
                 (to_numeric_fillna forecast))
    /\ calculate_roi_metrics df !! "roi_percentage"
       = Some (zip_with (fun n b => if 0 <? b then n / b * 100 else 0) net
                 (to_numeric_fillna cout))).
  { destruct (df !! "net_amount") as [net0|] eqn:Hn.
    - exists net0. split; [apply Hnet0; reflexivity|]. split; [discriminate|].
      split; [intros net1 [= <-]; reflexivity|].
      apply (roi_metrics_with_net df forecast cout net0); auto.
    - rewrite (roi_metrics_computes_net df forecast cout Hf Hc Hn).
      destruct (net_amount_computed df forecast cout Hf Hc) as (Hf' & Hc' & Hn').
      assert (Hzip : length (zip_with PrimFloat.sub (to_numeric_fillna forecast)
                               (to_numeric_fillna cout)) = length forecast).
      { rewrite length_zip_with, !to_numeric_fillna_length. lia. }
      eexists. split; [exact Hzip|]. split; [reflexivity|].
      split; [intros net1 K; discriminate K|].
      pose proof (roi_metrics_with_net _ _ _ _ Hf' Hc' Hn') as H.
      cbv zeta in H. rewrite !to_numeric_fillna_idempotent in H.
      apply H; rewrite ?to_numeric_fillna_length; [exact Hzip | exact Hlen]. }
  destruct Hmain as (net & Hnlen & Hnone & Hsome & Hnet & Hmargin & Hroi).
  exists net. eexists. eexists.
  split; [exact Hnet|]. split; [exact Hmargin|]. split; [exact Hroi|].
  intros i f0 c0 Hf0 Hc0 f c.
  assert (Hfi : to_numeric_fillna forecast !! i = Some f).
  { unfold to_numeric_fillna. rewrite list_lookup_fmap_Some. exists f0. split; [reflexivity | exact Hf0]. }
  assert (Hci : to_numeric_fillna cout !! i = Some c).
  { unfold to_numeric_fillna. rewrite list_lookup_fmap_Some. exists c0. split; [reflexivity | exact Hc0]. }
  assert (Hi : (i < length net)%nat).
  { rewrite Hnlen. apply lookup_lt_Some with f0. exact Hf0. }
  destruct (lookup_in_range net i Hi) as [n Hni].
  exists n. eexists. eexists.
  split; [exact Hni|].
  split; [rewrite lookup_zip_with, Hni, Hfi; reflexivity|].
  split; [rewrite lookup_zip_with, Hni, Hci; reflexivity|].
  change f with (PyFloat.fillna0 f0) in *. change c with (PyFloat.fillna0 c0) in *.
  clear f c.
  split.
  { intros Hn. rewrite (Hnone Hn), lookup_zip_with, Hfi, Hci in Hni.
    simpl in Hni. congruence. }
  split; [intros net0 Hn0; rewrite (Hsome net0 Hn0); exact Hni|].
  split; [intros ->; reflexivity|].
  split; [intros H; rewrite (leb_true_ltb_false _ _ H); reflexivity|].
  split; [intros ->; reflexivity|].
  split; [intros H; rewrite (leb_true_ltb_false _ _ H); reflexivity|].
  split.
  - destruct (0 <? PyFloat.fillna0 f0) eqn:E; [left; reflexivity|right].
    apply ltb_false_leb_true; [reflexivity | apply fillna0_not_nan | exact E].
  - destruct (0 <? PyFloat.fillna0 c0) eqn:E; [left; reflexivity|right].
    apply ltb_false_leb_true; [reflexivity | apply fillna0_not_nan | exact E].
Qed.

(** The metrics of that frame: the first deal has margin 80 and ROI 400;
    the second, with no forecast, has margin 0 and ROI -100; the third, with
    neither forecast nor cost, has 0 and 0. *)
Example three_deals_metrics :
  calculate_roi_metrics three_deals !! "net_amount" = Some [800; -50; 0]
  /\ calculate_roi_metrics three_deals !! "margin_percentage" = Some [80; 0; 0]
  /\ calculate_roi_metrics three_deals !! "roi_percentage" = Some [400; -100; 0].
Proof. repeat split; vm_compute; reflexivity. Qed.

(** C9 at that frame: from the cells 1000 and 200 of the first deal the
    theorem gives net 800, margin 80 and ROI 400; from the cells 0 and 50
    of the second, margin 0 and ROI -100; from the missing forecast of the
    third, margin 0, and from its cost 0, ROI 0. *)
Lemma C9_margin_roi_zero_fallback_witness :
  exists net margin roi : list float,
    calculate_roi_metrics three_deals !! "net_amount" = Some net
    /\ calculate_roi_metrics three_deals !! "margin_percentage" = Some margin
    /\ calculate_roi_metrics three_deals !! "roi_percentage" = Some roi
    /\ net !! 0%nat = Some 800 /\ margin !! 0%nat = Some 80 /\ roi !! 0%nat = Some 400
    /\ margin !! 1%nat = Some 0 /\ roi !! 1%nat = Some (-100)
    /\ margin !! 2%nat = Some 0 /\ roi !! 2%nat = Some 0.
Proof.
  destruct (C9_margin_roi_zero_fallback three_deals [1000; 0; nan] [200; 50; 0])
    as (net & margin & roi & Hn & Hm & Hr & Hrows).
  - reflexivity.
  - reflexivity.
  - reflexivity.
  - intros net0 H. vm_compute in H. discriminate H.
  - exists net, margin, roi.
    split; [exact Hn|]. split; [exact Hm|]. split; [exact Hr|].
    destruct (Hrows 0%nat 1000 200 eq_refl eq_refl)
      as (n0 & m0 & r0 & Hn0 & Hm0 & Hr0 & Hnet0 & _ & Hmp0 & _ & Hrp0 & _).
    destruct (Hrows 1%nat 0 50 eq_refl eq_refl)
      as (n1 & m1 & r1 & Hn1 & Hm1 & Hr1 & Hnet1 & _ & _ & Hmz1 & Hrp1 & _).
    destruct (Hrows 2%nat nan 0 eq_refl eq_refl)
      as (n2 & m2 & r2 & Hn2 & Hm2 & Hr2 & _ & _ & _ & Hmz2 & _ & Hrz2 & _).
    rewrite Hn0, Hm0, Hr0, Hm1, Hr1, Hm2, Hr2.
    rewrite (Hmp0 eq_refl), (Hrp0 eq_refl), (Hnet0 eq_refl).
    rewrite (Hmz1 eq_refl), (Hrp1 eq_refl), (Hnet1 eq_refl).
    rewrite (Hmz2 eq_refl), (Hrz2 eq_refl).
    repeat split.
Defined.

End ComputedColumnFacts.

(** ** Site aggregation *)

(** *** The order of group keys *)

Section KeyOrder.

Import SiteAggregation.

Lemma string_compare_eq_iff (s t : string) : String.compare s t = Eq <-> s = t.
Proof. apply String_as_OT.cmp_eq. Qed.

Lemma string_compare_lt_trans (s t u : string) :
  String.compare s t = Lt -> String.compare t u = Lt -> String.compare s u = Lt.
Proof.
  intros H1 H2. apply String_as_OT.cmp_lt.
  apply String_as_OT.lt_trans with t; apply String_as_OT.cmp_lt; assumption.
Qed.

Lemma key_compare_eq_iff (a b : key) : key_compare a b = Eq <-> a = b.
Proof.
  destruct a as [a1 a2], b as [b1 b2]. unfold key_compare. simpl. split.
  - destruct (String.compare a1 b1) eqn:E1; try discriminate.
    intros E2. apply string_compare_eq_iff in E1, E2. congruence.
  - intros [= -> ->].
    rewrite (proj2 (string_compare_eq_iff b1 b1) eq_refl).
    apply string_compare_eq_iff. reflexivity.
Qed.

Lemma key_compare_antisym (a b : key) : key_compare b a = CompOpp (key_compare a b).
Proof.
  destruct a as [a1 a2], b as [b1 b2]. unfold key_compare. simpl.
  rewrite (String.compare_antisym b1 a1), (String.compare_antisym b2 a2).
  destruct (String.compare a1 b1); reflexivity.
Qed.

Lemma key_compare_gt_lt (a b : key) : key_compare a b = Gt -> key_lt b a.
Proof.
  intros H. unfold key_lt. rewrite key_compare_antisym, H. reflexivity.
Qed.

Lemma key_lt_irrefl (a : key) : ~ key_lt a a.
Proof.
  unfold key_lt. rewrite (proj2 (key_compare_eq_iff a a) eq_refl). discriminate.
Qed.

Lemma key_lt_trans (a b c : key) : key_lt a b -> key_lt b c -> key_lt a c.
Proof.
  destruct a as [a1 a2], b as [b1 b2], c as [c1 c2].
  unfold key_lt, key_compare. simpl.
  destruct (String.compare a1 b1) eqn:E1; try discriminate;
    destruct (String.compare b1 c1) eqn:E2; try discriminate; intros H1 H2.
  - apply string_compare_eq_iff in E1, E2. subst.
    rewrite (proj2 (string_compare_eq_iff c1 c1) eq_refl).
    exact (string_compare_lt_trans _ _ _ H1 H2).
  - apply string_compare_eq_iff in E1. subst. rewrite E2. reflexivity.
  - apply string_compare_eq_iff in E2. subst. rewrite E1. reflexivity.
  - rewrite (string_compare_lt_trans _ _ _ E1 E2). reflexivity.
Qed.

Lemma key_eqb_eq (a b : key) : key_eqb a b = true <-> a = b.
Proof.
  destruct a as [a1 a2], b as [b1 b2]. unfold key_eqb. simpl.
  rewrite andb_true_iff, !String.eqb_eq. split; [intros [-> ->] | intros [= -> ->]]; auto.
Qed.

Lemma key_eqb_refl (a : key) : key_eqb a a = true.
Proof. apply key_eqb_eq. reflexivity. Qed.

Lemma key_eqb_neq (a b : key) : key_eqb a b = false <-> a <> b.
Proof.
  rewrite <- key_eqb_eq. destruct (key_eqb a b); split; congruence.
Qed.

Lemma key_eqb_sym (a b : key) : key_eqb a b = key_eqb b a.
Proof.
  destruct (key_eqb a b) eqn:E.
  - apply key_eqb_eq in E. subst. symmetry. apply key_eqb_refl.
  - apply key_eqb_neq in E. symmetry. apply key_eqb_neq. congruence.
Qed.

Lemma key_lt_neq (a b : key) : key_lt a b -> a <> b.
Proof. intros H ->. exact (key_lt_irrefl b H). Qed.

End KeyOrder.

(** *** [groupby]: sorted keys, each group the rows of its key *)

Section Grouping.

Import SiteAggregation.

Context {R : Type} (kf : R -> key).

Lemma rows_with_app (k : key) (rows1 rows2 : list R) :
  rows_with kf k (rows1 ++ rows2) = (rows_with kf k rows1 ++ rows_with kf k rows2)%list.
Proof. apply List.filter_app. Qed.

Lemma group_insert_keys (k : key) (r : R) (groups : list (key * list R)) (k' : key) :
  In k' (map fst (group_insert k r groups)) <-> k' = k \/ In k' (map fst groups).
Proof.
  induction groups as [|[k1 rs1] groups IH]; simpl.
  - intuition.
  - destruct (key_compare k k1) eqn:E; simpl.
    + apply key_compare_eq_iff in E. subst k1. intuition.
    + intuition.
    + rewrite IH. intuition.
Qed.

Lemma group_insert_sorted (k : key) (r : R) (groups : list (key * list R)) :
  StronglySorted key_lt (map fst groups) ->
  StronglySorted key_lt (map fst (group_insert k r groups)).
Proof.
  induction groups as [|[k1 rs1] groups IH]; simpl; intros Hs.
  - repeat constructor.
  - inversion Hs as [|? ? Hs' Hall]; subst.
    destruct (key_compare k k1) eqn:E; simpl.
    + constructor; assumption.
    + constructor; [exact Hs|]. constructor; [exact E|].
      eapply List.Forall_impl; [|exact Hall]. intros k2 H2. simpl in H2.
      exact (key_lt_trans _ _ _ E H2).
    + constructor; [apply IH; exact Hs'|].
      apply List.Forall_forall. intros k2 H2. apply group_insert_keys in H2.
      destruct H2 as [-> | H2].
      * apply key_compare_gt_lt. exact E.
      * rewrite List.Forall_forall in Hall. apply Hall. exact H2.
Qed.

Lemma group_rows_absent (k : key) (groups : list (key * list R)) :
  ~ In k (map fst groups) -> group_rows k groups = [].
Proof.
  unfold group_rows. intros H.
  destruct (List.find _ groups) as [g|] eqn:E; [|reflexivity].
  apply List.find_some in E. destruct E as [Hin Hk]. apply key_eqb_eq in Hk.
  exfalso. apply H. rewrite Hk. apply in_map. exact Hin.
Qed.

Lemma group_rows_cons (k k1 : key) (rs1 : list R) (groups : list (key * list R)) :
  group_rows k ((k1, rs1) :: groups)
  = if key_eqb k k1 then rs1 else group_rows k groups.
Proof. unfold group_rows. simpl. destruct (key_eqb k k1); reflexivity. Qed.

Lemma group_insert_rows (k : key) (r : R) (groups : list (key * list R)) (k' : key) :
  StronglySorted key_lt (map fst groups) ->
  group_rows k' (group_insert k r groups)
  = if key_eqb k' k then (group_rows k groups ++ [r])%list else group_rows k' groups.
Proof.
  induction groups as [|[k1 rs1] groups IH]; simpl; intros Hs.
  - rewrite group_rows_cons. reflexivity.
  - inversion Hs as [|? ? Hs' Hall]; subst.
    destruct (key_compare k k1) eqn:E.
    + apply key_compare_eq_iff in E. subst k1.
      rewrite !group_rows_cons, key_eqb_refl.
      destruct (key_eqb k' k); reflexivity.
    + rewrite (group_rows_cons k' k).
      destruct (key_eqb k' k) eqn:Ek; [|reflexivity].
      rewrite group_rows_absent; [reflexivity|].
      simpl. intros [-> | Hin].
      * exact (key_lt_irrefl _ E).
      * rewrite List.Forall_forall in Hall.
        exact (key_lt_irrefl _ (key_lt_trans _ _ _ E (Hall _ Hin))).
    + apply key_compare_gt_lt in E.
      rewrite (group_rows_cons k' k1), (group_rows_cons k' k1), (group_rows_cons k k1).
      rewrite (IH Hs').
      destruct (key_eqb k k1) eqn:Ek.
      { apply key_eqb_eq in Ek. subst k1. destruct (key_lt_irrefl _ E). }
      destruct (key_eqb k' k1) eqn:Ek1; [|reflexivity].
      apply key_eqb_eq in Ek1. subst k'.
      rewrite key_eqb_sym, Ek. reflexivity.
Qed.

Lemma group_insert_nonempty (k : key) (r : R) (groups : list (key * list R)) :
  Forall (fun g => g.2 <> []) groups ->
  Forall (fun g => g.2 <> []) (group_insert k r groups).
Proof.
  induction groups as [|[k1 rs1] groups IH]; simpl; intros H.
  - constructor; [discriminate | constructor].
  - inversion H as [|? ? H1 H2]; subst.
    destruct (key_compare k k1).
    + constructor; [|exact H2]. simpl. destruct rs1; discriminate.
    + constructor; [discriminate | exact H].
    + constructor; [exact H1 | apply IH; exact H2].
Qed.

Lemma groups_of_step (rows : list R) (groups : list (key * list R)) (r : R) :
  groups_of kf rows groups ->
  groups_of kf (rows ++ [r]) (group_insert (kf r) r groups).
Proof.
  intros (Hs & Hrows & Hne). split; [|split].
  - apply group_insert_sorted. exact Hs.
  - intros k. rewrite (group_insert_rows _ _ _ _ Hs), rows_with_app, !Hrows.
    unfold rows_with at 3. simpl.
    destruct (key_eqb k (kf r)) eqn:E.
    + apply key_eqb_eq in E. subst k. reflexivity.
    + rewrite app_nil_r. reflexivity.
  - apply group_insert_nonempty. exact Hne.
Qed.

Lemma groupby_fold (rest rows : list R) (groups : list (key * list R)) :
  groups_of kf rows groups ->
  groups_of kf (rows ++ rest)
    (fold_left (fun groups row => group_insert (kf row) row groups) rest groups).
Proof.
  revert rows groups. induction rest as [|r rest IH]; intros rows groups H; simpl.
  - rewrite app_nil_r. exact H.
  - replace (rows ++ r :: rest)%list with ((rows ++ [r]) ++ rest)%list
      by (rewrite <- app_assoc; reflexivity).
    apply IH. apply groups_of_step. exact H.
Qed.

Lemma groupby_groups_of (rows : list R) : groups_of kf rows (groupby kf rows).
Proof.
  unfold groupby. apply (groupby_fold rows [] []).
  split; [constructor | split; [reflexivity | constructor]].
Qed.

Lemma sorted_keys_NoDup (keys : list key) :
  StronglySorted key_lt keys -> List.NoDup keys.
Proof.
  induction 1 as [|k keys Hs IH Hall]; constructor; [|exact IH].
  intros Hin. rewrite List.Forall_forall in Hall.
  exact (key_lt_irrefl _ (Hall _ Hin)).
Qed.

(** A group found in a key-sorted list is the one [group_rows] returns. *)
Lemma group_rows_member (groups : list (key * list R)) (k : key) (rs : list R) :
  StronglySorted key_lt (map fst groups) ->
  In (k, rs) groups -> group_rows k groups = rs.
Proof.
  induction groups as [|[k1 rs1] groups IH]; simpl; intros Hs Hin; [destruct Hin|].
  inversion Hs as [|? ? Hs' Hall]; subst.
  rewrite group_rows_cons. destruct Hin as [[= -> ->] | Hin].
  - rewrite key_eqb_refl. reflexivity.
  - destruct (key_eqb k k1) eqn:E; [|apply IH; assumption].
    apply key_eqb_eq in E. subst k1. rewrite List.Forall_forall in Hall.
    destruct (key_lt_irrefl k). apply Hall.
    change k with (fst (k, rs)). apply in_map. exact Hin.
Qed.

(** The groups of [groupby]: a key has a group exactly when some row has
    it, and the group holds the rows of the key. *)
Lemma groupby_member (rows : list R) (k : key) (rs : list R) :
  In (k, rs) (groupby kf rows) <-> rs = rows_with kf k rows /\ rs <> [].
Proof.
  destruct (groupby_groups_of rows) as (Hs & Hrows & Hne). split.
  - intros Hin. rewrite <- Hrows. split.
    + symmetry. apply group_rows_member; assumption.
    + rewrite List.Forall_forall in Hne. exact (Hne _ Hin).
  - intros [-> Hne']. rewrite <- Hrows in Hne' |- *.
    unfold group_rows in *.
    destruct (List.find _ (groupby kf rows)) as [[k1 rs1]|] eqn:E;
      [|contradiction].
    apply List.find_some in E. destruct E as [Hin Hk]. simpl in Hk.
    apply key_eqb_eq in Hk. subst k1. exact Hin.
Qed.

Lemma filter_keys_sorted (P : key * list R -> bool) (groups : list (key * list R)) :
  StronglySorted key_lt (map fst groups) ->
  StronglySorted key_lt (map fst (List.filter P groups)).
Proof.
  induction groups as [|g groups IH]; simpl; intros Hs; [constructor|].
  inversion Hs as [|? ? Hs' Hall]; subst.
  destruct (P g); simpl; [|apply IH; exact Hs'].
  constructor; [apply IH; exact Hs'|].
  apply List.Forall_forall. intros k Hk. rewrite List.Forall_forall in Hall.
  apply Hall. apply in_map_iff in Hk. destruct Hk as (g' & <- & Hg').
  apply filter_In in Hg'. apply in_map. tauto.
Qed.

End Grouping.

(** *** Parent ids *)

Section ParentIds.

Import SiteAggregation.

Lemma fold_max_spec (xs : list Z) (x : Z) :
  (fold_left Z.max xs x = x \/ In (fold_left Z.max xs x) xs)
  /\ x <= fold_left Z.max xs x
  /\ forall y, In y xs -> y <= fold_left Z.max xs x.
Proof.
  revert x. induction xs as [|a xs IH]; intros x; simpl.
  - split; [left; reflexivity|]. split; [lia | intros y []].
  - destruct (IH (Z.max x a)) as (H1 & H2 & H3). split; [|split].
    + destruct H1 as [H1 | H1]; [|right; right; exact H1].
      rewrite H1. destruct (Z.max_spec x a) as [[_ ->] | [_ ->]]; auto.
    + lia.
    + intros y [<- | Hy]; [lia | apply H3; exact Hy].
Qed.

Lemma series_max_is_max (dtype : id_dtype) (ids : list Z) (m : Z) :
  series_max dtype ids = np_int64 m -> dtype = int64 /\ is_max m ids.
Proof.
  destruct ids as [|x xs]; simpl; [discriminate|].
  destruct dtype; [|discriminate]. intros [= <-]. split; [reflexivity|].
  destruct (fold_max_spec xs x) as (H1 & H2 & H3). split.
  - destruct H1 as [-> | H1]; [left; reflexivity | right; exact H1].
  - intros y [<- | Hy]; [exact H2 | apply H3; exact Hy].
Qed.

Lemma is_max_unique (m m' : Z) (ids : list Z) :
  is_max m ids -> is_max m' ids -> m = m'.
Proof.
  intros [H1 H2] [H1' H2']. specialize (H2 _ H1'). specialize (H2' _ H1). lia.
Qed.

Lemma groupby_nil_rows {R : Type} (kf : R -> key) : groupby kf [] = [].
Proof. reflexivity. Qed.

Lemma series_max_int64 (ids : list Z) (m : Z) :
  is_max m ids -> series_max int64 ids = np_int64 m.
Proof.
  intros Hm. destruct ids as [|x xs]; [destruct Hm as [[] _]|].
  cbn [series_max]. f_equal. apply (is_max_unique _ _ (x :: xs)); [|exact Hm].
  apply (series_max_is_max int64). reflexivity.
Qed.

Lemma int64_wrap_id (z : Z) : - 2 ^ 63 <= z < 2 ^ 63 -> int64_wrap z = z.
Proof. unfold int64_wrap. intros H. rewrite Z.mod_small; lia. Qed.

(** The range is built from an [int64] maximum only, and starts one
    above it when the new ids stay in the range of [int64]. *)
Lemma parent_id_range_fits (m : Z) (n : nat) :
  n <> 0%nat -> - 2 ^ 63 <= m -> m + 1 + Z.of_nat n < 2 ^ 63 ->
  parent_id_range (np_int64 m) n = Ok (m + 1).
Proof.
  intros Hn Hlo Hhi. unfold parent_id_range.
  rewrite (int64_wrap_id (m + 1)) by lia.
  rewrite (int64_wrap_id (m + 1 + Z.of_nat n)) by lia.
  replace (Z.max 0 (m + 1 + Z.of_nat n - (m + 1))) with (Z.of_nat n) by lia.
  rewrite Z.eqb_refl. reflexivity.
Qed.

(** [_identify_domain_groups] either raises, and the run returns an
    empty frame, or returns the multi-site groups numbered from some
    first id. *)
Lemma identify_domain_groups_cases (dtype : id_dtype) (companies_analysis : list analysis) :
  (exists e, _identify_domain_groups dtype companies_analysis = Raise e)
  \/ exists first : Z,
       _identify_domain_groups dtype companies_analysis
       = Ok (assign_parent_ids first (multi_site companies_analysis)).
Proof.
  unfold _identify_domain_groups. fold (multi_site companies_analysis).
  destruct (multi_site companies_analysis) as [|g gs] eqn:EM.
  - right. exists 0. reflexivity.
  - destruct (parent_id_range _ _) as [first|e]; [right | left]; eauto.
Qed.

(** It raises nothing when no group has two rows, nor when the id
    column is [int64] and the new ids stay in its range; the first new
    id is then the largest id plus 1. *)
Lemma identify_domain_groups_returns (dtype : id_dtype)
  (companies_analysis : list analysis) :
  multi_site companies_analysis = []
  \/ (dtype = int64
      /\ exists m,
           is_max m (map (fun a => Comp_CompanyId (an_company a)) companies_analysis)
           /\ - 2 ^ 63 <= m
           /\ m + 1 + Z.of_nat (length (multi_site companies_analysis)) < 2 ^ 63) ->
  exists first : Z,
    _identify_domain_groups dtype companies_analysis
    = Ok (assign_parent_ids first (multi_site companies_analysis))
    /\ (multi_site companies_analysis <> [] ->
        exists m, is_max m (map (fun a => Comp_CompanyId (an_company a)) companies_analysis)
                  /\ first = m + 1).
Proof.
  unfold _identify_domain_groups. fold (multi_site companies_analysis).
  intros [Hnone | (-> & m & Hm & Hlo & Hhi)].
  - rewrite Hnone. exists 0. split; [reflexivity | intros H; contradiction].
  - destruct (multi_site companies_analysis) as [|g gs] eqn:EM.
    + exists 0. split; [reflexivity | intros H; contradiction].
    + rewrite (series_max_int64 _ m Hm).
      rewrite (parent_id_range_fits m (length (g :: gs))); [|discriminate|exact Hlo|exact Hhi].
      exists (m + 1). split; [reflexivity|]. intros _. exists m. split; [exact Hm | reflexivity].
Qed.

Lemma assign_parent_ids_keys (first : Z) (groups : list (key * list analysis)) :
  map group_key (assign_parent_ids first groups) = map fst groups.
Proof.
  revert first. induction groups as [|[[b d] rs] groups IH]; intros first; simpl.
  - reflexivity.
  - rewrite IH. reflexivity.
Qed.


Lemma assign_parent_ids_ge (first : Z) (groups : list (key * list analysis))
  (g : domain_group) :
  In g (assign_parent_ids first groups) -> first <= new_parent_id g.
Proof.
  revert first. induction groups as [|m groups IH]; intros first; simpl; [intros []|].
  intros [<- | H]; [simpl; lia|]. apply IH in H. lia.
Qed.

(** Within the assigned groups, the parent id determines the group. *)
Lemma assign_parent_ids_id_inj (first : Z) (groups : list (key * list analysis))
  (g g' : domain_group) :
  In g (assign_parent_ids first groups) -> In g' (assign_parent_ids first groups) ->
  new_parent_id g = new_parent_id g' -> g = g'.
Proof.
  revert first. induction groups as [|m groups IH]; intros first; simpl; [intros []|].
  intros [<- | H] [<- | H'] E.
  - reflexivity.
  - apply assign_parent_ids_ge in H'. simpl in E. lia.
  - apply assign_parent_ids_ge in H. simpl in E. lia.
  - exact (IH _ H H' E).
Qed.

(** With distinct keys, the key determines the group as well. *)
Lemma assign_parent_ids_key_inj (first : Z) (groups : list (key * list analysis))
  (g g' : domain_group) :
  List.NoDup (map fst groups) ->
  In g (assign_parent_ids first groups) -> In g' (assign_parent_ids first groups) ->
  group_key g = group_key g' -> g = g'.
Proof.
  revert first. induction groups as [|m groups IH]; intros first Hnd; simpl; [intros []|].
  inversion Hnd as [|? ? Hnotin Hnd']; subst.
  assert (Hkey : forall h, In h (assign_parent_ids (first + 1) groups) ->
                           group_key h <> fst m).
  { intros h Hh E. apply Hnotin. rewrite <- E, <- (assign_parent_ids_keys (first + 1)).
    apply in_map. exact Hh. }
  intros [<- | H] [<- | H'] E.
  - reflexivity.
  - destruct (Hkey _ H'). rewrite <- E. destruct m as [[b d] rs]. reflexivity.
  - destruct (Hkey _ H). rewrite E. destruct m as [[b d] rs]. reflexivity.
  - exact (IH _ Hnd' H H' E).
Qed.

Lemma multi_site_sorted (companies_analysis : list analysis) :
  StronglySorted key_lt (map fst (multi_site companies_analysis)).
Proof.
  apply filter_keys_sorted. apply (groupby_groups_of key_of).
Qed.

Lemma analysis_rows_count (k : key) (companies_df : list company) :
  length (rows_with key_of k (_analyze_companies companies_df))
  = member_count k companies_df.
Proof.
  unfold rows_with, member_count, _analyze_companies.
  induction companies_df as [|c l IH]; [reflexivity|].
  cbn [map List.filter].
  match goal with
  | |- context [key_eqb k (key_of ?a)] =>
      change (key_eqb k (key_of a)) with (key_eqb k (company_key c))
  end.
  destruct (key_eqb k (company_key c)); cbn [length]; rewrite IH; reflexivity.
Qed.

(** A key is kept exactly when two companies or more have it. *)
Lemma multi_site_keys (companies_df : list company) (k : key) :
  In k (map fst (multi_site (_analyze_companies companies_df)))
  <-> (2 <= member_count k companies_df)%nat.
Proof.
  rewrite <- analysis_rows_count. unfold multi_site. split.
  - intros H. apply in_map_iff in H. destruct H as ([k' rs] & <- & H).
    apply filter_In in H. destruct H as [H Hlen]. simpl in *.
    apply groupby_member in H. destruct H as [-> _].
    apply Z.ltb_lt in Hlen. lia.
  - intros H.
    change k with (fst (k, rows_with key_of k (_analyze_companies companies_df))).
    apply in_map. apply filter_In. split.
    + apply groupby_member. split; [reflexivity|].
      intros E. rewrite E in H. simpl in H. lia.
    + simpl. apply Z.ltb_lt. lia.
Qed.

End ParentIds.

(** *** Site and parent records *)

Section SiteRecords.

Import SiteAggregation.

Lemma find_group_some (groups : list domain_group) (a : analysis) (g : domain_group) :
  find_group groups a = Some g -> In g groups /\ group_key g = key_of a.
Proof.
  unfold find_group. intros H. apply List.find_some in H.
  destruct H as [Hin Hk]. apply key_eqb_eq in Hk. split; assumption.
Qed.

Lemma find_group_none (groups : list domain_group) (a : analysis) (g : domain_group) :
  find_group groups a = None -> In g groups -> group_key g <> key_of a.
Proof.
  unfold find_group. intros H Hin E.
  pose proof (List.find_none _ _ H g Hin) as Hk. simpl in Hk.
  apply key_eqb_neq in Hk. apply Hk. exact E.
Qed.


Lemma cumcount_from_length (seen keys : list key) :
  length (cumcount_from seen keys) = length keys.
Proof.
  revert seen. induction keys as [|k keys IH]; intros seen; simpl;
    [reflexivity | rewrite IH; reflexivity].
Qed.


Lemma map_zip_with {A B C D : Type} (g : C -> D) (f : A -> B -> C)
  (l : list A) (k : list B) :
  map g (zip_with f l k) = zip_with (fun x y => g (f x y)) l k.
Proof.
  revert k. induction l as [|x l IH]; intros [|y k]; simpl; try reflexivity.
  rewrite IH. reflexivity.
Qed.

(** Filtering and projecting the zipped records through tests and
    projections that read the left component only. *)
Lemma map_filter_zip_with {A B C D : Type} (f : A -> B -> C) (P : C -> bool)
  (Q : A -> bool) (g : C -> D) (h : A -> D) (l : list A) (k : list B) :
  length k = length l ->
  (forall x y, P (f x y) = Q x) ->
  (forall x y, g (f x y) = h x) ->
  map g (List.filter P (zip_with f l k)) = map h (List.filter Q l).
Proof.
  intros Hlen HP Hg. revert k Hlen.
  induction l as [|x l IH]; intros [|y k] Hlen; simpl in *; try discriminate;
    [reflexivity|].
  rewrite HP. destruct (Q x); simpl; rewrite ?Hg, IH by congruence; reflexivity.
Qed.

Lemma group_insert_length {R : Type} (k : key) (row : R) (groups : list (key * list R)) :
  (length (group_insert k row groups) <= S (length groups))%nat.
Proof.
  induction groups as [|[k' rows] groups IH]; cbn [group_insert length]; [lia|].
  destruct (key_compare k k'); cbn [length]; lia.
Qed.

Lemma groupby_length {R : Type} (kf : R -> key) (rows : list R) :
  (length (groupby kf rows) <= length rows)%nat.
Proof.
  unfold groupby.
  assert (H : forall acc : list (key * list R),
             (length (fold_left (fun groups row => group_insert (kf row) row groups)
                        rows acc)
              <= length acc + length rows)%nat).
  { induction rows as [|r rows IH]; intros acc; cbn [fold_left length]; [lia|].
    specialize (IH (group_insert (kf r) r acc)).
    pose proof (group_insert_length (kf r) r acc). lia. }
  apply (H []).
Qed.

(** What [parent_ids_allocatable] gives [_identify_domain_groups]. *)
Lemma allocatable_groups (dtype : id_dtype) (companies_df : list company) :
  parent_ids_allocatable dtype companies_df ->
  multi_site (_analyze_companies companies_df) = []
  \/ (dtype = int64
      /\ exists m,
           is_max m (map (fun a => Comp_CompanyId (an_company a))
                       (_analyze_companies companies_df))
           /\ - 2 ^ 63 <= m
           /\ m + 1 + Z.of_nat (length (multi_site (_analyze_companies companies_df)))
              < 2 ^ 63).
Proof.
  intros [Hnone | (Hd & m & Hm & Hlo & Hhi)].
  - left. destruct (multi_site (_analyze_companies companies_df)) as [|g gs] eqn:E;
      [reflexivity|].
    assert (Hin : In g.1 (map fst (multi_site (_analyze_companies companies_df))))
      by (rewrite E; left; reflexivity).
    apply multi_site_keys in Hin. specialize (Hnone g.1). lia.
  - right. split; [exact Hd|]. exists m. split; [|split; [exact Hlo|]].
    + unfold _analyze_companies. rewrite List.map_map. exact Hm.
    + assert (Hlen : (length (multi_site (_analyze_companies companies_df))
                      <= length companies_df)%nat).
      { unfold multi_site.
        pose proof (List.filter_length_le
                      (fun g : key * list analysis => (1 <? Z.of_nat (length g.2))%Z)
                      (groupby key_of (_analyze_companies companies_df))).
        pose proof (groupby_length key_of (_analyze_companies companies_df)) as H2.
        unfold _analyze_companies in H2 at 2. rewrite List.length_map in H2. lia. }
      lia.
Qed.

(** A run whose parent ids can be allocated returns the site records
    followed by the parent records, numbered from the largest id plus
    1. *)
Lemma process_site_aggregation_unfold (now : string) (dtype : id_dtype)
  (companies_df : list company) (contacts_df : list contact) :
  parent_ids_allocatable dtype companies_df ->
  exists first : Z,
    process_site_aggregation now dtype companies_df contacts_df
    = (_create_site_records now (run_companies_with_contacts first companies_df contacts_df)
       ++ _create_parent_records now (run_groups first companies_df)
            (run_companies_with_contacts first companies_df contacts_df))%list
    /\ (run_groups first companies_df <> [] ->
        exists m, is_max m (map Comp_CompanyId companies_df) /\ first = m + 1).
Proof.
  intros Ha. unfold process_site_aggregation.
  destruct (identify_domain_groups_returns dtype (_analyze_companies companies_df)
              (allocatable_groups dtype companies_df Ha))
    as (first & Hid & Hmax).
  exists first. rewrite Hid. split; [reflexivity|].
  intros Hne. destruct Hmax as (m & Hm & ->).
  - intros E. apply Hne. unfold run_groups. rewrite E. reflexivity.
  - exists m. split; [|reflexivity].
    unfold _analyze_companies in Hm. rewrite List.map_map in Hm. exact Hm.
Qed.

(** Any run returns an empty frame, or the site records followed by the
    parent records, numbered from some first id. *)
Lemma process_site_aggregation_cases (now : string) (dtype : id_dtype)
  (companies_df : list company) (contacts_df : list contact) :
  process_site_aggregation now dtype companies_df contacts_df = []
  \/ exists first : Z,
       process_site_aggregation now dtype companies_df contacts_df
       = (_create_site_records now
            (run_companies_with_contacts first companies_df contacts_df)
          ++ _create_parent_records now (run_groups first companies_df)
               (run_companies_with_contacts first companies_df contacts_df))%list.
Proof.
  unfold process_site_aggregation.
  destruct (identify_domain_groups_cases dtype (_analyze_companies companies_df))
    as [[e ->] | [first ->]]; [left; reflexivity | right].
  exists first. reflexivity.
Qed.


Lemma run_groups_sorted (first : Z) (companies_df : list company) :
  StronglySorted key_lt (map group_key (run_groups first companies_df)).
Proof.
  unfold run_groups. rewrite assign_parent_ids_keys. apply multi_site_sorted.
Qed.





(** The run on the example, with an int64 id column: two sites of parent
    13 = 12 + 1, ranked 1 and 2, two standalone companies, and the parent
    with the three contacts. *)
Example example_run :
  map (fun r => (company_id r, parent_company_id r, record_type r, site_order r,
                 contact_count r))
      (process_site_aggregation "01/01/2025 00:00" int64 example_companies
         example_contacts)
  = [ (10, Some 13, "Site", 1, 1);
      (11, Some 13, "Site", 2, 2);
      (12, Some 12, "Standalone", 1, 0);
      (7, Some 7, "Standalone", 1, 0);
      (13, None, "Parent_Aggregator", 0, 3) ].
Proof. vm_compute. reflexivity. Qed.

(** The ids of the example, whose largest is 12, leave room for the new
    ones. *)
Lemma example_allocatable : parent_ids_allocatable int64 example_companies.
Proof.
  right. split; [reflexivity|]. exists 12. split; [|split; [lia | simpl; lia]].
  split; [simpl; tauto|]. simpl. intros x H.
  repeat (destruct H as [<- | H]; [lia|]). destruct H.
Qed.



(** *** Contact counts *)

Lemma filter_none {A : Type} (P : A -> bool) (l : list A) :
  (forall x, In x l -> P x = false) -> List.filter P l = [].
Proof.
  induction l as [|x l IH]; simpl; intros H; [reflexivity|].
  rewrite (H x) by (left; reflexivity). apply IH. intros y Hy. apply H. right. exact Hy.
Qed.

(** Among the companies of a run, the rows merged with parent id of [g]
    are the rows with the key of [g]. *)
Lemma merged_parent_matches_key (first : Z) (companies_df : list company)
  (contacts_df : list contact) (g : domain_group) (a : analysis) :
  In g (run_groups first companies_df) ->
  match cw_new_parent_id
          (merge_company (run_groups first companies_df)
             (contact_count_lookup contacts_df) a) with
  | Some id => (id =? new_parent_id g)%Z
  | None => false
  end
  = (an_base_company_name a =? g_base_company_name g)%string
    && (an_domain_clean a =? g_domain_clean g)%string.
Proof.
  intros Hg. unfold merge_company. simpl.
  change ((an_base_company_name a =? g_base_company_name g)%string
          && (an_domain_clean a =? g_domain_clean g)%string)
    with (key_eqb (key_of a) (group_key g)).
  assert (Hnd : List.NoDup (map fst (multi_site (_analyze_companies companies_df)))).
  { apply sorted_keys_NoDup. apply multi_site_sorted. }
  destruct (find_group (run_groups first companies_df) a) as [g'|] eqn:E; simpl.
  - destruct (find_group_some _ _ _ E) as [Hg' Hk'].
    destruct (Z.eqb_spec (new_parent_id g') (new_parent_id g)) as [Hid | Hid].
    + rewrite (assign_parent_ids_id_inj _ _ _ _ Hg' Hg Hid) in Hk'.
      symmetry. apply key_eqb_eq. congruence.
    + symmetry. apply key_eqb_neq. intros Hk. apply Hid.
      rewrite (assign_parent_ids_key_inj _ _ g' g Hnd Hg' Hg); [reflexivity|].
      congruence.
  - symmetry. apply key_eqb_neq. intros Hk.
    exact (find_group_none _ _ _ E Hg (eq_sym Hk)).
Qed.

Lemma in_zip_with {A B C : Type} (f : A -> B -> C) (l : list A) (k : list B) (z : C) :
  In z (zip_with f l k) -> exists x y, z = f x y /\ In x l.
Proof.
  revert k. induction l as [|x l IH]; intros [|y k] H; simpl in *; try contradiction.
  destruct H as [<- | H].
  - exists x, y. split; [reflexivity | left; reflexivity].
  - destruct (IH _ H) as (x' & y' & -> & Hx'). exists x', y'. split; [reflexivity|].
    right. exact Hx'.
Qed.

(** C6: the contact count of a parent record is the sum of the contact
    counts of the Site records whose parent it is. *)
Theorem C6_parent_contact_count_is_sum :
  forall (now : string) (dtype : id_dtype) (companies_df : list company)
         (contacts_df : list contact) (p : aggregation_record),
    In p (process_site_aggregation now dtype companies_df contacts_df) ->
    record_type p = "Parent_Aggregator" ->
    contact_count p
    = sum_Z (map contact_count
               (List.filter (is_site_of p)
                  (process_site_aggregation now dtype companies_df contacts_df))).
Proof.
  intros now dtype companies contacts p Hin Htype.
  destruct (process_site_aggregation_cases now dtype companies contacts)
    as [Hrun | (first & Hrun)]; [rewrite Hrun in Hin; destruct Hin|].
  rewrite Hrun in Hin |- *.
  set (groups := run_groups first companies) in *.
  set (cws := run_companies_with_contacts first companies contacts) in *.
  assert (Hp : exists g, In g groups /\ p = parent_record now cws g).
  { apply in_app_or in Hin. destruct Hin as [Hin | Hin].
    - unfold _create_site_records in Hin.
      apply in_zip_with in Hin. destruct Hin as (cw & rank & -> & _).
      unfold site_record in Htype. simpl in Htype.
      destruct (cw_new_parent_id cw); discriminate.
    - unfold _create_parent_records in Hin. apply in_map_iff in Hin.
      destruct Hin as (g & <- & Hg). eauto. }
  destruct Hp as (g & Hg & ->).
  rewrite List.filter_app, List.map_app.
  rewrite (filter_none _ (_create_parent_records now groups cws)).
  2:{ intros r Hr. unfold _create_parent_records in Hr. apply in_map_iff in Hr.
      destruct Hr as (g' & <- & _). reflexivity. }
  rewrite app_nil_r. unfold _create_site_records.
  rewrite (map_filter_zip_with (site_record now) _
             (fun cw => match cw_new_parent_id cw with
                        | Some id => (id =? new_parent_id g)%Z
                        | None => false
                        end)
             contact_count cw_contact_count).
  - simpl. f_equal. f_equal. apply List.filter_ext_in.
    intros cw Hcw. unfold cws, run_companies_with_contacts in Hcw.
    apply in_map_iff in Hcw. destruct Hcw as (a & <- & _).
    rewrite (merged_parent_matches_key first companies contacts g a Hg).
    reflexivity.
  - unfold cumcount. rewrite cumcount_from_length, List.length_map. reflexivity.
  - intros cw rank. unfold is_site_of, site_record. simpl.
    destruct (cw_new_parent_id cw); reflexivity.
  - reflexivity.
Qed.

(** C6 on the example: 3 = 1 + 2. *)
Lemma C6_parent_contact_count_is_sum_witness :
  contact_count example_parent
  = sum_Z (map contact_count
             (List.filter (is_site_of example_parent)
                (process_site_aggregation "01/01/2025 00:00" int64 example_companies
                   example_contacts))).
Proof.
  apply (C6_parent_contact_count_is_sum "01/01/2025 00:00" int64 example_companies
           example_contacts example_parent).
  - vm_compute. do 4 right. left. reflexivity.
  - reflexivity.
Defined.

(** *** Two runs *)

(** The clock reaches the result through [processed_date] only: a run at
    one time, re-dated, is the run at the other time. *)
Lemma process_site_aggregation_redated (now d : string) (dtype : id_dtype)
  (companies_df : list company) (contacts_df : list contact) :
  map (with_processed_date d)
    (process_site_aggregation now dtype companies_df contacts_df)
  = process_site_aggregation d dtype companies_df contacts_df.
Proof.
  unfold process_site_aggregation.
  destruct (_identify_domain_groups dtype (_analyze_companies companies_df))
    as [groups|e];
    [|reflexivity].
  unfold _create_company_aggregation, _create_site_records, _create_parent_records.
  rewrite List.map_app, map_zip_with. f_equal.
  rewrite List.map_map. reflexivity.
Qed.

(** C5: two runs on the same companies and contacts, whatever the time of
    each, return the same records up to [processed_date]: the same ids, the
    same parent ids, synthesized ones included, and the same site_order, row
    by row. *)
Theorem C5_two_runs_agree :
  forall (now1 now2 : string) (dtype : id_dtype) (companies_df : list company)
         (contacts_df : list contact),
    map (with_processed_date "")
      (process_site_aggregation now1 dtype companies_df contacts_df)
    = map (with_processed_date "")
        (process_site_aggregation now2 dtype companies_df contacts_df)
    /\ map (fun r => (company_id r, parent_company_id r, site_order r))
         (process_site_aggregation now1 dtype companies_df contacts_df)
       = map (fun r => (company_id r, parent_company_id r, site_order r))
           (process_site_aggregation now2 dtype companies_df contacts_df).
Proof.
  intros now1 now2 dtype companies contacts.
  assert (H : map (with_processed_date "")
                (process_site_aggregation now1 dtype companies contacts)
              = map (with_processed_date "")
                  (process_site_aggregation now2 dtype companies contacts)).
  { rewrite !process_site_aggregation_redated. reflexivity. }
  split; [exact H|].
  apply (f_equal (map (fun r => (company_id r, parent_company_id r, site_order r)))) in H.
  rewrite !List.map_map in H. exact H.
Qed.

End SiteRecords.

(** ** The deal-stage state machine as a whole, and its export *)

Section DealStageExport.

Import BusinessTransformation HubSpotTransformation.
Local Open Scope float_scope.

(** The branch [_transform_deal_stage] takes on a row: the three terminal
    rules, the hold rule, the stage lookup, or the final default. *)
Lemma transform_deal_stage_cases (row : opportunity) :
  (is_active_row row = false
   /\ In (_transform_deal_stage row)
        [ ("Closed Dead", "Lost", "Moved to Closed Dead (abandoned + low certainty)");
          ("Closed Won", "Won", "Deal successfully closed");
          ("Closed Lost", "Lost", "Deal closed as lost") ])
  \/ (status_of row = "Sleap"
      /\ _transform_deal_stage row
         = if (type_of row =? "Preetude")%string
           then ("05-Négociation", "In Progress", "Deal on hold (Sleap)")
           else ("Design Win", "In Progress", "Deal on hold (Sleap)"))
  \/ ((status_of row = "In Progress" \/ status_of row = "")
      /\ _transform_deal_stage row = _map_active_stage (stage_text_of row) (type_of row))
  \/ (is_active_row row = true
      /\ status_of row <> "In Progress" /\ status_of row <> ""
      /\ _transform_deal_stage row
         = ("Identified", "In Progress", "Default mapping applied")).
Proof.
  unfold _transform_deal_stage, is_active_row.
  fold (status_of row) (type_of row) (stage_text_of row) (certainty row).
  destruct (PyStr.in_list (status_of row) ["Abandonne"; "Abandonnee"]
            && (certainty row <=? 10)) eqn:Ea.
  { left. rewrite andb_false_r. simpl. auto. }
  rewrite andb_true_r. unfold PyStr.in_list. simpl existsb.
  destruct (status_of row =? "Won")%string eqn:Ew.
  { left. simpl. auto. }
  destruct (status_of row =? "Lost")%string eqn:El.
  { left. simpl. auto. }
  destruct (status_of row =? "NoGo")%string eqn:En.
  { left. simpl. auto. }
  right. simpl orb.
  destruct (status_of row =? "Sleap")%string eqn:Es.
  { left. apply String.eqb_eq in Es. split; [exact Es | reflexivity]. }
  destruct (status_of row =? "In Progress")%string eqn:Ep.
  { right; left. apply String.eqb_eq in Ep. split; [left; exact Ep | reflexivity]. }
  destruct (status_of row =? "")%string eqn:Ee.
  { right; left. apply String.eqb_eq in Ee. split; [right; exact Ee | reflexivity]. }
  right; right. apply String.eqb_neq in Ep, Ee. simpl. auto.
Qed.

(** The stage lookup returns a stage of the pipeline of the deal type, In
    Progress. *)
Lemma map_active_stage_range (oppo_stage oppo_type : string) :
  In (_map_active_stage oppo_stage oppo_type).1.1
     (if (oppo_type =? "Preetude")%string then studies_active_stages
      else sales_active_stages)
  /\ (_map_active_stage oppo_stage oppo_type).1.2 = "In Progress".
Proof.
  unfold _map_active_stage.
  destruct (oppo_type =? "Preetude")%string.
  - destruct (first_match studies_active_mapping _) as [r|] eqn:E.
    + apply first_match_some_in in E. apply studies_table_in_progression. exact E.
    + simpl. auto.
  - destruct (first_match sales_active_mapping _) as [r|] eqn:E.
    + apply first_match_some_in in E. apply sales_table_in_progression. exact E.
    + simpl. auto.
Qed.

(** An active stage is not a closed stage. *)
Lemma active_stage_not_closed (stage oppo_type : string) :
  In stage (if (oppo_type =? "Preetude")%string then studies_active_stages
            else sales_active_stages) ->
  ~ In stage closed_stages
  /\ In stage (closed_stages ++ studies_active_stages ++ sales_active_stages).
Proof.
  intros H. destruct (oppo_type =? "Preetude")%string; simpl in H;
    repeat (destruct H as [<- | H];
            [split; [intros K; simpl in K; intuition discriminate | simpl; auto 20]|]);
    destruct H.
Qed.

(** Status and stage of an exported deal agree: the deal status is one of
    Won, Lost and In Progress; it is Won exactly for stage Closed Won, Lost
    exactly for Closed Lost and Closed Dead, and In Progress exactly for
    the stages that are not closed; the stage is always one of the
    thirteen stage labels of the two pipelines. *)
Theorem deal_status_matches_stage (row : opportunity) :
  (deal_status_of row = "Won" <-> deal_stage_of row = "Closed Won")
  /\ (deal_status_of row = "Lost"
      <-> deal_stage_of row = "Closed Lost" \/ deal_stage_of row = "Closed Dead")
  /\ (deal_status_of row = "In Progress" <-> ~ In (deal_stage_of row) closed_stages)
  /\ In (deal_status_of row) ["Won"; "Lost"; "In Progress"]
  /\ In (deal_stage_of row)
       (closed_stages ++ studies_active_stages ++ sales_active_stages).
Proof.
  unfold deal_status_of, deal_stage_of.
  destruct (transform_deal_stage_cases row)
    as [[_ E] | [[_ E] | [[_ E] | (_ & _ & _ & E)]]].
  - simpl in E. destruct E as [<- | [<- | [<- | []]]]; simpl;
      intuition (try discriminate; auto).
  - rewrite E. destruct (type_of row =? "Preetude")%string; simpl;
      intuition (try discriminate; auto 20).
  - rewrite E.
    destruct (map_active_stage_range (stage_text_of row) (type_of row)) as [Hin Hst].
    destruct (active_stage_not_closed _ _ Hin) as [Hnc Hall].
    rewrite Hst. repeat split; try discriminate; auto.
    + intros K. exfalso. apply Hnc. rewrite K. simpl. auto.
    + intros [K | K]; exfalso; apply Hnc; rewrite K; simpl; auto.
    + simpl. auto.
  - rewrite E. simpl. intuition (try discriminate; auto 20).
Qed.

(** No stage of the Studies table carries the id that
    [_get_hubspot_stage_id] falls back to. *)
Lemma studies_ids_exclude_default (name : string) :
  studies_stage_ids !! name <> Some "1116419644".
Proof.
  intros H. unfold studies_stage_ids in H.
  apply elem_of_list_to_map_2 in H.
  repeat (apply elem_of_cons in H; destruct H as [H | H]; [discriminate H|]).
  apply elem_of_nil in H. exact H.
Qed.

(** The stage id exported for a deal.  The stage [_transform_deal_stage]
    gives a row is a key of the stage table [_get_hubspot_stage_id]
    selects for the pipeline [_determine_pipeline] gives the same row, with
    one exception: a Studies deal whose status is none of the statuses
    the state machine names.  That deal is exported in the Studies
    pipeline ([Icalps_service]) with the fallback id, which is the id of
    the Sales stage Identified and of no Studies stage. *)
Theorem exported_stage_id (row : opportunity) (cell : text_cell) :
  Oppo_Type row = Some cell ->
  let pipeline := _determine_pipeline cell in
  let unnamed_studies :=
    type_of row = "Preetude" /\ is_active_row row = true
    /\ status_of row <> "In Progress" /\ status_of row <> "" in
  (stage_mapping_of pipeline !! deal_stage_of row = None <-> unnamed_studies)
  /\ (~ unnamed_studies ->
      stage_mapping_of pipeline !! deal_stage_of row
      = Some (_get_hubspot_stage_id pipeline (deal_stage_of row)))
  /\ (unnamed_studies ->
      _get_hubspot_pipeline_id pipeline = "Icalps_service"
      /\ _get_hubspot_stage_id pipeline (deal_stage_of row) = "1116419644"
      /\ sales_stage_ids !! "Identified" = Some "1116419644"
      /\ forall name, stage_mapping_of pipeline !! name <> Some "1116419644").
Proof.
  intros Hcell pipeline unnamed_studies.
  pose proof (determine_pipeline_studies_iff row cell Hcell) as Hp.
  fold pipeline in Hp.
  assert (Hpipe : pipeline = "Studies Pipeline" /\ type_of row = "Preetude"
                  \/ pipeline = "Sales Pipeline" /\ type_of row <> "Preetude").
  { destruct (String.eqb_spec (type_of row) "Preetude") as [Ht | Ht].
    - left. split; [apply Hp; exact Ht | exact Ht].
    - right. split; [|exact Ht].
      subst pipeline. destruct cell as [s| |]; simpl; try reflexivity.
      destruct (s =? "")%string eqn:E0; [reflexivity|].
      destruct (PyStr.strip s =? "Preetude")%string eqn:E; [|reflexivity].
      exfalso. apply Ht, Hp. simpl. rewrite E0, E. reflexivity. }
  assert (Hfound : forall stage,
    In stage (closed_stages ++
              (if (type_of row =? "Preetude")%string then studies_active_stages
               else sales_active_stages)) ->
    stage_mapping_of pipeline !! stage
    = Some (_get_hubspot_stage_id pipeline stage)).
  { intros stage Hin. unfold _get_hubspot_stage_id, dict_get.
    destruct Hpipe as [[-> Ht] | [-> Ht]].
    - rewrite Ht in Hin. simpl in Hin.
      repeat (destruct Hin as [<- | Hin]; [vm_compute; reflexivity|]). destruct Hin.
    - apply String.eqb_neq in Ht. rewrite Ht in Hin. simpl in Hin.
      repeat (destruct Hin as [<- | Hin]; [vm_compute; reflexivity|]). destruct Hin. }
  assert (Hcases :
    (~ unnamed_studies
     /\ stage_mapping_of pipeline !! deal_stage_of row
        = Some (_get_hubspot_stage_id pipeline (deal_stage_of row)))
    \/ (unnamed_studies /\ deal_stage_of row = "Identified")).
  { unfold deal_stage_of.
    destruct (transform_deal_stage_cases row)
      as [[Hna E] | [[Hs E] | [[Hs E] | (Ha & Hn1 & Hn2 & E)]]].
    - left. split.
      + intros (_ & Ha & _). rewrite Ha in Hna. discriminate Hna.
      + apply Hfound. simpl in E.
        destruct E as [<- | [<- | [<- | []]]]; simpl; auto.
    - left. split.
      + intros (_ & Ha & _). unfold is_active_row in Ha. fold (status_of row) in Ha.
        rewrite Hs in Ha. vm_compute in Ha. discriminate Ha.
      + rewrite E. apply Hfound.
        destruct (type_of row =? "Preetude")%string; simpl; auto 10.
    - left. split.
      + intros (_ & _ & Hn1 & Hn2). destruct Hs; contradiction.
      + rewrite E. apply Hfound. apply in_or_app. right.
        apply map_active_stage_range.
    - destruct (String.eqb_spec (type_of row) "Preetude") as [Ht | Ht].
      + right. split; [repeat split; assumption | rewrite E; reflexivity].
      + left. split; [intros (Ht' & _); contradiction|].
        rewrite E. apply Hfound. simpl. auto 10. }
  split; [|split].
  - destruct Hcases as [[Hn Hl] | [Hu Hst]].
    + rewrite Hl. split; [discriminate | intros K; contradiction].
    + split; [intros _; exact Hu | intros _].
      rewrite Hst. destruct Hu as (Ht & _).
      destruct Hpipe as [[-> _] | [_ Hnt]]; [vm_compute; reflexivity | contradiction].
  - intros Hn. destruct Hcases as [[_ Hl] | [Hu _]]; [exact Hl | contradiction].
  - intros Hu. destruct Hcases as [[Hn _] | [_ Hst]]; [contradiction|].
    destruct Hu as (Ht & _).
    destruct Hpipe as [[Hpn _] | [_ Hnt]]; [|contradiction].
    rewrite Hst, Hpn. repeat split; try (vm_compute; reflexivity).
    intros name. apply studies_ids_exclude_default.
Qed.

Lemma exported_stage_id_witness :
  stage_mapping_of (_determine_pipeline (Text "Preetude"))
    !! deal_stage_of abandoned_studies_row = None
  /\ _get_hubspot_stage_id (_determine_pipeline (Text "Preetude"))
       (deal_stage_of abandoned_studies_row) = "1116419644".
Proof.
  pose proof (exported_stage_id abandoned_studies_row (Text "Preetude") eq_refl)
    as (H1 & _ & H3).
  assert (Hu : type_of abandoned_studies_row = "Preetude"
               /\ is_active_row abandoned_studies_row = true
               /\ status_of abandoned_studies_row <> "In Progress"
               /\ status_of abandoned_studies_row <> "").
  { repeat split; try (vm_compute; reflexivity); vm_compute; discriminate. }
  split; [apply H1; exact Hu | apply (H3 Hu)].
Defined.

(** Category and pipeline of a deal are both read off [Oppo_Type], the
    category by an exact comparison and the pipeline after stripping: *)
Lemma category_and_pipeline (oppo_type : text_cell) :
  ((_determine_pipeline oppo_type =? "Studies Pipeline")%string
   = (deal_category_of oppo_type =? "Study")%string || padded_preetude oppo_type)
  /\ ((deal_category_of oppo_type =? "Study")%string && padded_preetude oppo_type = false)
  /\ ((deal_category_of oppo_type =? "Opportunity")%string
      = negb (deal_category_of oppo_type =? "Study")%string)
  /\ ((_determine_pipeline oppo_type =? "Sales Pipeline")%string
      = negb (_determine_pipeline oppo_type =? "Studies Pipeline")%string).
Proof.
  destruct oppo_type as [s| |]; [|repeat split..].
  unfold _determine_pipeline, deal_category_of, padded_preetude.
  destruct (String.eqb_spec s "") as [->|Hs]; [repeat split|].
  destruct (String.eqb_spec s "Preetude") as [->|Hp]; [repeat split|].
  destruct (PyStr.strip s =? "Preetude")%string; repeat split.
Qed.

(** The report counts categories, the export uses pipelines, and the two
    can disagree.  Every deal is a Study or an Opportunity and is in the
    Studies or the Sales pipeline; every Study is in the Studies
    pipeline; but the Studies pipeline also holds the deals whose type
    reads Preetude only once stripped, and the report counts those as
    Opportunities. *)
Theorem category_counts_and_pipelines (Oppo_Type : list text_cell) :
  let deal_category := deal_category_column Oppo_Type in
  let pipeline := pipeline_column Oppo_Type in
  (studies_count deal_category + opportunity_count deal_category
   = length Oppo_Type)%nat
  /\ (value_count "Studies Pipeline" pipeline + value_count "Sales Pipeline" pipeline
      = length Oppo_Type)%nat
  /\ (value_count "Studies Pipeline" pipeline
      = studies_count deal_category
        + length (List.filter padded_preetude Oppo_Type))%nat.
Proof.
  unfold studies_count, opportunity_count, value_count, deal_category_column,
    pipeline_column.
  induction Oppo_Type as [|c l (IH1 & IH2 & IH3)]; [repeat split|].
  cbn [map List.filter].
  destruct (category_and_pipeline c) as (H1 & H2 & H3 & H4).
  rewrite H4, H3, H1. clear H1 H3 H4.
  destruct (deal_category_of c =? "Study")%string, (padded_preetude c);
    try discriminate H2; cbn [orb negb length]; repeat split; lia.
Qed.

End DealStageExport.

(** ** The legacy mapper and the spreadsheet rules that read its output *)

Section LegacyMapperRules.

Import PipelineMapper BusinessRules.
Local Open Scope float_scope.

Lemma clear_final_not_missing (status : pyval) :
  clear_final status = true -> missing status = false.
Proof.
  rewrite clear_final_won_lost, missing_is_empty.
  destruct status as [s|]; [|discriminate].
  intros H. apply orb_true_iff in H.
  destruct H as [H | H]; apply String.eqb_eq in H; subst s; reflexivity.
Qed.

(** The rows [get_pipeline_statistics] counts as low confidence: the score
    is below 0.8 exactly when at least two of status, stage and type are
    missing and the status is not Won or Lost.  One missing field gives
    0.8 or 0.9, which is not below 0.8. *)
Theorem low_confidence_two_missing (status stage oppo_type : pyval) :
  low_confidence (_calculate_mapping_confidence status stage oppo_type)
  = negb (clear_final status)
    && ((missing status && missing stage)
        || (missing status && missing oppo_type)
        || (missing stage && missing oppo_type)).
Proof.
  rewrite confidence_by_tests.
  pose proof (clear_final_not_missing status) as H.
  destruct (clear_final status).
  - rewrite (H eq_refl).
    destruct (missing stage), (missing oppo_type); vm_compute; reflexivity.
  - destruct (missing status), (missing stage), (missing oppo_type);
      vm_compute; reflexivity.
Qed.

(** The stages of the Studies table are Studies stages, those of the Sales
    table Sales stages. *)
Lemma stage_tables_by_pipeline (p : PipelineType) (stage : pyval) (d : DealStage) :
  (if PipelineType_eqb p STUDIES then studies_stage_mapping
   else sales_stage_mapping) !! stage = Some d ->
  DealStage_pipeline d = Some p.
Proof.
  destruct p; simpl; intros H; apply elem_of_list_to_map_2 in H;
    repeat (apply elem_of_cons in H; destruct H as [H | H];
            [injection H as _ ->; reflexivity|]);
    apply elem_of_nil in H; destruct H.
Qed.

Lemma map_active_stage_of_pipeline (p : PipelineType) (stage : pyval) :
  exists d, map_active p stage = Ok (PipelineType_value p, DealStage_value d)
            /\ DealStage_pipeline d = Some p.
Proof.
  unfold map_active.
  destruct ((if PipelineType_eqb p STUDIES then studies_stage_mapping
             else sales_stage_mapping) !! stage) as [d|] eqn:E.
  - exists d. split; [reflexivity | eapply stage_tables_by_pipeline; exact E].
  - destruct p; [exists STUDIES_IDENTIFICATION | exists SALES_IDENTIFIED];
      split; reflexivity.
Qed.

(** The pair [map_deal_stage] returns is coherent.  The pipeline is the
    one of the deal type, Studies exactly for type Preetude; the stage is
    a member of [DealStage]; it is a final stage exactly for the statuses
    Won, Lost, NoGo and Abandonne, and otherwise a stage of the returned
    pipeline. *)
Theorem map_deal_stage_coherent (status stage oppo_type : pyval) :
  exists d,
    map_deal_stage status stage oppo_type
    = Ok (PipelineType_value (determine_pipeline oppo_type), DealStage_value d)
    /\ (determine_pipeline oppo_type = STUDIES <-> oppo_type = Some "Preetude"%string)
    /\ (DealStage_pipeline d = None
        <-> In status [Some "Won"; Some "Lost"; Some "NoGo"; Some "Abandonne"]%string)
    /\ (DealStage_pipeline d = None
        \/ DealStage_pipeline d = Some (determine_pipeline oppo_type)).
Proof.
  assert (Hp : determine_pipeline oppo_type = STUDIES
               <-> oppo_type = Some "Preetude"%string).
  { unfold determine_pipeline, dict_get.
    destruct (pipeline_rules !! oppo_type) as [p|] eqn:E.
    - apply elem_of_list_to_map_2 in E.
      repeat (apply elem_of_cons in E; destruct E as [E | E];
              [injection E as -> ->; split; intros K; (reflexivity || discriminate K)|]).
      apply elem_of_nil in E. destruct E.
    - split; [discriminate|]. intros ->. vm_compute in E. discriminate E. }
  unfold map_deal_stage, dict_contains, dict_getitem.
  destruct (final_stage_mapping !! status) as [[fs|]|] eqn:E.
  - exists fs. split; [reflexivity|]. split; [exact Hp|].
    apply elem_of_list_to_map_2 in E.
    repeat (apply elem_of_cons in E; destruct E as [E | E];
            [injection E as -> ->; simpl; intuition|]).
    + apply elem_of_cons in E. destruct E as [E | E]; [discriminate E|].
      apply elem_of_nil in E. destruct E.
  - destruct (map_active_stage_of_pipeline (determine_pipeline oppo_type) stage)
      as (d & Hd & Hk).
    exists d. split; [exact Hd|]. split; [exact Hp|]. split; [|right; exact Hk].
    rewrite Hk. split; [discriminate|].
    simpl. intros [<- | [<- | [<- | [<- | []]]]]; vm_compute in E; discriminate E.
  - destruct (map_active_stage_of_pipeline (determine_pipeline oppo_type) stage)
      as (d & Hd & Hk).
    exists d. split; [exact Hd|]. split; [exact Hp|]. split; [|right; exact Hk].
    rewrite Hk. split; [discriminate|].
    simpl. intros [<- | [<- | [<- | [<- | []]]]]; vm_compute in E; discriminate E.
Qed.

(** The stage [map_deal_stage] returns is the value of a [DealStage]. *)
Lemma map_deal_stage_in_enum (status stage oppo_type : pyval) :
  exists d,
    map_deal_stage status stage oppo_type
    = Ok (PipelineType_value (determine_pipeline oppo_type), DealStage_value d).
Proof.
  unfold map_deal_stage, dict_contains, dict_getitem.
  destruct (final_stage_mapping !! status) as [[fs|]|].
  - exists fs. reflexivity.
  - destruct (map_active_stage_of_pipeline (determine_pipeline oppo_type) stage)
      as (d & Hd & _). exists d. exact Hd.
  - destruct (map_active_stage_of_pipeline (determine_pipeline oppo_type) stage)
      as (d & Hd & _). exists d. exact Hd.
Qed.

(** The spreadsheet rules on a mapped row.  Every stage
    [apply_pipeline_mapping] writes is a key of [stage_multipliers], so the
    0.5 of [fillna] is never used on a mapped row, and the multiplier lies
    in [0, 1].  The two final stages are no keys of
    [stage_duration_limits]: a closed deal gets the limit 60 of [fillna]
    and is flagged overdue after 60 days like an open one. *)
Theorem mapped_row_stage_tables (row : opportunity) :
  exists p d confidence,
    apply_pipeline_mapping_row row
    = Ok (PipelineType_value p, DealStage_value d, confidence)
    /\ stage_multipliers !! DealStage_value d
       = Some (stage_multiplier (DealStage_value d))
    /\ (0 <=? stage_multiplier (DealStage_value d)) = true
    /\ (stage_multiplier (DealStage_value d) <=? 1) = true
    /\ (DealStage_pipeline d <> None ->
        stage_duration_limits !! DealStage_value d
        = Some (stage_duration_limit (DealStage_value d)))
    /\ (DealStage_pipeline d = None ->
        stage_duration_limits !! DealStage_value d = None
        /\ forall days, stage_overdue days (DealStage_value d) = (60 <? days)).
Proof.
  unfold apply_pipeline_mapping_row.
  destruct (map_deal_stage_in_enum
              (Some (collapse_null (get_str_stripped (Oppo_Status row))))
              (Some (collapse_null (get_str_stripped (Oppo_Stage row))))
              (Some (collapse_null (get_str_stripped (Oppo_Type row)))))
    as (d & ->).
  eexists _, d, _. split; [reflexivity|].
  destruct d; (split; [vm_compute; reflexivity|]);
    (split; [vm_compute; reflexivity|]); (split; [vm_compute; reflexivity|]);
    simpl DealStage_pipeline; (split; [intros K | intros K]);
    try congruence; try discriminate K; try (vm_compute; reflexivity).
  all: split; [vm_compute; reflexivity | intros days; reflexivity].
Qed.

End LegacyMapperRules.

(** ** Social links: the target property and the resolution status *)

Section SocialLinkFacts.

Import Associations.

Lemma string_app_assoc (a b c : string) : ((a ++ b) ++ c = a ++ (b ++ c))%string.
Proof.
  induction a as [|x a IH]; [reflexivity|].
  change (String x ((a ++ b) ++ c) = String x (a ++ (b ++ c)))%string.
  rewrite IH. reflexivity.
Qed.

Lemma prefix_iff (needle hay : string) :
  String.prefix needle hay = true <-> exists post, hay = (needle ++ post)%string.
Proof.
  revert hay. induction needle as [|a needle IH]; intros hay.
  - destruct hay; simpl; split; eauto.
  - destruct hay as [|b hay]; simpl.
    + split; [discriminate | intros [post H]; discriminate H].
    + destruct (ascii_dec a b) as [->|Hne].
      * rewrite IH. split; intros [post H]; exists post.
        -- rewrite H. reflexivity.
        -- change (String b hay = String b (needle ++ post))%string in H.
           injection H as H. exact H.
      * split; [discriminate | intros [post H]].
        change (String b hay = String a (needle ++ post))%string in H.
        injection H as H1 _. congruence.
Qed.

(** [needle in hay] holds exactly when [hay] is some text, [needle], and
    some text. *)
Lemma contains_iff (needle hay : string) :
  PyStr.contains needle hay = true
  <-> exists pre post, hay = (pre ++ needle ++ post)%string.
Proof.
  induction hay as [|c hay IH].
  - cbn [PyStr.contains]. rewrite orb_false_r, prefix_iff. split.
    + intros [post H]. exists ""%string, post. exact H.
    + intros (pre & post & H). destruct pre; [|discriminate H].
      exists post. exact H.
  - cbn [PyStr.contains]. rewrite orb_true_iff, prefix_iff, IH. split.
    + intros [[post H] | (pre & post & H)].
      * exists ""%string, post. exact H.
      * exists (String c pre), post. rewrite H. reflexivity.
    + intros (pre & post & H). destruct pre as [|x pre].
      * left. exists post. exact H.
      * right. change (String c hay = String x (pre ++ needle ++ post))%string in H.
        injection H as _ H. eauto.
Qed.

Lemma contains_trans (a b hay : string) :
  PyStr.contains a b = true -> PyStr.contains b hay = true ->
  PyStr.contains a hay = true.
Proof.
  rewrite !contains_iff. intros (p1 & q1 & ->) (p2 & q2 & ->).
  exists (p2 ++ p1)%string, (q1 ++ q2)%string.
  rewrite !string_app_assoc. reflexivity.
Qed.

(** A link that is not a LinkedIn link is filed under [website]: the
    Twitter and Facebook tests are reached only by a text without [.com],
    and each of them asks for a text that contains [.com]. *)
Lemma other_links_are_websites (link : string) (table_id : option Z) :
  (if PyStr.contains "company/" link
      || existsb (fun domain => PyStr.contains domain link)
           [".com"; ".org"; ".net"; ".fr"]
   then Some "website"
   else if PyStr.contains "twitter.com" link || PyStr.contains "x.com" link
   then if cell_is table_id 13 then Some "twitterhandle" else Some "twitterhandle"
   else if PyStr.contains "facebook.com" link
   then if cell_is table_id 5 then Some "facebook_company_page"
        else Some "hs_facebookid"
   else Some "website")
  = Some "website".
Proof.
  destruct (PyStr.contains "company/" link); [reflexivity|].
  cbn [existsb orb].
  destruct (PyStr.contains ".com" link) eqn:Ecom; [reflexivity|].
  assert (Hno : forall site, PyStr.contains ".com" site = true ->
                             PyStr.contains site link = false).
  { intros site Hs. destruct (PyStr.contains site link) eqn:E; [|reflexivity].
    rewrite (contains_trans _ _ _ Hs E) in Ecom. discriminate Ecom. }
  rewrite (Hno "twitter.com"), (Hno "x.com"), (Hno "facebook.com")
    by (vm_compute; reflexivity).
  cbn [orb].
  destruct (PyStr.contains ".org" link || (PyStr.contains ".net" link
            || (PyStr.contains ".fr" link || false))); reflexivity.
Qed.

(** The property a social link is filed under.  A link whose text
    contains [twitter.com], [x.com] or [facebook.com] contains [.com] and
    is caught by the website test before the Twitter and Facebook tests
    are reached: the function returns only [linkedin_bio],
    [linkedin_company_page], [website] or nothing, and never
    [twitterhandle], [facebook_company_page] or [hs_facebookid].  It
    returns nothing exactly for a LinkedIn link whose table id is neither
    13 nor 5. *)
Theorem social_property_targets (row : social_link) :
  let link := PyStr.lower (py_str (sone_networklink row)) in
  let linkedin := PyStr.contains "in/" link || PyStr.contains "linkedin.com" link in
  In (_determine_hubspot_property row)
     [Some "linkedin_bio"; Some "linkedin_company_page"; Some "website"; None]
  /\ (_determine_hubspot_property row = None
      <-> linkedin = true
          /\ cell_is (Related_TableID row) 13 = false
          /\ cell_is (Related_TableID row) 5 = false)
  /\ (linkedin = false -> _determine_hubspot_property row = Some "website").
Proof.
  intros link linkedin. unfold _determine_hubspot_property.
  fold link. fold linkedin.
  destruct linkedin.
  - destruct (cell_is (Related_TableID row) 13), (cell_is (Related_TableID row) 5);
      simpl; intuition (try discriminate; auto).
  - rewrite other_links_are_websites. simpl. intuition (try discriminate; auto).
Qed.

Lemma cell_is_true_iff (x : option Z) (n : Z) : cell_is x n = true <-> x = Some n.
Proof.
  destruct x as [v|]; simpl; [|split; discriminate].
  rewrite Z.eqb_eq. split; [intros ->; reflexivity | intros [= ->]; reflexivity].
Qed.

Lemma cell_in_resolves {A V : Type} (key : A -> Z) (val : A -> V) (rows : list A)
  (x : option Z) :
  cell_in (series_to_dict (map (fun r => (key r, val r)) rows)) x = true
  <-> resolves (map key rows) x.
Proof.
  unfold cell_in, resolves. destruct x as [id|].
  - rewrite dict_contains_series_to_dict, map_fst_pair. split.
    + intros H. exists id. auto.
    + intros (id' & [= <-] & H). exact H.
  - split; [discriminate | intros (id & H & _); discriminate H].
Qed.

(** The two resolution columns of a social row agree with each other and
    with the tables.  The status is UNKNOWN_ENTITY_TYPE exactly when the
    entity type is Unknown (table id neither 5 nor 13); it is SUCCESS
    exactly when the record id is the id of a company on a company row
    (table id 5) or of a contact on a person row (table id 13); it is
    NO_COMPANY_FOUND only on company rows and NO_CONTACT_FOUND only on
    person rows.  A record id is never looked up in the table of the
    other kind. *)
Theorem social_status_by_entity (social_df : list social_link)
  (companies_df : list company) (contacts_df : list contact) :
  Forall
    (fun r =>
       let company_row := related_table_id r = Some 5 in
       let person_row := related_table_id r = Some 13 in
       let in_companies :=
         resolves (map Comp_CompanyId companies_df) (related_record_id r) in
       let in_contacts :=
         resolves (map Pers_PersonId contacts_df) (related_record_id r) in
       (entity_type r = "Company" <-> company_row)
       /\ (entity_type r = "Person" <-> person_row)
       /\ (entity_type r = "Unknown"
           <-> association_status_col r = "UNKNOWN_ENTITY_TYPE")
       /\ (association_status_col r = "SUCCESS"
           <-> company_row /\ in_companies \/ person_row /\ in_contacts)
       /\ (association_status_col r = "NO_COMPANY_FOUND"
           <-> company_row /\ ~ in_companies)
       /\ (association_status_col r = "NO_CONTACT_FOUND"
           <-> person_row /\ ~ in_contacts))
    (process_social_networks_with_associations social_df companies_df contacts_df).
Proof.
  unfold process_social_networks_with_associations, contact_lookup_of,
    frame_to_dict_index, company_lookup_of.
  destruct (bool_decide _); [|constructor].
  apply List.Forall_forall. intros r Hr. apply in_map_iff in Hr.
  destruct Hr as (row & <- & _). cbn [related_table_id related_record_id
    entity_type association_status_col].
  unfold entity_type_of, _check_association_status.
  pose proof (cell_is_true_iff (Related_TableID row) 5) as H5.
  pose proof (cell_is_true_iff (Related_TableID row) 13) as H13.
  pose proof (cell_in_resolves Comp_CompanyId Comp_Name companies_df
                (Related_RecordID row)) as Hc.
  pose proof (cell_in_resolves Pers_PersonId (fun p => p) contacts_df
                (Related_RecordID row)) as Hp.
  cbv beta in Hp.
  set (in_company_lookup := cell_in _ (Related_RecordID row)) in Hc |- *.
  set (in_contact_lookup := cell_in _ (Related_RecordID row)) in Hp |- *.
  destruct (cell_is (Related_TableID row) 5) eqn:E5.
  - assert (K5 : Related_TableID row = Some 5) by (apply H5; reflexivity).
    assert (K13 : Related_TableID row <> Some 13) by (rewrite K5; discriminate).
    destruct in_company_lookup eqn:Ec.
    + assert (Kc : resolves (map Comp_CompanyId companies_df) (Related_RecordID row))
        by (apply Hc; reflexivity).
      repeat split; try discriminate; try tauto.
    + assert (Kc : ~ resolves (map Comp_CompanyId companies_df) (Related_RecordID row))
        by (intros K; apply Hc in K; discriminate K).
      repeat split; try discriminate; try tauto.
  - assert (K5 : Related_TableID row <> Some 5)
      by (intros K; apply H5 in K; discriminate K).
    destruct (cell_is (Related_TableID row) 13) eqn:E13.
    + assert (K13 : Related_TableID row = Some 13) by (apply H13; reflexivity).
      destruct in_contact_lookup eqn:Ep.
      * assert (Kp : resolves (map Pers_PersonId contacts_df) (Related_RecordID row))
          by (apply Hp; reflexivity).
        repeat split; try discriminate; try tauto.
      * assert (Kp : ~ resolves (map Pers_PersonId contacts_df) (Related_RecordID row))
          by (intros K; apply Hp in K; discriminate K).
        repeat split; try discriminate; try tauto.
    + assert (K13 : Related_TableID row <> Some 13)
        by (intros K; apply H13 in K; discriminate K).
      repeat split; try discriminate; try tauto.
Qed.

End SocialLinkFacts.

(** ** Site order and the aggregation report *)

Section SiteReport.

Import SiteAggregation.

(** The ranks [cumcount] gives the rows of one key count up from the
    number of rows of that key already seen. *)
Lemma site_orders_from (now : string) (k : key) (cws : list company_with_contacts)
  (seen : list key) :
  map site_order
    (List.filter (fun r => (source_type r =? "Original")%string && key_eqb k (record_key r))
       (zip_with (site_record now) cws
          (cumcount_from seen (map (fun cw => key_of (cw_analysis cw)) cws))))
  = map Z.of_nat
      (seq (S (length (List.filter (key_eqb k) seen)))
         (length (List.filter (fun cw => key_eqb k (key_of (cw_analysis cw))) cws))).
Proof.
  revert seen. induction cws as [|cw cws IH]; intros seen; [reflexivity|].
  cbn [map cumcount_from zip_with List.filter].
  change (record_key (site_record now cw _)) with (key_of (cw_analysis cw)).
  change (source_type (site_record now cw _)) with "Original".
  cbn [String.eqb Ascii.eqb Bool.eqb andb].
  destruct (key_eqb k (key_of (cw_analysis cw))) eqn:E.
  - cbn [map length seq]. rewrite IH. apply key_eqb_eq in E. rewrite <- E.
    cbn [List.filter]. rewrite key_eqb_refl.
    cbn [length site_order site_record]. f_equal. lia.
  - rewrite IH. cbn [List.filter]. rewrite E. reflexivity.
Qed.

Lemma cumcount_from_nonneg (seen keys : list key) (x : Z) :
  In x (cumcount_from seen keys) -> 0 <= x.
Proof.
  revert seen. induction keys as [|k keys IH]; intros seen []; [subst x; lia|].
  eapply IH. eassumption.
Qed.

Lemma in_zip_with_right {A B C : Type} (f : A -> B -> C) (l : list A) (k : list B)
  (z : C) :
  In z (zip_with f l k) -> exists x y, z = f x y /\ In y k.
Proof.
  revert k. induction l as [|x l IH]; intros [|y k] H; simpl in *; try contradiction.
  destruct H as [<- | H].
  - exists x, y. split; [reflexivity | left; reflexivity].
  - destruct (IH _ H) as (x' & y' & -> & Hy'). exists x', y'. split; [reflexivity|].
    right. exact Hy'.
Qed.

(** Site order.  In the output of a run whose parent ids can be
    allocated, the records of the companies (source type Original) that
    share a clustering key carry the site orders 1, 2, ..., n in row
    order, n being the number of companies with that key; a standalone
    company has site order 1, and a parent record, which is Generated, is
    not numbered (site order 0). *)
Theorem site_order_counts_within_key (now : string) (dtype : id_dtype)
  (companies_df : list company) (contacts_df : list contact) (k : key) :
  parent_ids_allocatable dtype companies_df ->
  map site_order
    (List.filter (fun r => (source_type r =? "Original")%string && key_eqb k (record_key r))
       (process_site_aggregation now dtype companies_df contacts_df))
  = map Z.of_nat (seq 1 (member_count k companies_df))
  /\ Forall (fun r => source_type r = "Generated" <-> site_order r = 0)
       (process_site_aggregation now dtype companies_df contacts_df).
Proof.
  intros Halloc.
  destruct (process_site_aggregation_unfold now dtype companies_df contacts_df Halloc)
    as (first & -> & _).
  split.
  - rewrite List.filter_app, List.map_app.
    rewrite (filter_none _ (_create_parent_records _ _ _)).
    + rewrite app_nil_r. unfold _create_site_records, cumcount.
      rewrite site_orders_from. cbn [List.filter length].
      unfold run_companies_with_contacts.
      rewrite <- analysis_rows_count. unfold rows_with.
      f_equal. f_equal.
      generalize (_analyze_companies companies_df) as A.
      induction A as [|a A IH]; [reflexivity|].
      cbn [map List.filter].
      change (key_of (cw_analysis (merge_company _ _ a))) with (key_of a).
      destruct (key_eqb k (key_of a)); cbn [length]; rewrite IH; reflexivity.
    + intros r Hr. unfold _create_parent_records in Hr.
      apply in_map_iff in Hr. destruct Hr as (g & <- & _). reflexivity.
  - apply Forall_app. split.
    + unfold _create_site_records. apply List.Forall_forall. intros r Hr.
      apply in_zip_with_right in Hr. destruct Hr as (cw & rank & -> & Hrank).
      cbn [source_type site_order site_record].
      split; [discriminate|]. intros H. exfalso.
      apply cumcount_from_nonneg in Hrank. lia.
    + unfold _create_parent_records. apply List.Forall_forall. intros r Hr.
      apply in_map_iff in Hr. destruct Hr as (g & <- & _).
      cbn [source_type site_order parent_record]. split; reflexivity.
Qed.

(** On the example: the two Acme sites are numbered 1 and 2. *)
Lemma site_order_counts_within_key_witness :
  map site_order
    (List.filter
       (fun r => (source_type r =? "Original")%string
                 && key_eqb ("Acme", "a.com") (record_key r))
       (process_site_aggregation "01/01/2025 00:00" int64 example_companies
          example_contacts))
  = [1; 2].
Proof.
  destruct (site_order_counts_within_key "01/01/2025 00:00" int64 example_companies
              example_contacts ("Acme", "a.com") example_allocatable) as [H _].
  rewrite H. reflexivity.
Defined.

Lemma sum_Z_acc (l : list Z) (a : Z) : fold_left Z.add l a = a + sum_Z l.
Proof.
  unfold sum_Z. revert a. induction l as [|x l IH]; intros a; cbn [fold_left]; [lia|].
  rewrite (IH (a + x)), (IH (0 + x)). lia.
Qed.

Lemma sum_Z_cons (x : Z) (l : list Z) : sum_Z (x :: l) = x + sum_Z l.
Proof. unfold sum_Z at 1. simpl. apply sum_Z_acc. Qed.

Lemma sum_Z_app (l l' : list Z) : sum_Z (l ++ l') = sum_Z l + sum_Z l'.
Proof.
  induction l as [|x l IH]; [reflexivity|].
  change ((x :: l) ++ l')%list with (x :: (l ++ l'))%list.
  rewrite !sum_Z_cons, IH. lia.
Qed.

Lemma sum_Z_nonneg (l : list Z) : Forall (fun x => 0 <= x) l -> 0 <= sum_Z l.
Proof.
  induction 1 as [|x l Hx _ IH]; [reflexivity|]. rewrite sum_Z_cons. lia.
Qed.

Lemma filter_all {A : Type} (P : A -> bool) (l : list A) :
  (forall x, In x l -> P x = true) -> List.filter P l = l.
Proof.
  induction l as [|x l IH]; simpl; intros H; [reflexivity|].
  rewrite (H x) by (left; reflexivity). f_equal. apply IH.
  intros y Hy. apply H. right. exact Hy.
Qed.

(** The sum, over groups with distinct keys, of the sums over the rows of
    each group is the sum over the rows that belong to some group. *)
Lemma sum_over_groups {R : Type} (kf : R -> key) (f : R -> Z)
  (groups : list domain_group) (rows : list R) :
  List.NoDup (map group_key groups) ->
  sum_Z (map (fun g => sum_Z (map f (List.filter
                                       (fun r => key_eqb (kf r) (group_key g)) rows)))
           groups)
  = sum_Z (map f (List.filter
                    (fun r => existsb (fun g => key_eqb (kf r) (group_key g)) groups)
                    rows)).
Proof.
  intros Hnd. induction rows as [|r rows IH]; cbn [List.filter map].
  - induction groups as [|g groups IHg]; [reflexivity|].
    cbn [map]. rewrite sum_Z_cons. inversion Hnd; subst. rewrite IHg by assumption.
    reflexivity.
  - assert (Hsplit :
      sum_Z (map (fun g => sum_Z (map f (if key_eqb (kf r) (group_key g)
                                         then r :: List.filter
                                                (fun r => key_eqb (kf r) (group_key g)) rows
                                         else List.filter
                                                (fun r => key_eqb (kf r) (group_key g)) rows)))
               groups)
      = (if existsb (fun g => key_eqb (kf r) (group_key g)) groups then f r else 0)
        + sum_Z (map (fun g => sum_Z (map f (List.filter
                                              (fun r => key_eqb (kf r) (group_key g)) rows)))
                   groups)).
    { clear IH. induction groups as [|g groups IHg]; [reflexivity|].
      inversion Hnd as [|? ? Hnotin Hnd']; subst.
      cbn [map existsb]. rewrite !sum_Z_cons, (IHg Hnd').
      destruct (key_eqb (kf r) (group_key g)) eqn:E.
      - cbn [map orb]. rewrite sum_Z_cons.
        assert (Hno : existsb (fun g => key_eqb (kf r) (group_key g)) groups = false).
        { destruct (existsb _ groups) eqn:Ex; [|reflexivity].
          apply existsb_exists in Ex. destruct Ex as (g' & Hg' & Ek).
          apply key_eqb_eq in E, Ek. exfalso. apply Hnotin.
          rewrite <- E, Ek. apply in_map. exact Hg'. }
        rewrite Hno. lia.
      - cbn [orb]. lia. }
    rewrite Hsplit, IH.
    destruct (existsb (fun g => key_eqb (kf r) (group_key g)) groups);
      cbn [map]; rewrite ?sum_Z_cons; lia.
Qed.

(** Every contact count of the lookup is at least 1. *)
Lemma contact_count_lookup_positive (contacts_df : list contact) (id v : Z) :
  contact_count_lookup contacts_df !! id = Some v -> 1 <= v.
Proof.
  unfold contact_count_lookup.
  assert (H : forall (m : gmap Z Z),
             (forall id v, m !! id = Some v -> 1 <= v) ->
             forall id v,
               fold_left
                 (fun m p =>
                    match contact_Comp_CompanyId p with
                    | Some id => <[id := dict_get m id 0 + 1]> m
                    | None => m
                    end) contacts_df m !! id = Some v -> 1 <= v).
  { induction contacts_df as [|p l IH]; intros m Hm; [exact Hm|].
    cbn [fold_left]. apply IH.
    destruct (contact_Comp_CompanyId p) as [c|]; [|exact Hm].
    intros id' v'. destruct (decide (c = id')) as [->|Hne].
    - rewrite lookup_insert_eq. intros [= <-]. unfold dict_get.
      destruct (m !! id') as [w|] eqn:E; [apply Hm in E; lia | lia].
    - rewrite lookup_insert_ne by exact Hne. apply Hm. }
  apply H. intros id' v'. rewrite lookup_empty. discriminate.
Qed.

Lemma merged_contact_count_nonneg (groups : list domain_group)
  (contacts_df : list contact) (a : analysis) :
  0 <= cw_contact_count (merge_company groups (contact_count_lookup contacts_df) a).
Proof.
  cbn [cw_contact_count merge_company]. unfold dict_get.
  destruct (contact_count_lookup contacts_df !! _) as [v|] eqn:E; [|lia].
  apply contact_count_lookup_positive in E. lia.
Qed.

(** A merged row has a parent id exactly when a group has its key. *)
Lemma merged_parent_is_some (groups : list domain_group) (lookup : gmap Z Z)
  (a : analysis) :
  match cw_new_parent_id (merge_company groups lookup a) with
  | Some _ => true
  | None => false
  end
  = existsb (fun g => key_eqb (key_of a) (group_key g)) groups.
Proof.
  cbn [cw_new_parent_id merge_company].
  destruct (find_group groups a) as [g|] eqn:E; cbn [option_map].
  - apply find_group_some in E. destruct E as [Hin Hk].
    symmetry. apply existsb_exists. exists g. split; [exact Hin|].
    apply key_eqb_eq. congruence.
  - symmetry. destruct (existsb _ groups) eqn:Ex; [|reflexivity].
    apply existsb_exists in Ex. destruct Ex as (g & Hin & Hk).
    apply key_eqb_eq in Hk. destruct (find_group_none _ _ g E Hin). congruence.
Qed.

Lemma merged_has_multiple_sites (groups : list domain_group) (lookup : gmap Z Z)
  (a : analysis) :
  match cw_has_multiple_sites (merge_company groups lookup a) with
  | Some b => b
  | None => false
  end
  = match cw_new_parent_id (merge_company groups lookup a) with
    | Some _ => true
    | None => false
    end.
Proof.
  cbn [cw_has_multiple_sites cw_new_parent_id merge_company].
  destruct groups as [|g groups]; [reflexivity|].
  destruct (find_group (g :: groups) a); reflexivity.
Qed.

Lemma count_rows_app (test : aggregation_record -> bool)
  (l l' : list aggregation_record) :
  count_rows test (l ++ l') = (count_rows test l + count_rows test l')%nat.
Proof. unfold count_rows. rewrite List.filter_app, List.length_app. reflexivity. Qed.

(** Counting site records through a test that reads the merged row. *)
Lemma count_site_records (now : string) (test : aggregation_record -> bool)
  (Q : company_with_contacts -> bool) (cws : list company_with_contacts) :
  (forall cw rank, test (site_record now cw rank) = Q cw) ->
  count_rows test (_create_site_records now cws) = length (List.filter Q cws).
Proof.
  intros H. unfold count_rows, _create_site_records.
  rewrite <- (List.length_map (fun _ => tt)).
  rewrite (map_filter_zip_with (site_record now) test Q (fun _ => tt) (fun _ => tt)).
  - apply List.length_map.
  - unfold cumcount. rewrite cumcount_from_length, List.length_map. reflexivity.
  - exact H.
  - reflexivity.
Qed.

Lemma count_parent_records (now : string) (test : aggregation_record -> bool)
  (b : bool) (groups : list domain_group) (cws : list company_with_contacts) :
  (forall g, test (parent_record now cws g) = b) ->
  count_rows test (_create_parent_records now groups cws)
  = if b then length groups else 0%nat.
Proof.
  intros H. unfold count_rows, _create_parent_records.
  induction groups as [|g groups IH]; [destruct b; reflexivity|].
  cbn [map List.filter]. rewrite H. destruct b; cbn [length]; rewrite IH; reflexivity.
Qed.

(** The contact counts of a list of records that are not negative split
    into 0, 1 and more. *)
Lemma contact_distribution (l : list aggregation_record) :
  Forall (fun r => 0 <= contact_count r) l ->
  (count_rows (fun r => (contact_count r =? 0)%Z) l
   + count_rows (fun r => (contact_count r =? 1)%Z) l
   + count_rows (fun r => (1 <? contact_count r)%Z) l = length l)%nat
  /\ (count_rows (fun r => (0 <? contact_count r)%Z) l
      = count_rows (fun r => (contact_count r =? 1)%Z) l
        + count_rows (fun r => (1 <? contact_count r)%Z) l)%nat.
Proof.
  unfold count_rows. induction 1 as [|r l Hr _ [IH1 IH2]]; [split; reflexivity|].
  cbn [List.filter].
  destruct (Z.eqb_spec (contact_count r) 0), (Z.eqb_spec (contact_count r) 1),
    (Z.ltb_spec 1 (contact_count r)), (Z.ltb_spec 0 (contact_count r));
    cbn [length]; lia.
Qed.

Lemma length_site_records (now : string) (cws : list company_with_contacts) :
  length (_create_site_records now cws) = length cws.
Proof.
  rewrite <- (filter_all (fun _ => true) (_create_site_records now cws))
    by reflexivity.
  change (count_rows (fun _ => true) (_create_site_records now cws) = length cws).
  rewrite (count_site_records now _ (fun _ => true)) by reflexivity.
  rewrite filter_all by reflexivity. reflexivity.
Qed.

(** The report of a run.  On the output of [process_site_aggregation]
    for at least one company, when the parent ids can be allocated, the
    report is built, and:
    Site and Standalone records together are the companies, and the
    total adds the parent records;
    [total_multi_site_groups] is the number of Site records plus the
    number of parent records, not the number of groups;
    [total_contacts] is the contacts of all companies plus, once more,
    the contacts of the Site records, which their parent records repeat;
    and every record has no, one or several contacts, the records with
    contacts being the last two classes. *)
Theorem aggregation_report_of_run (now : string) (dtype : id_dtype)
  (companies_df : list company) (contacts_df : list contact) :
  parent_ids_allocatable dtype companies_df ->
  companies_df <> [] ->
  let aggregation_df := process_site_aggregation now dtype companies_df contacts_df in
  exists report,
    create_site_aggregation_report aggregation_df = Some report
    /\ (site_records report + standalone_records report = length companies_df)%nat
    /\ (total_records report
        = length companies_df + parent_aggregator_records report)%nat
    /\ (total_multi_site_groups report
        = site_records report + parent_aggregator_records report)%nat
    /\ total_contacts report
       = sum_Z (map contact_count
                  (List.filter (fun r => (source_type r =? "Original")%string)
                     aggregation_df))
         + sum_Z (map contact_count
                    (List.filter (fun r => (record_type r =? "Site")%string)
                       aggregation_df))
    /\ (companies_with_no_contacts report + companies_with_1_contact report
        + companies_with_multiple_contacts report = total_records report)%nat
    /\ (companies_with_contacts report
        = companies_with_1_contact report
          + companies_with_multiple_contacts report)%nat.
Proof.
  intros Halloc Hne aggregation_df. subst aggregation_df.
  destruct (process_site_aggregation_unfold now dtype companies_df contacts_df Halloc)
    as (first & -> & _).
  set (groups := run_groups first companies_df).
  set (cws := run_companies_with_contacts first companies_df contacts_df).
  set (has_parent := fun cw : company_with_contacts =>
                       match cw_new_parent_id cw with
                       | Some _ => true
                       | None => false
                       end).
  assert (Hlen : length cws = length companies_df).
  { unfold cws, run_companies_with_contacts, _analyze_companies.
    rewrite !List.length_map. reflexivity. }
  assert (Hmerged : forall cw, In cw cws ->
            exists a, cw = merge_company groups (contact_count_lookup contacts_df) a).
  { intros cw Hcw. unfold cws, run_companies_with_contacts in Hcw.
    apply in_map_iff in Hcw. destruct Hcw as (a & <- & _). eauto. }
  assert (Hsite : count_rows (fun r => (record_type r =? "Site")%string)
                    (_create_site_records now cws
                     ++ _create_parent_records now groups cws)
                  = length (List.filter has_parent cws)).
  { rewrite count_rows_app, (count_site_records now _ has_parent),
      (count_parent_records now _ false); [lia | reflexivity |].
    intros cw rank. unfold has_parent. cbn [record_type site_record].
    destruct (cw_new_parent_id cw); reflexivity. }
  assert (Hstandalone :
            count_rows (fun r => (record_type r =? "Standalone")%string)
              (_create_site_records now cws ++ _create_parent_records now groups cws)
            = length (List.filter (fun cw => negb (has_parent cw)) cws)).
  { rewrite count_rows_app,
      (count_site_records now _ (fun cw => negb (has_parent cw))),
      (count_parent_records now _ false); [lia | reflexivity |].
    intros cw rank. unfold has_parent. cbn [record_type site_record].
    destruct (cw_new_parent_id cw); reflexivity. }
  assert (Hparent :
            count_rows (fun r => (record_type r =? "Parent_Aggregator")%string)
              (_create_site_records now cws ++ _create_parent_records now groups cws)
            = length groups).
  { rewrite count_rows_app, (count_site_records now _ (fun _ => false)),
      (count_parent_records now _ true); [|reflexivity|].
    - rewrite filter_none by reflexivity. reflexivity.
    - intros cw rank. cbn [record_type site_record].
      destruct (cw_new_parent_id cw); reflexivity. }
  assert (Hmulti :
            count_rows has_multiple_sites
              (_create_site_records now cws ++ _create_parent_records now groups cws)
            = (length (List.filter has_parent cws) + length groups)%nat).
  { rewrite count_rows_app,
      (count_site_records now _
         (fun cw => match cw_has_multiple_sites cw with
                    | Some b => b
                    | None => false
                    end)),
      (count_parent_records now _ true); [|reflexivity|reflexivity].
    f_equal. f_equal. apply List.filter_ext_in. intros cw Hcw.
    destruct (Hmerged cw Hcw) as (a & ->). apply merged_has_multiple_sites. }
  assert (Htotal : length (_create_site_records now cws
                           ++ _create_parent_records now groups cws)
                   = (length companies_df + length groups)%nat).
  { rewrite List.length_app, length_site_records, Hlen.
    unfold _create_parent_records. rewrite List.length_map. reflexivity. }
  assert (Hnonneg : Forall (fun r => 0 <= contact_count r)
                      (_create_site_records now cws
                       ++ _create_parent_records now groups cws)).
  { apply Forall_app. split; apply List.Forall_forall; intros r Hr.
    - unfold _create_site_records in Hr. apply in_zip_with in Hr.
      destruct Hr as (cw & rank & -> & Hcw).
      destruct (Hmerged cw Hcw) as (a & ->).
      apply merged_contact_count_nonneg.
    - unfold _create_parent_records in Hr. apply in_map_iff in Hr.
      destruct Hr as (g & <- & _). cbn [contact_count parent_record].
      apply sum_Z_nonneg. apply List.Forall_forall. intros x Hx.
      apply in_map_iff in Hx. destruct Hx as (cw & <- & Hcw).
      apply List.filter_In in Hcw. destruct Hcw as [Hcw _].
      destruct (Hmerged cw Hcw) as (a & ->).
      apply merged_contact_count_nonneg. }
  assert (Hcontacts :
            sum_Z (map contact_count
                     (_create_site_records now cws
                      ++ _create_parent_records now groups cws))
            = sum_Z (map contact_count
                       (List.filter (fun r => (source_type r =? "Original")%string)
                          (_create_site_records now cws
                           ++ _create_parent_records now groups cws)))
              + sum_Z (map contact_count
                         (List.filter (fun r => (record_type r =? "Site")%string)
                            (_create_site_records now cws
                             ++ _create_parent_records now groups cws)))).
  { rewrite !List.filter_app, !List.map_app, !sum_Z_app.
    rewrite (filter_all _ (_create_site_records now cws)).
    2:{ intros r Hr. unfold _create_site_records in Hr. apply in_zip_with in Hr.
        destruct Hr as (cw & rank & -> & _). reflexivity. }
    rewrite !(filter_none _ (_create_parent_records now groups cws)).
    2,3: intros r Hr; unfold _create_parent_records in Hr; apply in_map_iff in Hr;
      destruct Hr as (g & <- & _); reflexivity.
    cbn [map]. change (sum_Z []) with 0.
    assert (Hp : sum_Z (map contact_count (_create_parent_records now groups cws))
                 = sum_Z (map contact_count
                            (List.filter (fun r => (record_type r =? "Site")%string)
                               (_create_site_records now cws)))).
    { unfold _create_site_records at 1.
      rewrite (map_filter_zip_with (site_record now) _ has_parent
                 contact_count cw_contact_count).
      - unfold _create_parent_records. rewrite List.map_map.
        pose proof (sum_over_groups (fun cw => key_of (cw_analysis cw))
                      cw_contact_count groups cws) as Hs.
        etransitivity; [apply Hs|].
        + apply sorted_keys_NoDup. apply run_groups_sorted.
        + f_equal. f_equal. apply List.filter_ext_in. intros cw Hcw.
          destruct (Hmerged cw Hcw) as (a & ->). symmetry.
          apply merged_parent_is_some.
      - unfold cumcount. rewrite cumcount_from_length, List.length_map. reflexivity.
      - intros cw rank. unfold has_parent. cbn [record_type site_record].
        destruct (cw_new_parent_id cw); reflexivity.
      - reflexivity. }
    rewrite Hp. lia. }
  pose proof (contact_distribution _ Hnonneg) as [Hd1 Hd2].
  pose proof (filter_length_split has_parent cws) as Hsplit.
  destruct (_create_site_records now cws ++ _create_parent_records now groups cws)%list
    as [|r rest] eqn:Eout.
  { exfalso. apply Hne. apply length_zero_iff_nil.
    cbn [length] in Htotal. lia. }
  eexists. split; [reflexivity|].
  cbn [site_records standalone_records parent_aggregator_records total_records
       total_contacts total_multi_site_groups companies_with_contacts
       companies_with_no_contacts companies_with_1_contact
       companies_with_multiple_contacts].
  rewrite Hsite, Hstandalone, Hparent, Hmulti, Htotal, Hcontacts, Hd2.
  repeat split; lia.
Qed.

(** The report of the example run: three contacts are reported as six,
    and the one group as three. *)
Lemma aggregation_report_of_run_witness :
  exists report,
    create_site_aggregation_report
      (process_site_aggregation "01/01/2025 00:00" int64 example_companies
         example_contacts)
    = Some report
    /\ total_contacts report = 6
    /\ total_multi_site_groups report = 3%nat.
Proof.
  destruct (aggregation_report_of_run "01/01/2025 00:00" int64 example_companies
              example_contacts) as (report & Hr & _).
  - exact example_allocatable.
  - discriminate.
  - exists report. split; [exact Hr|].
    vm_compute in Hr. injection Hr as <-. split; reflexivity.
Defined.

(** The lookup counts, for each company id, the contacts that name it. *)
Lemma contact_count_lookup_counts (contacts_df : list contact) (id : Z) :
  dict_get (contact_count_lookup contacts_df) id 0
  = Z.of_nat (length (List.filter (contact_of id) contacts_df)).
Proof.
  unfold contact_count_lookup.
  assert (H : forall m : gmap Z Z,
             dict_get
               (fold_left
                  (fun m p =>
                     match contact_Comp_CompanyId p with
                     | Some id => <[id := dict_get m id 0 + 1]> m
                     | None => m
                     end) contacts_df m) id 0
             = dict_get m id 0
               + Z.of_nat (length (List.filter (contact_of id) contacts_df))).
  { induction contacts_df as [|p l IH]; intros m; cbn [fold_left List.filter length].
    - lia.
    - rewrite IH.
      destruct (contact_Comp_CompanyId p) as [c|] eqn:Ec.
      + assert (Hp : contact_of id p = (c =? id)%Z)
          by (unfold contact_of; rewrite Ec; reflexivity).
        rewrite Hp. destruct (Z.eqb_spec c id) as [->|Hne].
        * unfold dict_get at 1. rewrite lookup_insert_eq. cbn [length]. lia.
        * unfold dict_get at 1. rewrite lookup_insert_ne by exact Hne.
          fold (dict_get m id 0). lia.
      + assert (Hp : contact_of id p = false)
          by (unfold contact_of; rewrite Ec; reflexivity).
        rewrite Hp. lia. }
  rewrite H. unfold dict_get. rewrite lookup_empty. lia.
Qed.

(** Over distinct ids, the per-id counts add up to the number of
    contacts of some id. *)
Lemma contacts_by_company (ids : list Z) (contacts_df : list contact) :
  List.NoDup ids ->
  sum_Z (map (fun id => Z.of_nat (length (List.filter (contact_of id) contacts_df))) ids)
  = Z.of_nat (length (List.filter (contact_of_some ids) contacts_df)).
Proof.
  induction 1 as [|id ids Hnotin Hnd IH]; cbn [map].
  - unfold contact_of_some. cbn [existsb]. rewrite filter_none by reflexivity.
    reflexivity.
  - rewrite sum_Z_cons, IH. clear IH.
    induction contacts_df as [|p l IHl]; [reflexivity|].
    cbn [List.filter].
    assert (Hsome : contact_of_some (id :: ids) p
                    = contact_of id p || contact_of_some ids p) by reflexivity.
    rewrite Hsome. clear Hsome.
    destruct (contact_of id p) eqn:E.
    + assert (Hno : contact_of_some ids p = false).
      { destruct (contact_of_some ids p) eqn:Ex; [|reflexivity].
        apply existsb_exists in Ex. destruct Ex as (id' & Hin & E').
        unfold contact_of in E, E'.
        destruct (contact_Comp_CompanyId p) as [c|]; [|discriminate].
        apply Z.eqb_eq in E, E'. subst. contradiction. }
      rewrite Hno. cbn [orb length]. lia.
    + cbn [orb]. destruct (contact_of_some ids p); cbn [length]; lia.
Qed.

(** Companies and contacts are conserved in the records of source type
    Original of a run whose parent ids can be allocated.  Every company
    of the input has exactly one such record, in input order; and when
    the company ids are distinct, the contact
    counts of these records add up to the number of contacts that name a
    company of the input: no contact is counted twice there, and the
    contacts without a company, or of a company that is not in the
    input, are counted nowhere. *)
Theorem companies_and_contacts_conserved (now : string) (dtype : id_dtype)
  (companies_df : list company) (contacts_df : list contact) :
  parent_ids_allocatable dtype companies_df ->
  let originals :=
    List.filter (fun r => (source_type r =? "Original")%string)
      (process_site_aggregation now dtype companies_df contacts_df) in
  map company_id originals = map Comp_CompanyId companies_df
  /\ (List.NoDup (map Comp_CompanyId companies_df) ->
      sum_Z (map contact_count originals)
      = Z.of_nat (length (List.filter
                            (contact_of_some (map Comp_CompanyId companies_df))
                            contacts_df))).
Proof.
  intros Halloc originals. subst originals.
  destruct (process_site_aggregation_unfold now dtype companies_df contacts_df Halloc)
    as (first & -> & _).
  rewrite List.filter_app.
  rewrite (filter_none _ (_create_parent_records _ _ _)).
  2:{ intros r Hr. unfold _create_parent_records in Hr. apply in_map_iff in Hr.
      destruct Hr as (g & <- & _). reflexivity. }
  rewrite app_nil_r.
  assert (Hproj : forall {D : Type} (g : aggregation_record -> D)
                    (h : company_with_contacts -> D) cws,
             (forall cw rank, g (site_record now cw rank) = h cw) ->
             map g (List.filter (fun r => (source_type r =? "Original")%string)
                      (_create_site_records now cws))
             = map h cws).
  { intros D g h cws Hgh. unfold _create_site_records.
    rewrite (map_filter_zip_with (site_record now) _ (fun _ => true) g h).
    - rewrite filter_all by reflexivity. reflexivity.
    - unfold cumcount. rewrite cumcount_from_length, List.length_map. reflexivity.
    - reflexivity.
    - exact Hgh. }
  split.
  - rewrite (Hproj _ company_id
               (fun cw => Comp_CompanyId (an_company (cw_analysis cw))))
      by reflexivity.
    unfold run_companies_with_contacts, _analyze_companies.
    rewrite !List.map_map. reflexivity.
  - intros Hnd.
    rewrite (Hproj _ contact_count cw_contact_count) by reflexivity.
    unfold run_companies_with_contacts, _analyze_companies.
    rewrite !List.map_map. cbn [cw_contact_count merge_company an_company].
    rewrite <- (contacts_by_company _ contacts_df Hnd).
    rewrite List.map_map. f_equal. apply List.map_ext. intros c.
    apply contact_count_lookup_counts.
Qed.

(** On the example: four companies, three contacts. *)
Lemma companies_and_contacts_conserved_witness :
  sum_Z (map contact_count
           (List.filter (fun r => (source_type r =? "Original")%string)
              (process_site_aggregation "01/01/2025 00:00" int64 example_companies
                 example_contacts)))
  = 3.
Proof.
  destruct (companies_and_contacts_conserved "01/01/2025 00:00" int64 example_companies
              example_contacts example_allocatable) as [_ H].
  rewrite H; [reflexivity|].
  vm_compute. repeat constructor; simpl; intuition discriminate.
Defined.

End SiteReport.

(** ** The clustering key: name and domain analysis *)

Section NameAnalysis.

Import SiteAggregation.

Lemma lower_char_idempotent (c : ascii) :
  PyStr.lower_char (PyStr.lower_char c) = PyStr.lower_char c.
Proof. destruct c as [[] [] [] [] [] [] [] []]; reflexivity. Qed.

Lemma lower_idempotent (s : string) : PyStr.lower (PyStr.lower s) = PyStr.lower s.
Proof.
  induction s as [|c s IH]; [reflexivity|].
  cbn [PyStr.lower]. rewrite lower_char_idempotent, IH. reflexivity.
Qed.

Lemma lower_cons (c : ascii) (s : string) :
  PyStr.lower (String c s) = String c s ->
  PyStr.lower_char c = c /\ PyStr.lower s = s.
Proof. cbn [PyStr.lower]. intros [= H1 H2]. split; assumption. Qed.

Lemma substring_lower (n m : nat) (s : string) :
  PyStr.lower s = s -> PyStr.lower (substring n m s) = substring n m s.
Proof.
  revert n m. induction s as [|c s IH]; intros n m H.
  - destruct n, m; reflexivity.
  - apply lower_cons in H. destruct H as [Hc Hs].
    destruct n as [|n]; [destruct m as [|m]|]; cbn [substring PyStr.lower].
    + reflexivity.
    + rewrite Hc, (IH 0%nat m Hs). reflexivity.
    + apply IH. exact Hs.
Qed.

Lemma drop_prefix_lower (p s : string) :
  PyStr.lower s = s -> PyStr.lower (PyStr.drop_prefix p s) = PyStr.drop_prefix p s.
Proof.
  intros H. unfold PyStr.drop_prefix.
  destruct (String.prefix p s); [apply substring_lower|]; exact H.
Qed.

Lemma before_char_lower (c : ascii) (s : string) :
  PyStr.lower s = s -> PyStr.lower (PyStr.before_char c s) = PyStr.before_char c s.
Proof.
  induction s as [|d s IH]; intros H; [reflexivity|].
  apply lower_cons in H. destruct H as [Hd Hs].
  cbn [PyStr.before_char]. destruct (Ascii.eqb c d); [reflexivity|].
  cbn [PyStr.lower]. rewrite Hd, (IH Hs). reflexivity.
Qed.

(** The text before the first [c] has no [c]. *)
Lemma before_char_free (c : ascii) (s : string) :
  PyStr.contains (String c "") (PyStr.before_char c s) = false.
Proof.
  induction s as [|d s IH]; [reflexivity|].
  cbn [PyStr.before_char]. destruct (Ascii.eqb_spec c d) as [->|Hne]; [reflexivity|].
  cbn [PyStr.contains String.prefix]. rewrite IH.
  destruct (ascii_dec c d); [contradiction | reflexivity].
Qed.

(** Cutting a text that has no [c'] leaves a text that has no [c']. *)
Lemma before_char_keeps_free (c c' : ascii) (s : string) :
  PyStr.contains (String c' "") s = false ->
  PyStr.contains (String c' "") (PyStr.before_char c s) = false.
Proof.
  induction s as [|d s IH]; intros H; [reflexivity|].
  cbn [PyStr.before_char]. destruct (Ascii.eqb c d); [reflexivity|].
  cbn [PyStr.contains] in H |- *. apply orb_false_iff in H. destruct H as [Hp Hc].
  rewrite (IH Hc), orb_false_r.
  cbn [String.prefix] in Hp |- *. destruct (ascii_dec c' d); [|reflexivity].
  destruct s; discriminate Hp.
Qed.

(** The domain half of the clustering key is normalised: whatever the
    website cell, [_clean_domain] returns a text that is not empty, has
    no upper-case ASCII letter, no slash and no colon (so no scheme,
    path or port is left). *)
Theorem clean_domain_normalised (website : text_cell) :
  _clean_domain website <> ""
  /\ PyStr.lower (_clean_domain website) = _clean_domain website
  /\ PyStr.contains "/" (_clean_domain website) = false
  /\ PyStr.contains ":" (_clean_domain website) = false.
Proof.
  destruct website as [s| |]; [|repeat split; discriminate..].
  unfold _clean_domain.
  destruct (negb (PyStr.truthy s) || PyStr.in_list s [""; "NULL"; "NaN"]);
    [repeat split; discriminate|].
  set (d0 := PyStr.lower (PyStr.strip s)).
  set (d1 := if String.prefix "http://" d0 then PyStr.drop_prefix "http://" d0
             else PyStr.drop_prefix "https://" d0).
  set (d2 := PyStr.drop_prefix "www." d1).
  assert (H2 : PyStr.lower d2 = d2).
  { apply drop_prefix_lower. unfold d1.
    destruct (String.prefix "http://" d0); apply drop_prefix_lower, lower_idempotent. }
  cbv zeta.
  destruct (PyStr.truthy (PyStr.before_char ":" (PyStr.before_char "/" d2))) eqn:E;
    [|repeat split; discriminate].
  split; [|split; [|split]].
  - intros K. rewrite K in E. discriminate E.
  - apply before_char_lower, before_char_lower, H2.
  - apply before_char_keeps_free, before_char_free.
  - apply before_char_free.
Qed.

(** The location indicators are the first twelve base-name
    indicators. *)
Lemma location_indicator_is_base_indicator (word : string) :
  any_indicator_in location_indicators word = true ->
  any_indicator_in base_name_indicators word = true.
Proof.
  unfold any_indicator_in.
  change base_name_indicators
    with (location_indicators
          ++ ["north"; "south"; "east"; "west"; "corp"; "inc"; "ltd"; "sa"])%list.
  rewrite existsb_app. intros ->. reflexivity.
Qed.

(** Base name and location split the company name consistently.  For a
    name that is not empty, with [words] the words of the stripped name:
    when there are several words and the last one, lower-cased, holds a
    location indicator, the location is that last word and the base name
    is the words before it, joined by single spaces; otherwise the
    location is HQ.  A missing or empty name has location HQ and an empty
    base name. *)
Theorem location_is_the_dropped_word (s : string) :
  s <> "" ->
  let words := PyStr.split_ws (PyStr.strip s) in
  let located :=
    (1 <? length words)%nat
    && any_indicator_in location_indicators (PyStr.lower (List.last words "")) in
  (located = true ->
   _extract_location (Text s) = List.last words ""
   /\ _extract_base_company_name (Text s) = PyStr.join " " (removelast words))
  /\ (located = false -> _extract_location (Text s) = "HQ")
  /\ Forall (fun missing =>
               _extract_location missing = "HQ"
               /\ _extract_base_company_name missing = "")
       [NaN; PyNone; Text ""].
Proof.
  intros Hs words located. subst located words.
  unfold _extract_location, _extract_base_company_name.
  assert (Ht : negb (PyStr.truthy s) = false).
  { unfold PyStr.truthy. apply String.eqb_neq in Hs. rewrite Hs. reflexivity. }
  rewrite Ht. cbv zeta.
  destruct (1 <? length (PyStr.split_ws (PyStr.strip s)))%nat; cbn [andb].
  - split; [|split].
    + intros Hi. rewrite Hi, (location_indicator_is_base_indicator _ Hi).
      split; reflexivity.
    + intros Hi. rewrite Hi. reflexivity.
    + repeat constructor.
  - split; [discriminate|]. split; [reflexivity | repeat constructor].
Qed.

(** On two names: Acme Grenoble splits into Acme and Grenoble; Beta Corp
    has no location word, so its location is HQ. *)
Lemma location_is_the_dropped_word_witness :
  (_extract_location (Text "Acme Grenoble") = "Grenoble"
   /\ _extract_base_company_name (Text "Acme Grenoble") = "Acme")
  /\ _extract_location (Text "Beta Corp") = "HQ".
Proof.
  split.
  - destruct (location_is_the_dropped_word "Acme Grenoble") as (H & _ & _);
      [discriminate|].
    exact (H eq_refl).
  - destruct (location_is_the_dropped_word "Beta Corp") as (_ & H & _);
      [discriminate|].
    exact (H eq_refl).
Defined.

End NameAnalysis.

(** ** Weighted amounts and risk levels *)

Section WeightedAmountFacts.

Import ComputedColumns.
Local Open Scope float_scope.

Ltac absent_or_present :=
  repeat match goal with
         | H : is_Some None |- _ => destruct (is_Some_None H)
         | H : _ /\ _ |- _ => destruct H
         | H : _ \/ _ |- _ => destruct H
         | |- is_Some (Some _) => eexists; reflexivity
         | |- _ <-> _ => split; intros
         | |- _ /\ _ => split
         end.

(** [calculate_net_amount] writes a net amount exactly when the frame has
    a forecast and a cost, and leaves the certainty alone. *)
Lemma net_amount_presence (df : frame) :
  df !! "net_amount" = None ->
  (is_Some (calculate_net_amount df !! "net_amount")
   <-> is_Some (df !! "Oppo_Forecast") /\ is_Some (df !! "oppo_cout"))
  /\ calculate_net_amount df !! "Oppo_Certainty" = df !! "Oppo_Certainty"
  /\ calculate_net_amount df !! "net_weighted_amount" = df !! "net_weighted_amount".
Proof.
  intros Hn. unfold calculate_net_amount.
  destruct (df !! "Oppo_Forecast") as [forecast|] eqn:Hf.
  - rewrite lookup_insert_ne by discriminate.
    destruct (df !! "oppo_cout") as [cout|] eqn:Hc.
    + rewrite lookup_insert_eq, !lookup_insert_ne by discriminate.
      absent_or_present; reflexivity.
    + rewrite !lookup_insert_ne by discriminate. rewrite Hn.
      absent_or_present; reflexivity.
  - rewrite Hn. absent_or_present; reflexivity.
Qed.

(** The net weighted amount.  The step swallows its errors, so what
    matters is when the column is written: exactly when the frame has a
    certainty and either a net amount or both a forecast and a cost.  A
    net amount the frame already has is used as it is, neither recomputed
    from forecast and cost nor filled; the one the step computes is
    forecast minus cost, missing values read as 0.  Each row is the net
    amount times certainty / 100, a missing certainty read as 0. *)
Theorem net_weighted_amount_columns (df : frame) :
  df !! "net_weighted_amount" = None ->
  (is_Some (calculate_net_weighted_amount df !! "net_weighted_amount")
   <-> is_Some (df !! "Oppo_Certainty")
       /\ (is_Some (df !! "net_amount")
           \/ is_Some (df !! "Oppo_Forecast") /\ is_Some (df !! "oppo_cout")))
  /\ (forall net certainty,
        df !! "net_amount" = Some net ->
        df !! "Oppo_Certainty" = Some certainty ->
        calculate_net_weighted_amount df !! "net_weighted_amount"
        = Some (zip_with (fun n c => n * (c / 100)) net (to_numeric_fillna certainty)))
  /\ (forall forecast cout certainty,
        df !! "net_amount" = None ->
        df !! "Oppo_Forecast" = Some forecast ->
        df !! "oppo_cout" = Some cout ->
        df !! "Oppo_Certainty" = Some certainty ->
        calculate_net_weighted_amount df !! "net_weighted_amount"
        = Some (zip_with (fun n c => n * (c / 100))
                  (zip_with PrimFloat.sub (to_numeric_fillna forecast)
                     (to_numeric_fillna cout))
                  (to_numeric_fillna certainty))).
Proof.
  intros Hw. split; [|split].
  - unfold calculate_net_weighted_amount.
    destruct (df !! "net_amount") as [net|] eqn:Hn.
    + destruct (df !! "Oppo_Certainty") as [certainty|] eqn:Hcert.
      * rewrite lookup_insert_ne by discriminate. rewrite Hn, lookup_insert_eq.
        absent_or_present. left. eauto.
      * rewrite Hw. absent_or_present.
    + destruct (net_amount_presence df Hn) as (Hnet & Hcert & Hnw).
      rewrite Hcert.
      destruct (df !! "Oppo_Certainty") as [certainty|] eqn:Hce.
      * rewrite lookup_insert_ne by discriminate.
        destruct (calculate_net_amount df !! "net_amount") as [net|] eqn:Hn'.
        -- rewrite lookup_insert_eq.
           assert (Hfc : is_Some (df !! "Oppo_Forecast") /\ is_Some (df !! "oppo_cout"))
             by (apply Hnet; eauto).
           split; [intros _ | eauto]. split; [eauto | right; exact Hfc].
        -- rewrite lookup_insert_ne by discriminate. rewrite Hnw, Hw.
           split; [intros H; destruct (is_Some_None H)|].
           intros [_ [H | H]]; [destruct (is_Some_None H)|].
           apply Hnet in H. destruct (is_Some_None H).
      * rewrite Hnw, Hw. absent_or_present.
  - intros net certainty Hn Hcert. unfold calculate_net_weighted_amount.
    rewrite Hn, Hcert. rewrite lookup_insert_ne by discriminate.
    rewrite Hn. apply lookup_insert_eq.
  - intros forecast cout certainty Hn Hf Hc Hcert.
    destruct (net_amount_computed df forecast cout Hf Hc) as (_ & _ & Hnet).
    destruct (net_amount_presence df Hn) as (_ & Hcert' & _).
    unfold calculate_net_weighted_amount.
    rewrite Hn, Hcert', Hcert. rewrite lookup_insert_ne by discriminate.
    rewrite Hnet. apply lookup_insert_eq.
Qed.

(** On the example: nets 800, -50 and 0 at certainties 50, missing and
    100. *)
Lemma net_weighted_amount_columns_witness :
  calculate_net_weighted_amount three_deals_with_certainty !! "net_weighted_amount"
  = Some [400; -0; 0].
Proof.
  destruct (net_weighted_amount_columns three_deals_with_certainty eq_refl)
    as (_ & _ & H).
  rewrite (H [1000; 0; nan] [200; 50; 0] [50; nan; 100]);
    try reflexivity.
Defined.

(** Nothing is both below 30 and above 70: the two thresholds compare by
    their exponents. *)
Lemma below_30_not_above_70 (x : float) :
  (x <? 30) = true -> (70 <? x) = false.
Proof.
  intros H. destruct (70 <? x) eqn:E; [|reflexivity]. exfalso.
  revert H E. rewrite !ltb_spec. unfold SFltb.
  let v := eval vm_compute in (Prim2SF 30) in change (Prim2SF 30) with v.
  let v := eval vm_compute in (Prim2SF 70) in change (Prim2SF 70) with v.
  destruct (Prim2SF x) as [s|s| |s m e]; cbn [SFcompare].
  - destruct s; discriminate.
  - destruct s; discriminate.
  - discriminate.
  - destruct s; [discriminate|].
    destruct (Z.compare_spec e (-48)) as [He|He|He];
      destruct (Z.compare_spec (-46) e) as [He'|He'|He']; intros H1 H2;
      try discriminate; lia.
Qed.

(** Risk levels.  Every certainty cell gets one of the three levels,
    which is what [validate_computations] checks; a missing certainty is
    read as 0 and is High Risk; the level is High Risk exactly below 30,
    Low Risk exactly above 70, and Medium Risk exactly from 30 to 70, both
    included. *)
Theorem risk_levels (df : frame) (certainty : list float) :
  df !! "Oppo_Certainty" = Some certainty ->
  exists risk_assessment,
    (assess_risk_level df).2 = Some risk_assessment
    /\ risk_assessment_valid risk_assessment = true
    /\ Forall2
         (fun c r =>
            let c0 := PyFloat.fillna0 c in
            (PrimFloat.is_nan c = true -> r = "High Risk")
            /\ (r = "High Risk" <-> (c0 <? 30) = true)
            /\ (r = "Medium Risk" <-> (30 <=? c0) = true /\ (c0 <=? 70) = true)
            /\ (r = "Low Risk" <-> (70 <? c0) = true))
         certainty risk_assessment.
Proof.
  intros Hc. unfold assess_risk_level. rewrite Hc. cbn [snd].
  eexists. split; [reflexivity|]. unfold to_numeric_fillna. rewrite List.map_map.
  split.
  - unfold risk_assessment_valid. rewrite forallb_forall. intros r Hr.
    apply in_map_iff in Hr. destruct Hr as (c & <- & _). unfold get_risk_level.
    destruct (_ <? 30); [reflexivity|]. destruct (_ <=? 70); reflexivity.
  - clear Hc. induction certainty as [|c l IH]; constructor; [|exact IH].
    cbv zeta. unfold get_risk_level.
    pose proof (fillna0_not_nan c) as Hnan.
    split.
    { intros Hc. unfold PyFloat.fillna0. rewrite Hc. reflexivity. }
    assert (Hn30 : PrimFloat.is_nan 30 = false) by reflexivity.
    assert (Hn70 : PrimFloat.is_nan 70 = false) by reflexivity.
    destruct (PyFloat.fillna0 c <? 30) eqn:E30.
    + pose proof (ltb_true_leb_false _ _ E30) as E30'.
      pose proof (below_30_not_above_70 _ E30) as E70.
      rewrite E30', E70. repeat split; try discriminate; try tauto.
      intros [K _]. discriminate K.
    + pose proof (ltb_false_leb_true _ _ Hnan Hn30 E30) as E30'.
      rewrite E30'.
      destruct (PyFloat.fillna0 c <=? 70) eqn:E70.
      * rewrite (leb_true_ltb_false _ _ E70).
        repeat split; try discriminate; try tauto.
      * assert (E70' : (70 <? PyFloat.fillna0 c) = true).
        { destruct (70 <? PyFloat.fillna0 c) eqn:E; [reflexivity|].
          rewrite (ltb_false_leb_true _ _ Hn70 Hnan E) in E70. discriminate E70. }
        rewrite E70'. repeat split; try discriminate; try tauto.
        intros [_ K]. discriminate K.
Qed.

Lemma risk_levels_witness :
  (assess_risk_level three_deals_with_certainty).2
  = Some ["Medium Risk"; "High Risk"; "Low Risk"]%string.
Proof.
  destruct (risk_levels three_deals_with_certainty [50; nan; 100] eq_refl)
    as (r & Hr & _).
  rewrite Hr. vm_compute in Hr. injection Hr as <-. reflexivity.
Defined.

End WeightedAmountFacts.
